(** * DICOM dose-profile tool: a shallow embedding of the numerical core

    The Python sources embedded here are [read_rtdose.py] (class
    [RTDoseReader]), [read_rtplan.py] (class [RTPlanReader]) and
    [profiles_from_dicom.py] (class [ProfileTool]).

    Python floats and NumPy float arrays are modelled by the real numbers
    [R] of the Standard Library, so the statements about the sampling, the
    interpolation and the transforms are about the computation carried out
    in exact arithmetic.  The zero point is modelled a second time on IEEE
    doubles ([Binary64.get_zero_point]), where the rounding decides what is
    returned.  Python exceptions are modelled by the type [exn], a call by
    its [outcome], and the attributes a method mutates are threaded through
    a small state-and-exception monad [py]. *)

From Stdlib Require Import Reals Lra Lia ZArith QArith Qreals.
From stdpp Require Import gmap strings list pretty.

#[local] Open Scope R_scope.

(** ** Exceptions and outcomes *)

(** The [ValueError]s of the program, by the place that raises them. *)
Inductive value_error : Type :=
  | InterpolationMethodNotSupported   (* RTDoseReader.set_interpolation_method *)
  | InterpolatorNotRegularGrid        (* RTDoseReader.get_profile *)
  | RelativeDoseNotSupported          (* ProfileTool.get_profile, DoseUnits RELATIVE *)
  | InvalidDoseUnits (units : string) (* ProfileTool.get_profile, any other DoseUnits *)
  | OnlyCsvSupported                  (* ProfileTool.profiles_from_file *)
  | CannotUnpack                      (* tuple unpacking of a sequence of the wrong length *)
  | NegativeNumberOfSamples           (* numpy.linspace *)
  | CannotConvertNaN                  (* int() of a NaN *)
  | MethodNotDefined                  (* scipy RegularGridInterpolator constructor *)
  | AxesDontMatchArray                (* ndarray.transpose with the wrong number of axes *)
  | PointOutOfBounds.                 (* scipy RegularGridInterpolator, bounds_error=True *)

Inductive exn : Type :=
  | AssertionError (why : string)
  | ValueError (why : value_error)
  | KeyError (key : string)
  | TypeError
  | IndexError
  | AttributeError
  | OverflowError
  | LinAlgError.

Inductive outcome (A : Type) : Type :=
  | Returns (a : A)
  | Raises (e : exn).
Arguments Returns {A} a.
Arguments Raises {A} e.

#[global] Instance outcome_ret : MRet outcome := fun A a => Returns a.
#[global] Instance outcome_bind : MBind outcome := fun A B k m =>
  match m with
  | Returns a => k a
  | Raises e => Raises e
  end.
#[global] Instance outcome_fmap : FMap outcome := fun A B f m =>
  match m with
  | Returns a => Returns (f a)
  | Raises e => Raises e
  end.

(** [py S A]: a method of an object whose attributes are [S]; an exception
    leaves the attributes as they were when it was raised. *)
Definition py (S A : Type) : Type := S -> outcome A * S.

#[global] Instance py_ret {S} : MRet (py S) := fun A a s => (Returns a, s).
#[global] Instance py_bind {S} : MBind (py S) := fun A B k m s =>
  match m s with
  | (Returns a, s') => k a s'
  | (Raises e, s') => (Raises e, s')
  end.

Definition raise {S A} (e : exn) : py S A := fun s => (Raises e, s).
Definition lift {S A} (m : outcome A) : py S A := fun s => (m, s).
Definition get_self {S} : py S S := fun s => (Returns s, s).

(** The value a method call produces, forgetting the final attributes. *)
Definition result {S A} (m : py S A) (s : S) : outcome A := fst (m s).
Definition final {S A} (m : py S A) (s : S) : S := snd (m s).

(** ** Points, vectors and the homogeneous transform *)

Definition vec3 : Type := R * R * R.
Definition vec4 : Type := R * R * R * R.
(** A 4x4 array, by rows. *)
Definition mat4 : Type := vec4 * vec4 * vec4 * vec4.
Definition mat3 : Type := vec3 * vec3 * vec3.

Definition vadd (a b : vec3) : vec3 :=
  let '(a0, a1, a2) := a in let '(b0, b1, b2) := b in (a0 + b0, a1 + b1, a2 + b2).
Definition vsub (a b : vec3) : vec3 :=
  let '(a0, a1, a2) := a in let '(b0, b1, b2) := b in (a0 - b0, a1 - b1, a2 - b2).
Definition vscale (c : R) (a : vec3) : vec3 :=
  let '(a0, a1, a2) := a in (a0 * c, a1 * c, a2 * c).
Definition vdiv (a : vec3) (c : R) : vec3 :=
  let '(a0, a1, a2) := a in (a0 / c, a1 / c, a2 / c).
Definition to_list (a : vec3) : list R :=
  let '(a0, a1, a2) := a in [a0; a1; a2].

(** [numpy.cross] of two 3-vectors. *)
Definition np_cross (a b : vec3) : vec3 :=
  let '(a0, a1, a2) := a in
  let '(b0, b1, b2) := b in
  (a1 * b2 - a2 * b1, a2 * b0 - a0 * b2, a0 * b1 - a1 * b0).

(** [numpy.linalg.norm] of a 1-D array: the Euclidean norm. *)
Definition linalg_norm (v : list R) : R :=
  sqrt (foldr (fun a s => a * a + s) 0 v).

(** Elementwise difference of two 1-D arrays of one length. *)
Definition np_sub (a b : list R) : list R := zip_with Rminus a b.

Definition entry4 (v : vec4) (j : nat) : R :=
  let '(a, b, c, d) := v in
  match j with O => a | 1%nat => b | 2%nat => c | _ => d end.
Definition row4 (M : mat4) (i : nat) : vec4 :=
  let '(r0, r1, r2, r3) := M in
  match i with O => r0 | 1%nat => r1 | 2%nat => r2 | _ => r3 end.
Definition entry (M : mat4) (i j : nat) : R := entry4 (row4 M i) j.

Definition build4 (f : nat -> nat -> R) : mat4 :=
  ((f 0 0, f 0 1, f 0 2, f 0 3),
   (f 1 0, f 1 1, f 1 2, f 1 3),
   (f 2 0, f 2 1, f 2 2, f 2 3),
   (f 3 0, f 3 1, f 3 2, f 3 3))%nat.

(** The index that remains in position [k] once index [i] is struck out. *)
Definition skip (i k : nat) : nat := if (k <? i)%nat then k else S k.

Definition minor (M : mat4) (i j : nat) : mat3 :=
  let m a b := entry M (skip i a) (skip j b) in
  ((m 0 0, m 0 1, m 0 2),
   (m 1 0, m 1 1, m 1 2),
   (m 2 0, m 2 1, m 2 2))%nat.

Definition det3 (A : mat3) : R :=
  let '((a, b, c), (d, e, f), (g, h, i)) := A in
  a * (e * i - f * h) - b * (d * i - f * g) + c * (d * h - e * g).

Definition sign (n : nat) : R := if Nat.even n then 1 else -1.

Definition cofactor (M : mat4) (i j : nat) : R :=
  sign (i + j) * det3 (minor M i j).

Definition det4 (M : mat4) : R :=
  entry M 0 0 * cofactor M 0 0 + entry M 0 1 * cofactor M 0 1
  + entry M 0 2 * cofactor M 0 2 + entry M 0 3 * cofactor M 0 3.

Definition matmul (A B : mat4) : mat4 :=
  build4 (fun i j =>
    entry A i 0 * entry B 0 j + entry A i 1 * entry B 1 j
    + entry A i 2 * entry B 2 j + entry A i 3 * entry B 3 j).

Definition identity4 : mat4 :=
  ((1, 0, 0, 0), (0, 1, 0, 0), (0, 0, 1, 0), (0, 0, 0, 1)).

(** [numpy.linalg.inv]: the inverse of a square matrix, [LinAlgError] when
    the matrix is singular.  In exact arithmetic the singular matrices are
    those of determinant zero and the inverse is the adjugate over the
    determinant. *)
Definition linalg_inv (M : mat4) : outcome mat4 :=
  if Req_dec_T (det4 M) 0 then Raises LinAlgError
  else Returns (build4 (fun i j => cofactor M j i / det4 M)).

(** [M @ (x, y, z, 1)], rows 0 to 2: a patient point to index space and back. *)
Definition apply_affine (M : mat4) (p : vec3) : vec3 :=
  let '(x, y, z) := p in
  let r i := entry M i 0 * x + entry M i 1 * y + entry M i 2 * z + entry M i 3 * 1 in
  (r 0, r 1, r 2)%nat.

(** ** Three-dimensional arrays *)

(** A 3-D NumPy array: its shape and its items.  The items are read at
    indices inside the shape only. *)
Record ndarray3 : Type := {
  shape : Z * Z * Z;
  item : Z -> Z -> Z -> R
}.

(** [a.transpose((2, 1, 0))] *)
Definition transpose210 (a : ndarray3) : ndarray3 :=
  {| shape := let '(n0, n1, n2) := shape a in (n2, n1, n0);
     item := fun i j k => item a k j i |}.

(** What [Dataset.pixel_array] gives for a dose grid, which has one sample
    per pixel: a 2-D array (rows, columns) when the dataset holds a single
    frame, a 3-D array (frames, rows, columns) when it holds several. *)
Inductive pixel_data : Type :=
  | Frame (shape2 : Z * Z) (item2 : Z -> Z -> R)
  | Frames (a : ndarray3).

(** [a.transpose((2, 1, 0))] on the pixel data: three axes do not match an
    array of two dimensions. *)
Definition transpose_pixels (a : pixel_data) : outcome ndarray3 :=
  match a with
  | Frames a => Returns (transpose210 a)
  | Frame _ _ => Raises (ValueError AxesDontMatchArray)
  end.

(** [a * c] for a scalar [c] *)
Definition scale_array (a : ndarray3) (c : R) : ndarray3 :=
  {| shape := shape a; item := fun i j k => item a i j k * c |}.

(** ** [scipy.interpolate.RegularGridInterpolator]

    The interpolator of SciPy on the grid
    [(range(dim[0]), range(dim[1]), range(dim[2]))], after its reference
    implementation: [_find_indices], [_evaluate_linear],
    [_evaluate_nearest] and [__call__]. *)

Inductive interp_method : Type := Linear | Nearest.

Record RegularGridInterpolator : Type := {
  rgi_values : ndarray3;
  rgi_method : interp_method;
  bounds_error : bool;
  fill_value : R
}.

(** The constructor refuses a method it does not know. *)
Definition RegularGridInterpolator_new (values : ndarray3) (method : string)
    (bounds_error : bool) (fill_value : R) : outcome RegularGridInterpolator :=
  if String.eqb method "linear" then
    Returns {| rgi_values := values; rgi_method := Linear;
               bounds_error := bounds_error; fill_value := fill_value |}
  else if String.eqb method "nearest" then
    Returns {| rgi_values := values; rgi_method := Nearest;
               bounds_error := bounds_error; fill_value := fill_value |}
  else Raises (ValueError MethodNotDefined).

(** [numpy.searchsorted(range(n), x)]: how many of [0 .. n-1] lie strictly
    below [x]. *)
Definition searchsorted_range (n : Z) (x : R) : Z :=
  Z.max 0 (Z.min n (Zceil x)).

(** One axis of [_find_indices]: the lower node of the cell and the
    normalised distance to it. *)
Definition find_index (n : Z) (x : R) : Z * R :=
  let i := (searchsorted_range n x - 1)%Z in
  let i := if (i <? 0)%Z then 0%Z else i in
  let i := if (i >? n - 2)%Z then (n - 2)%Z else i in
  (i, (x - IZR i) / (IZR (i + 1) - IZR i)).

(** One axis of the bounds test: [x < grid[0]] or [x > grid[-1]]. *)
Definition axis_out_of_bounds (n : Z) (x : R) : bool :=
  if Rlt_dec x 0 then true
  else if Rgt_dec x (IZR (n - 1)) then true else false.

Definition out_of_bounds (a : ndarray3) (p : vec3) : bool :=
  let '(n0, n1, n2) := shape a in
  let '(x, y, z) := p in
  axis_out_of_bounds n0 x || axis_out_of_bounds n1 y || axis_out_of_bounds n2 z.

(** The weight of a node along one axis: [1 - yi] at the lower node,
    [yi] at the upper one. *)
Definition weight1 (upper : bool) (yi : R) : R := if upper then yi else 1 - yi.
Definition node1 (upper : bool) (i : Z) : Z := if upper then (i + 1)%Z else i.

Definition _evaluate_linear (a : ndarray3) (p : vec3) : R :=
  let '(n0, n1, n2) := shape a in
  let '(x, y, z) := p in
  let '(i0, y0) := find_index n0 x in
  let '(i1, y1) := find_index n1 y in
  let '(i2, y2) := find_index n2 z in
  foldr (fun '(e0, e1, e2) values =>
           item a (node1 e0 i0) (node1 e1 i1) (node1 e2 i2)
           * (weight1 e0 y0 * weight1 e1 y1 * weight1 e2 y2) + values)
        0
        (e0 ← [false; true]; e1 ← [false; true]; e2 ← [false; true];
         [(e0, e1, e2)]).

(** [numpy.where(yi <= .5, i, i + 1)]: a tie goes to the lower node. *)
Definition nearest1 (i : Z) (yi : R) : Z :=
  if Rle_dec yi (1 / 2) then i else (i + 1)%Z.

Definition _evaluate_nearest (a : ndarray3) (p : vec3) : R :=
  let '(n0, n1, n2) := shape a in
  let '(x, y, z) := p in
  let '(i0, y0) := find_index n0 x in
  let '(i1, y1) := find_index n1 y in
  let '(i2, y2) := find_index n2 z in
  item a (nearest1 i0 y0) (nearest1 i1 y1) (nearest1 i2 y2).

(** [__call__] at one index-space point. *)
Definition rgi_call (f : RegularGridInterpolator) (p : vec3) : outcome R :=
  let oob := out_of_bounds (rgi_values f) p in
  if bounds_error f && oob then Raises (ValueError PointOutOfBounds)
  else
    let value :=
      match rgi_method f with
      | Linear => _evaluate_linear (rgi_values f) p
      | Nearest => _evaluate_nearest (rgi_values f) p
      end in
    Returns (if negb (bounds_error f) && oob then fill_value f else value).

(** [__call__] at an array of points. *)
Definition rgi_call_all (f : RegularGridInterpolator) (ps : list vec3)
    : outcome (list R) :=
  mapM (rgi_call f) ps.

(** ** [numpy.linspace] and the sample count *)

(** [numpy.linspace(start, stop, num)]: [num] evenly spaced samples over
    the closed interval; sample [i] is [start + i * step] with
    [step = (stop - start) / (num - 1)], and with one sample only [start]
    is produced.  A negative [num] is refused. *)
Definition linspace (start stop : R) (num : Z) : outcome (list R) :=
  if (num <? 0)%Z then Raises (ValueError NegativeNumberOfSamples)
  else
    let div := (num - 1)%Z in
    let delta := stop - start in
    let step := if (0 <? div)%Z then delta / IZR div else delta in
    Returns ((fun i => IZR i * step + start) <$> seqZ 0 num).

(** [int(dist // spacing)] for a NumPy float [dist]: floor division; by
    zero it yields an infinity or a NaN, which [int] refuses. *)
Definition int_floordiv (dist spacing : R) : outcome Z :=
  if Req_dec_T spacing 0 then
    Raises (if Req_dec_T dist 0 then ValueError CannotConvertNaN else OverflowError)
  else Returns (Zfloor (dist / spacing)).

(** [x, y, z = p] *)
Definition unpack3 (p : list R) : outcome vec3 :=
  match p with
  | [x; y; z] => Returns (x, y, z)
  | _ => Raises (ValueError CannotUnpack)
  end.

(** A row of a profile: the patient coordinates of a sample and its dose. *)
Definition row : Type := vec3 * R.

(** [numpy.vstack([xs, ys, zs, dose]).T] *)
Definition vstack4T (xs ys zs dose : list R) : list row :=
  zip_with (fun p d => (p, d))
    (zip_with (fun xy z => (fst xy, snd xy, z)) (zip_with pair xs ys) zs) dose.

(** [numpy.vstack([xs, ys, zs, ones]) ] read by columns: the sampled points. *)
Definition line_points (xs ys zs : list R) : list vec3 :=
  zip_with (fun xy z => (fst xy, snd xy, z)) (zip_with pair xs ys) zs.

(** What [get_profile] returns: [None], the doses alone, or the N x 4 table. *)
Inductive profile : Type :=
  | PyNone
  | Doses (dose : list R)
  | Table (rows : list row).

(** ** [RTDoseReader] (read_rtdose.py) *)

(** The attributes of the RTDOSE dataset the reader uses; an attribute the
    dataset lacks raises [AttributeError] when it is read. *)
Record Dataset : Type := {
  ImagePositionPatient : option vec3;
  ImageOrientationPatient : option (vec3 * vec3);
  PixelSpacing : option (R * R);
  SliceThickness : option R;
  DoseGridScaling : option R;
  DoseUnits : option string;
  pixel_array : option pixel_data
}.

Definition attribute {A} (a : option A) : outcome A :=
  match a with
  | Some v => Returns v
  | None => Raises AttributeError
  end.

Record RTDoseReader : Type := {
  _ds : Dataset;
  _ipp : vec3;
  _iop : vec3 * vec3;
  _dose_grid_scaling : R;
  _slice_thickness : R;
  _pixel_spacing : R * R;
  _pixel_array : ndarray3;
  _pixel_to_coords_matrix : mat4;
  _interpolation_method : string;
  _interpolator : option RegularGridInterpolator;
  _dose_units : string
}.

Definition with_interpolator (rd : RTDoseReader)
    (f : option RegularGridInterpolator) : RTDoseReader :=
  {| _ds := _ds rd; _ipp := _ipp rd; _iop := _iop rd;
     _dose_grid_scaling := _dose_grid_scaling rd;
     _slice_thickness := _slice_thickness rd;
     _pixel_spacing := _pixel_spacing rd;
     _pixel_array := _pixel_array rd;
     _pixel_to_coords_matrix := _pixel_to_coords_matrix rd;
     _interpolation_method := _interpolation_method rd;
     _interpolator := f;
     _dose_units := _dose_units rd |}.

Definition with_interpolation_method (rd : RTDoseReader) (m : string)
    : RTDoseReader :=
  {| _ds := _ds rd; _ipp := _ipp rd; _iop := _iop rd;
     _dose_grid_scaling := _dose_grid_scaling rd;
     _slice_thickness := _slice_thickness rd;
     _pixel_spacing := _pixel_spacing rd;
     _pixel_array := _pixel_array rd;
     _pixel_to_coords_matrix := _pixel_to_coords_matrix rd;
     _interpolation_method := m;
     _interpolator := _interpolator rd;
     _dose_units := _dose_units rd |}.

(** The methods of the class. *)
Module Reader.

(** DICOM equation C.7.6.2.1-1: the matrix from pixel indices to the
    patient frame.  The two halves of the orientation are its first and
    last three components. *)
Definition _dicom_pixel_to_patient_slice
    (image_position_patient : vec3) (image_orientation_patient : vec3 * vec3)
    (row_pixel_spacing column_pixel_spacing slice_thickness : R) : mat4 :=
  let '(ipp_x, ipp_y, ipp_z) := image_position_patient in
  let '(x0, x1, x2) := fst image_orientation_patient in
  let '(y0, y1, y2) := snd image_orientation_patient in
  let '(z0, z1, z2) :=
    np_cross (fst image_orientation_patient) (snd image_orientation_patient) in
  ((x0 * column_pixel_spacing, y0 * row_pixel_spacing, z0 * slice_thickness, ipp_x),
   (x1 * column_pixel_spacing, y1 * row_pixel_spacing, z1 * slice_thickness, ipp_y),
   (x2 * column_pixel_spacing, y2 * row_pixel_spacing, z2 * slice_thickness, ipp_z),
   (0, 0, 0, 1)).

(** The reader as [__init__] leaves it when it is given a dataset:
    the defaults of the attributes, then [_configure_dose_array]. *)
Definition _configure_dose_array (ds : Dataset) : outcome RTDoseReader :=
  ipp ← attribute (ImagePositionPatient ds);
  iop ← attribute (ImageOrientationPatient ds);
  pixel_spacing ← attribute (PixelSpacing ds);
  slice_thickness ← attribute (SliceThickness ds);
  dose_grid_scaling ← attribute (DoseGridScaling ds);
  dose_units ← attribute (DoseUnits ds);
  pixels ← attribute (pixel_array ds);
  pixels ← transpose_pixels pixels;
  Returns
    {| _ds := ds; _ipp := ipp; _iop := iop;
       _dose_grid_scaling := dose_grid_scaling;
       _slice_thickness := slice_thickness;
       _pixel_spacing := pixel_spacing;
       _pixel_array := pixels;
       _pixel_to_coords_matrix :=
         _dicom_pixel_to_patient_slice ipp iop
           (fst pixel_spacing) (snd pixel_spacing) slice_thickness;
       _interpolation_method := "linear";
       _interpolator := None;
       _dose_units := dose_units |}.

Definition dose_units (rd : RTDoseReader) : string := _dose_units rd.

Definition dose_array (rd : RTDoseReader) : ndarray3 :=
  scale_array (_pixel_array rd) (_dose_grid_scaling rd).

Definition ijk_to_xyz (rd : RTDoseReader) : mat4 := _pixel_to_coords_matrix rd.

Definition xyz_to_ijk (rd : RTDoseReader) : outcome mat4 :=
  linalg_inv (_pixel_to_coords_matrix rd).

Definition _configure_interpolator : py RTDoseReader unit := fun rd =>
  match RegularGridInterpolator_new (dose_array rd) (_interpolation_method rd)
          false 0 with
  | Returns f => (Returns tt, with_interpolator rd (Some f))
  | Raises e => (Raises e, rd)
  end.

Definition _interpolation_method_options : list string := ["nearest"; "linear"].

Definition set_interpolation_method (method : string) : py RTDoseReader unit :=
  if bool_decide (method ∈ _interpolation_method_options) then
    fun rd => _configure_interpolator (with_interpolation_method rd method)
  else raise (ValueError InterpolationMethodNotSupported).

(** [if self._interpolator is None: self._configure_interpolator()] *)
Definition ensure_interpolator : py RTDoseReader unit := fun rd =>
  match _interpolator rd with
  | None => _configure_interpolator rd
  | Some _ => (Returns tt, rd)
  end.

Definition interpolate_points (dicom_pts : list vec3) : py RTDoseReader (list R) :=
  _ ← ensure_interpolator;
  rd ← get_self;
  inv ← lift (linalg_inv (_pixel_to_coords_matrix rd));
  let pts_ijk := apply_affine inv <$> dicom_pts in
  match _interpolator rd with
  | Some f => lift (rgi_call_all f pts_ijk)
  | None => raise TypeError
  end.

Definition get_profile (p0 p1 : option (list R)) (spacing : R)
    (return_coords : bool) : py RTDoseReader profile :=
  match p0, p1 with
  | Some p0, Some p1 =>
      if negb (length p0 =? length p1)%nat then
        raise (AssertionError "p0 must be the same length as p1")
      else
        '(x0, y0, z0) ← lift (unpack3 p0);
        '(x1, y1, z1) ← lift (unpack3 p1);
        let dist := linalg_norm (np_sub p1 p0) in
        q ← lift (int_floordiv dist spacing);
        let samples := (q + 1)%Z in
        xs ← lift (linspace x0 x1 samples);
        ys ← lift (linspace y0 y1 samples);
        zs ← lift (linspace z0 z1 samples);
        let line_xyz := line_points xs ys zs in
        rd ← get_self;
        inv ← lift (linalg_inv (_pixel_to_coords_matrix rd));
        let line_ijk := apply_affine inv <$> line_xyz in
        _ ← ensure_interpolator;
        rd ← get_self;
        match _interpolator rd with
        | None => raise (ValueError InterpolatorNotRegularGrid)
        | Some f =>
            dose_ijk ← lift (rgi_call_all f line_ijk);
            if negb return_coords then mret (Doses dose_ijk)
            else mret (Table (vstack4T xs ys zs dose_ijk))
        end
  | _, _ => mret PyNone
  end.

End Reader.

(** ** What the reader computes, in closed form *)

(** The Euclidean distance of two patient points. *)
Definition distance (p q : vec3) : R :=
  let '(x0, y0, z0) := p in
  let '(x1, y1, z1) := q in
  sqrt ((x1 - x0) * (x1 - x0) + (y1 - y0) * (y1 - y0) + (z1 - z0) * (z1 - z0)).

(** The sample count of the specification: [floor(distance / spacing) + 1]. *)
Definition sample_count (p q : vec3) (spacing : R) : Z :=
  (Zfloor (distance p q / spacing) + 1)%Z.

(** Sample [i] of [n] evenly spaced points from [p] to [q]. *)
Definition even_point (p q : vec3) (n i : Z) : vec3 :=
  let '(x0, y0, z0) := p in
  let '(x1, y1, z1) := q in
  (x0 + IZR i * ((x1 - x0) / IZR (n - 1)),
   y0 + IZR i * ((y1 - y0) / IZR (n - 1)),
   z0 + IZR i * ((z1 - z0) / IZR (n - 1))).

Definition even_points (p q : vec3) (n : Z) : list vec3 :=
  even_point p q n <$> seqZ 0 n.

(** The value of an interpolator that does not raise out of bounds. *)
Definition rgi_value (f : RegularGridInterpolator) (p : vec3) : R :=
  if out_of_bounds (rgi_values f) p then fill_value f
  else match rgi_method f with
       | Linear => _evaluate_linear (rgi_values f) p
       | Nearest => _evaluate_nearest (rgi_values f) p
       end.

(** The interpolators [Reader._configure_interpolator] builds. *)
Definition configured_interpolator (rd : RTDoseReader) (m : interp_method)
    : RegularGridInterpolator :=
  {| rgi_values := Reader.dose_array rd; rgi_method := m;
     bounds_error := false; fill_value := 0 |}.

(** An array with at least one item along every axis, as the pixel array
    of a dataset is. *)
Definition nonempty (a : ndarray3) : Prop :=
  let '(n0, n1, n2) := shape a in (1 <= n0 /\ 1 <= n1 /\ 1 <= n2)%Z.

(** The invariant of a reader: its interpolation method is one of the two
    supported, its cached interpolator, when there is one, was built by
    [Reader._configure_interpolator], and its pixel array is not empty. *)
Definition reader_inv (rd : RTDoseReader) : Prop :=
  _interpolation_method rd ∈ Reader._interpolation_method_options /\
  (_interpolator rd = None \/
   exists m, _interpolator rd = Some (configured_interpolator rd m)) /\
  nonempty (_pixel_array rd).

(** The method a supported method name stands for. *)
Definition method_of (name : string) : interp_method :=
  if String.eqb name "linear" then Linear else Nearest.

(** The interpolator a call evaluates: the cached one, or the one the call
    builds when nothing is cached yet. *)
Definition active_interpolator (rd : RTDoseReader) : RegularGridInterpolator :=
  match _interpolator rd with
  | Some f => f
  | None => configured_interpolator rd (method_of (_interpolation_method rd))
  end.

(** Two vectors are linearly dependent when a combination of them with
    coefficients not both zero vanishes. *)
Definition linearly_dependent (u v : vec3) : Prop :=
  exists a b : R, (a <> 0 \/ b <> 0) /\ vadd (vscale a u) (vscale b v) = (0, 0, 0).

(** A point of index space lies outside the bounds of an array when one of
    its coordinates is below 0 or above the last index of its axis. *)
Definition outside_bounds (a : ndarray3) (p : vec3) : Prop :=
  let '(n0, n1, n2) := shape a in
  let '(x, y, z) := p in
  x < 0 \/ IZR (n0 - 1) < x \/ y < 0 \/ IZR (n1 - 1) < y \/
  z < 0 \/ IZR (n2 - 1) < z.

(** ** [RTPlanReader] (read_rtplan.py) *)

(** The value of a DICOM element: a number or a sequence of numbers. *)
Inductive dicom_value : Type :=
  | Number (r : R)
  | Sequence (l : list R).

(** [float(v)] *)
Definition float (v : dicom_value) : outcome R :=
  match v with
  | Number r => Returns r
  | Sequence _ => Raises TypeError
  end.

(** [[float(v) for v in value]] *)
Definition floats (v : dicom_value) : outcome (list R) :=
  match v with
  | Sequence l => Returns l
  | Number _ => Raises TypeError
  end.

(** [l[i]] *)
Definition getitem (l : list R) (i : nat) : outcome R :=
  match l !! i with
  | Some x => Returns x
  | None => Raises IndexError
  end.

(** An entry of the dictionary [_beam_parameters]: the path of tags, and
    the value once it has been read from the dataset. *)
Record beam_entry : Type := {
  tag : list (Z * Z);
  value : option dicom_value
}.

Record RTPlanReader : Type := {
  _beam_parameters : gmap string beam_entry
}.

(** The property [beam_parameters]: the entries that have a value. *)
Definition beam_parameters (rp : RTPlanReader) : gmap string dicom_value :=
  omap value (_beam_parameters rp).

(** [d[key]] on a dictionary *)
Definition subscript (d : gmap string dicom_value) (key : string)
    : outcome dicom_value :=
  match d !! key with
  | Some v => Returns v
  | None => Raises (KeyError key)
  end.

(** ** [ProfileTool] (profiles_from_dicom.py) *)

(** An attribute that holds an instance of a class, holds something else,
    or was never assigned. *)
Inductive slot (A : Type) : Type :=
  | Missing
  | Foreign
  | Inst (a : A).
Arguments Missing {A}.
Arguments Foreign {A}.
Arguments Inst {A} a.

Record ProfileTool : Type := {
  _interpolation_method_tool : string;
  _plan_reader : slot RTPlanReader;
  _dose_reader : slot RTDoseReader
}.

Definition with_dose_reader (t : ProfileTool) (rd : RTDoseReader) : ProfileTool :=
  {| _interpolation_method_tool := _interpolation_method_tool t;
     _plan_reader := _plan_reader t;
     _dose_reader := Inst rd |}.

(** The argument [zero_point]: [None], the string ['default'], or a point. *)
Inductive zero_point_arg : Type :=
  | ZeroNone
  | ZeroDefault
  | ZeroPoint (z : vec3).

(** [str.upper] on ASCII letters. *)
Definition ascii_upper (c : Ascii.ascii) : Ascii.ascii :=
  let n := Ascii.nat_of_ascii c in
  if (97 <=? n)%nat && (n <=? 122)%nat then Ascii.ascii_of_nat (n - 32) else c.

Fixpoint upper (s : string) : string :=
  match s with
  | EmptyString => EmptyString
  | String c s => String (ascii_upper c) (upper s)
  end.

(** [numpy.radians] in exact arithmetic; [np_radians] below is the
    function on doubles. *)
Definition radians (deg : R) : R := deg * PI / 180.

Definition shift_back (z : vec3) (r : row) : row := (vsub (fst r) z, snd r).
Definition scale_dose (c : R) (r : row) : row := (fst r, snd r * c).
Definition divide_dose (c : R) (r : row) : row := (fst r, snd r / c).
Definition divide_coords (c : R) (r : row) : row := (vdiv (fst r) c, snd r).

Module Tool.

(** [get_zero_point] in exact arithmetic; [Binary64.get_zero_point] below
    is the same method on doubles. *)
Definition get_zero_point (mode : string) (t : ProfileTool)
    : outcome (option vec3) :=
  if String.eqb mode "INTERCEPT_CAX_SURFACE" then
    match _plan_reader t with
    | Inst rp =>
        let beam_params_dict := beam_parameters rp in
        if negb (forallb (fun key => bool_decide (is_Some (beam_params_dict !! key)))
                   ["Isocenter"; "Gantry Angle"; "SSD"]) then
          Returns None
        else
          iso ← subscript beam_params_dict "Isocenter" ≫= floats;
          gantry_angle ← subscript beam_params_dict "Gantry Angle" ≫= float;
          ssd ← subscript beam_params_dict "SSD" ≫= float;
          sad ← subscript beam_params_dict "SAD" ≫= float;
          iso0 ← getitem iso 0;
          x_zero_pt ← Returns (iso0 - (ssd - sad) * sin (radians gantry_angle));
          iso1 ← getitem iso 1;
          y_zero_pt ← Returns (iso1 + (ssd - sad) * cos (radians gantry_angle));
          z_zero_pt ← getitem iso 2;
          Returns (Some (x_zero_pt, y_zero_pt, z_zero_pt))
    | _ => Raises AttributeError
    end
  else Returns None.

(** The zero point as an array: [None] stands for [numpy.asarray(None)],
    which no arithmetic accepts. *)
Definition resolve_zero_point (zero_point : zero_point_arg) (t : ProfileTool)
    : outcome (option vec3) :=
  match zero_point with
  | ZeroNone => Returns (Some (0, 0, 0))
  | ZeroDefault => get_zero_point "INTERCEPT_CAX_SURFACE" t
  | ZeroPoint z => Returns (Some z)
  end.

(** [profile[:, :3] = profile[:, :3] - zero_point[None, :]] *)
Definition shift_profile (z : vec3) (prof : profile) : outcome (list row) :=
  match prof with
  | Table rows => Returns (shift_back z <$> rows)
  | Doses _ => Raises IndexError
  | PyNone => Raises TypeError
  end.

(** The conversion of the dose column, by the units of the dose grid. *)
Definition convert_dose_units (native profile_dose_units : string)
    (rows : list row) : outcome (list row) :=
  if String.eqb native "GY" then
    if String.eqb (upper profile_dose_units) "CGY" then
      Returns (scale_dose 100 <$> rows)
    else Returns rows
  else if String.eqb native "RELATIVE" then
    Raises (ValueError RelativeDoseNotSupported)
  else Raises (ValueError (InvalidDoseUnits native)).

(** The normalisation of the dose column by the monitor units. *)
Definition normalize_dose (normalize_by_monitor_units : bool) (t : ProfileTool)
    (rows : list row) : outcome (list row) :=
  if normalize_by_monitor_units then
    match _plan_reader t with
    | Inst rp =>
        match beam_parameters rp !! "Monitor Units" with
        | Some v =>
            monitor_units ← float v;
            Returns (divide_dose monitor_units <$> rows)
        | None => Returns rows
        end
    | Foreign => Returns rows
    | Missing => Raises AttributeError
    end
  else Returns rows.

(** The call of the dose reader, whose attributes are part of the tool's. *)
Definition call_dose_reader {A} (rd : RTDoseReader) (m : py RTDoseReader A)
    : py ProfileTool A := fun t =>
  let '(r, rd') := m rd in (r, with_dose_reader t rd').

Definition get_profile (p0 p1 : vec3) (spacing : R) (return_coords : bool)
    (profile_dose_units : string) (normalize_by_monitor_units : bool)
    (zero_point : zero_point_arg) : py ProfileTool profile :=
  let spacing := spacing * 10 in
  t ← get_self;
  zero_point ← lift (resolve_zero_point zero_point t);
  match _dose_reader t with
  | Inst rd =>
      match zero_point with
      | None => raise TypeError
      | Some z =>
          prof ← call_dose_reader rd
                   (Reader.get_profile (Some (to_list (vadd p0 z)))
                      (Some (to_list (vadd p1 z))) spacing return_coords);
          rows ← lift (shift_profile z prof);
          rows ← lift (convert_dose_units (Reader.dose_units rd)
                         profile_dose_units rows);
          rows ← lift (normalize_dose normalize_by_monitor_units t rows);
          mret (Table rows)
      end
  | Foreign => mret PyNone
  | Missing => raise AttributeError
  end.

(** [z0, z1, x0, x1, y0, y1 = points] *)
Definition unpack6 (points : list R) : outcome (R * R * R * R * R * R) :=
  match points with
  | [z0; z1; x0; x1; y0; y1] => Returns (z0, z1, x0, x1, y0, y1)
  | _ => Raises (ValueError CannotUnpack)
  end.

(** [profile[:, :3] = profile[:, :3] / 10] *)
Definition to_centimeters (prof : profile) : outcome profile :=
  match prof with
  | Table rows => Returns (Table (divide_coords 10 <$> rows))
  | Doses _ => Raises IndexError
  | PyNone => Raises TypeError
  end.

(** The body of the loop of [profiles_from_file] for one line of the input
    file, whose six numbers are in centimeters. *)
Definition profile_of_line (points : list R) (spacing : R)
    (profile_dose_units : string) (normalize_by_monitor_units : bool)
    (zero_point : zero_point_arg) : py ProfileTool profile :=
  '(z0, z1, x0, x1, y0, y1) ← lift (unpack6 points);
  prof ← get_profile (vscale 10 (x0, y0, z0)) (vscale 10 (x1, y1, z1)) spacing
           true profile_dose_units normalize_by_monitor_units zero_point;
  lift (to_centimeters prof).

Fixpoint for_each {S A B} (f : A -> py S B) (l : list A) : py S (list B) :=
  match l with
  | [] => mret []
  | a :: l => b ← f a; bs ← for_each f l; mret (b :: bs)
  end.

(** [profiles_from_file] up to the list [profiles]: the lines of the file
    after the first [skip_rows], each already split into its numbers. *)
Definition profiles_from_file (lines : list (list R)) (skip_rows : nat)
    (spacing : R) (profile_dose_units : string)
    (normalize_by_monitor_units : bool) (zero_point : zero_point_arg)
    : py ProfileTool (list profile) :=
  t ← get_self;
  match _dose_reader t with
  | Inst _ =>
      for_each (fun points =>
                  profile_of_line points spacing profile_dose_units
                    normalize_by_monitor_units zero_point)
        (drop skip_rows lines)
  | Foreign => mret []
  | Missing => raise AttributeError
  end.

End Tool.

(** ** What the tool computes, stage by stage *)

(** The stages of [ProfileTool.get_profile] on a tool whose dose reader is
    [rd], as one computation on outcomes. *)
Definition profile_stages (t : ProfileTool) (rd : RTDoseReader) (p0 p1 : vec3)
    (spacing : R) (return_coords : bool) (profile_dose_units : string)
    (normalize_by_monitor_units : bool) (zero_point : zero_point_arg)
    : outcome profile :=
  zero_point ← Tool.resolve_zero_point zero_point t;
  match zero_point with
  | None => Raises TypeError
  | Some z =>
      prof ← result (Reader.get_profile (Some (to_list (vadd p0 z)))
                       (Some (to_list (vadd p1 z))) (spacing * 10) return_coords) rd;
      rows ← Tool.shift_profile z prof;
      rows ← Tool.convert_dose_units (Reader.dose_units rd) profile_dose_units rows;
      rows ← Tool.normalize_dose normalize_by_monitor_units t rows;
      Returns (Table rows)
  end.

(** The dose column after the conversion of units, for a grid in GY. *)
Definition unit_converted (profile_dose_units : string) (rows : list row)
    : list row :=
  if String.eqb (upper profile_dose_units) "CGY" then scale_dose 100 <$> rows
  else rows.

(** The coordinates and the dose column of a table. *)
Definition coords (rows : list row) : list vec3 := fst <$> rows.
Definition doses (rows : list row) : list R := snd <$> rows.

(** ** Concrete data

    A 2 x 2 x 2 grid of unit dose whose voxel indices are the patient
    coordinates, and a grid whose two orientation vectors are parallel. *)

Definition unit_cube : ndarray3 :=
  {| shape := (2, 2, 2)%Z; item := fun _ _ _ => 1 |}.

Definition example_dataset : Dataset :=
  {| ImagePositionPatient := Some (0, 0, 0);
     ImageOrientationPatient := Some ((1, 0, 0), (0, 1, 0));
     PixelSpacing := Some (1, 1);
     SliceThickness := Some 1;
     DoseGridScaling := Some 1;
     DoseUnits := Some "GY";
     pixel_array := Some (Frames unit_cube) |}.

Definition degenerate_dataset : Dataset :=
  {| ImagePositionPatient := Some (0, 0, 0);
     ImageOrientationPatient := Some ((1, 0, 0), (2, 0, 0));
     PixelSpacing := Some (1, 1);
     SliceThickness := Some 1;
     DoseGridScaling := Some 1;
     DoseUnits := Some "GY";
     pixel_array := Some (Frames unit_cube) |}.

(** The reader [RTDoseReader(ds=ds)] of a dataset that has every attribute
    and several frames. *)
Definition reader_of (ds : Dataset) (ipp : vec3) (iop : vec3 * vec3)
    (spacing : R * R) (thickness scaling : R) (units : string)
    (pixels : ndarray3) : RTDoseReader :=
  {| _ds := ds; _ipp := ipp; _iop := iop;
     _dose_grid_scaling := scaling;
     _slice_thickness := thickness;
     _pixel_spacing := spacing;
     _pixel_array := transpose210 pixels;
     _pixel_to_coords_matrix :=
       Reader._dicom_pixel_to_patient_slice ipp iop (fst spacing) (snd spacing)
         thickness;
     _interpolation_method := "linear";
     _interpolator := None;
     _dose_units := units |}.

Definition example_reader : RTDoseReader :=
  reader_of example_dataset (0, 0, 0) ((1, 0, 0), (0, 1, 0)) (1, 1) 1 1 "GY"
    unit_cube.

Definition degenerate_reader : RTDoseReader :=
  reader_of degenerate_dataset (0, 0, 0) ((1, 0, 0), (2, 0, 0)) (1, 1) 1 1 "GY"
    unit_cube.

(** The plan reader as [__init__] builds it, with the value each of the
    five tag paths led to in the dataset, if any. *)
Definition plan_reader_with (isocenter monitor_units ssd sad gantry_angle
    : option dicom_value) : RTPlanReader :=
  {| _beam_parameters :=
       {[ "Isocenter" :=
            {| tag := [(0x300A, 0x00B0); (0x300A, 0x0111); (0x300A, 0x012C)]%Z;
               value := isocenter |};
          "Monitor Units" :=
            {| tag := [(0x300A, 0x00B0); (0x300A, 0x010E)]%Z;
               value := monitor_units |};
          "SSD" :=
            {| tag := [(0x300A, 0x00B0); (0x300A, 0x0111); (0x300A, 0x0130)]%Z;
               value := ssd |};
          "SAD" :=
            {| tag := [(0x300A, 0x00B0); (0x300A, 0x00B4)]%Z;
               value := sad |};
          "Gantry Angle" :=
            {| tag := [(0x300A, 0x00B0); (0x300A, 0x0111); (0x300A, 0x011E)]%Z;
               value := gantry_angle |} ]} |}.

(** A tool as [_configure_readers] leaves it. *)
Definition tool_with (rp : RTPlanReader) (rd : RTDoseReader) : ProfileTool :=
  {| _interpolation_method_tool := "linear";
     _plan_reader := Inst rp;
     _dose_reader := Inst rd |}.

(** Isocenter at the origin, SSD 100, SAD 90, 200 monitor units. *)
Definition plan_at_gantry (angle : R) : RTPlanReader :=
  plan_reader_with (Some (Sequence [0; 0; 0])) (Some (Number 200))
    (Some (Number 100)) (Some (Number 90)) (Some (Number angle)).

(** The same plan without a source-to-axis distance. *)
Definition plan_without_sad : RTPlanReader :=
  plan_reader_with (Some (Sequence [0; 0; 0])) (Some (Number 200))
    (Some (Number 100)) None (Some (Number 0)).

(** The same plan without monitor units. *)
Definition plan_without_monitor_units : RTPlanReader :=
  plan_reader_with (Some (Sequence [0; 0; 0])) None
    (Some (Number 100)) (Some (Number 90)) (Some (Number 0)).

(** ** The reader's call as a function of its matrix and interpolator *)

(** The reader once its interpolator is cached. *)
Definition cached (rd : RTDoseReader) : RTDoseReader :=
  with_interpolator rd (Some (active_interpolator rd)).

(** What [RTDoseReader.get_profile] returns on two sequences, given the
    matrix of the reader and the interpolator the call evaluates. *)
Definition profile_of (M : mat4) (f : RegularGridInterpolator)
    (p0 p1 : list R) (spacing : R) (return_coords : bool) : outcome profile :=
  if negb (length p0 =? length p1)%nat then
    Raises (AssertionError "p0 must be the same length as p1")
  else
    '(x0, y0, z0) ← unpack3 p0;
    '(x1, y1, z1) ← unpack3 p1;
    q ← int_floordiv (linalg_norm (np_sub p1 p0)) spacing;
    xs ← linspace x0 x1 (q + 1);
    ys ← linspace y0 y1 (q + 1);
    zs ← linspace z0 z1 (q + 1);
    inv ← linalg_inv M;
    dose_ijk ← rgi_call_all f (apply_affine inv <$> line_points xs ys zs);
    Returns (if negb return_coords then Doses dose_ijk
             else Table (vstack4T xs ys zs dose_ijk)).

(** ** The packaged copy of the reader
    (dicom-dose-profile-tool/read_rtdose.py)

    The copy of [read_rtdose.py] inside the package differs from the one at
    the top level in [get_profile] alone, which tests the dimension of the
    endpoints before it unpacks them. *)

Module PackagedReader.

Definition get_profile (p0 p1 : option (list R)) (spacing : R)
    (return_coords : bool) : py RTDoseReader profile :=
  match p0, p1 with
  | Some p0, Some p1 =>
      if negb (length p0 =? length p1)%nat then
        raise (AssertionError "p0 must be the same length as p1")
      else if negb (length p0 =? 3)%nat then
        raise (AssertionError
                 ("Input points must be 3-D (instead got "
                  +:+ pretty (length p0) +:+ "-D"))
      else
        '(x0, y0, z0) ← lift (unpack3 p0);
        '(x1, y1, z1) ← lift (unpack3 p1);
        let dist := linalg_norm (np_sub p1 p0) in
        q ← lift (int_floordiv dist spacing);
        let samples := (q + 1)%Z in
        xs ← lift (linspace x0 x1 samples);
        ys ← lift (linspace y0 y1 samples);
        zs ← lift (linspace z0 z1 samples);
        let line_xyz := line_points xs ys zs in
        rd ← get_self;
        inv ← lift (linalg_inv (_pixel_to_coords_matrix rd));
        let line_ijk := apply_affine inv <$> line_xyz in
        _ ← Reader.ensure_interpolator;
        rd ← get_self;
        match _interpolator rd with
        | None => raise (ValueError InterpolatorNotRegularGrid)
        | Some f =>
            dose_ijk ← lift (rgi_call_all f line_ijk);
            if negb return_coords then mret (Doses dose_ijk)
            else mret (Table (vstack4T xs ys zs dose_ijk))
        end
  | _, _ => mret PyNone
  end.

End PackagedReader.

(** ** Reading the datasets (read_rtplan.py, parse_dicom.py,
    profiles_from_dicom.py)

    The datasets are pydicom's.  What the code asks of them are the
    parameters of this section: subscripting a dataset by a tag, taking the
    first item of a sequence element, the value of an element, the modality
    of a dataset, the attributes of an RT Dose dataset, and the reading of a
    file.  Each may raise as the library does. *)

(** [str.endswith] *)
Definition endswith (s suffix : string) : bool :=
  let n := String.length s in
  let k := String.length suffix in
  (k <=? n)%nat && String.eqb (String.substring (n - k) k s) suffix.

(** A loop over a list that threads an accumulator and stops at the first
    exception. *)
Fixpoint fold_outcome {A B} (f : A -> B -> outcome B) (l : list A) (b : B)
    : outcome B :=
  match l with
  | [] => Returns b
  | a :: l => b' ← f a b; fold_outcome f l b'
  end.

(** The keys of [_beam_parameters], in the order [__init__] inserts them. *)
Definition beam_parameter_keys : list string :=
  ["Isocenter"; "Monitor Units"; "SSD"; "SAD"; "Gantry Angle"].

Section Pydicom.

Context {dataset element : Type}.
(** [ds[tag]] *)
Variable getitem_tag : dataset -> Z * Z -> outcome element.
(** [element[0]] *)
Variable first_item : element -> outcome dataset.
(** [element.value] *)
Variable element_value : element -> dicom_value.
(** [ds.Modality] *)
Variable Modality : dataset -> outcome string.
(** The attributes of the dataset that [RTDoseReader] reads. *)
Variable dose_attributes : dataset -> Dataset.
(** [pydicom.dcmread(path)] *)
Variable dcmread : string -> outcome dataset.
(** [os.path.join(root, file)] *)
Variable path_join : string -> string -> string.

(** The inner loop of [read_beam_parameters_from_dataset]: every tag but
    the last leads to the first item of a sequence, the last one to the
    element whose value is read.  With no tag at all the value of the
    dataset itself is asked for, which it does not have. *)
Fixpoint read_value (tag_string : list (Z * Z)) (contents : dataset)
    : outcome dicom_value :=
  match tag_string with
  | [] => Raises AttributeError
  | [tag] => e ← getitem_tag contents tag; Returns (element_value e)
  | tag :: rest =>
      e ← getitem_tag contents tag;
      contents ← first_item e;
      read_value rest contents
  end.

(** One turn of the outer loop. *)
Definition read_beam_parameter (ds : dataset) (key : string)
    : py RTPlanReader unit := fun rp =>
  match _beam_parameters rp !! key with
  | None => (Raises (KeyError key), rp)
  | Some entry =>
      match read_value (tag entry) ds with
      | Returns v =>
          (Returns tt,
           {| _beam_parameters :=
                <[key := {| tag := tag entry; value := Some v |}]>
                  (_beam_parameters rp) |})
      | Raises e => (Raises e, rp)
      end
  end.

Definition read_beam_parameters_from_dataset (ds : dataset)
    : py RTPlanReader unit :=
  _ ← Tool.for_each (read_beam_parameter ds) beam_parameter_keys;
  mret tt.


(** [RTPlanReader(fp, ds)].  [ds] is the dataset when one is given; [fp] is
    what reading the file gives when no dataset is given and [fp] names an
    existing file. *)
Definition RTPlanReader_init (fp : option (outcome dataset))
    (ds : option dataset) : outcome RTPlanReader :=
  let self := plan_reader_with None None None None None in
  match ds with
  | Some ds => fst (read_beam_parameters_from_dataset ds self) ≫= fun _ =>
               Returns (snd (read_beam_parameters_from_dataset ds self))
  | None =>
      match fp with
      | Some read =>
          ds ← read;
          fst (read_beam_parameters_from_dataset ds self) ≫= fun _ =>
          Returns (snd (read_beam_parameters_from_dataset ds self))
      | None => Returns self
      end
  end.

(** The body of the loops of [parse_folder] for one file. *)
Definition parse_file (out : gmap string dataset) (root file : string)
    : outcome (gmap string dataset) :=
  let path := path_join root file in
  if endswith file ".dcm" then
    tmp_ds ← dcmread path;
    modality ← Modality tmp_ds;
    if negb (String.eqb modality "CT") then Returns (<[modality := tmp_ds]> out)
    else Returns out
  else Returns out.

(** A file that [parse_folder] keeps under the modality [m]. *)
Definition kept (root file : string) (m : string) (ds : dataset) : Prop :=
  endswith file ".dcm" = true
  /\ dcmread (path_join root file) = Returns ds
  /\ Modality ds = Returns m
  /\ m <> "CT".

(** The files [os.walk] lists, directory by directory. *)
Definition walked_files (walk : list (string * list string))
    : list (string * string) :=
  '(root, files) ← walk; file ← files; [(root, file)].

(** [parse_folder(folder)].  The folder is [None] when it is not a
    directory, and otherwise what [os.walk] lists: the directories under it
    with the files of each. *)
Definition parse_folder (folder : option (list (string * list string)))
    : outcome (gmap string dataset) :=
  match folder with
  | Some walk =>
      fold_outcome (fun '(root, file) out => parse_file out root file)
        (walked_files walk) ∅
  | None => Returns ∅
  end.

(** [ProfileTool._configure_readers] on the two datasets found. *)
Definition _configure_readers (rtdose rtplan : dataset) : py ProfileTool unit :=
  fun t =>
    match RTPlanReader_init None (Some rtplan) with
    | Raises e => (Raises e, t)
    | Returns rp =>
        let t1 := {| _interpolation_method_tool := _interpolation_method_tool t;
                     _plan_reader := Inst rp;
                     _dose_reader := _dose_reader t |} in
        match Reader._configure_dose_array (dose_attributes rtdose) with
        | Raises e => (Raises e, t1)
        | Returns rd =>
            let '(r, rd') :=
              Reader.set_interpolation_method (_interpolation_method_tool t) rd in
            (r, with_dose_reader t1 rd')
        end
    end.

(** [ProfileTool._get_datasets_from_folder] *)
Definition _get_datasets_from_folder
    (folder : option (list (string * list string))) : py ProfileTool unit :=
  fun t =>
    match parse_folder folder with
    | Raises e => (Raises e, t)
    | Returns dict_of_datasets =>
        match dict_of_datasets !! "RTDOSE", dict_of_datasets !! "RTPLAN" with
        | Some rtdose, Some rtplan => _configure_readers rtdose rtplan t
        | _, _ => (Returns tt, t)
        end
    end.

End Pydicom.

(** The tool [__init__] leaves before any folder is read. *)
Definition new_tool (interpolation_method : string) : ProfileTool :=
  {| _interpolation_method_tool := interpolation_method;
     _plan_reader := Missing;
     _dose_reader := Missing |}.

(** ** A stand-in for the datasets

    A dataset that has every tag: it is identified by its modality and by
    the path of tags that led to it.  The isocenter is (0,0,0) and every
    other value is 100. *)

Definition stub_dataset : Type := string * list (Z * Z).

Definition stub_getitem (ds : stub_dataset) (tag : Z * Z) : outcome stub_dataset :=
  Returns (fst ds, snd ds ++ [tag]).

Definition stub_first_item (e : stub_dataset) : outcome stub_dataset := Returns e.


Definition stub_value (e : stub_dataset) : dicom_value :=
  if bool_decide
       (snd e = [(0x300A, 0x00B0); (0x300A, 0x0111); (0x300A, 0x012C)]%Z)
  then Sequence [0; 0; 0] else Number 100.

Definition stub_modality (ds : stub_dataset) : outcome string := Returns (fst ds).

Definition stub_dose_attributes (ds : stub_dataset) : Dataset := example_dataset.

Definition stub_dcmread (path : string) : outcome stub_dataset :=
  Returns (if String.eqb path "plan/a.dcm" then "RTPLAN"
           else if String.eqb path "dose/b.dcm" then "RTDOSE" else "CT",
           []).

Definition stub_join (root file : string) : string := root +:+ "/" +:+ file.

(** A folder with a plan, a text file, a dose grid and a CT slice. *)
Definition stub_walk : list (string * list string) :=
  [("plan", ["a.dcm"; "notes.txt"]); ("dose", ["b.dcm"]); ("ct", ["c.dcm"])].

(** ** IEEE 754 binary64

    Everything above reads a Python float as the real number it would be in
    exact arithmetic.  Where the rounding decides what the program returns,
    as in [get_zero_point] at a gantry angle of 180 degrees, the doubles are
    modelled as they are: a finite double is the real number it denotes,
    and the result of an operation is the exact result rounded to the
    nearest double, ties to even. *)

Definition pow2 (e : Z) : R := powerRZ 2 e.

(** The exponent of the leading bit: 2^(mag x - 1) <= |x| < 2^(mag x). *)
Definition mag (x : R) : Z := (Zfloor (ln (Rabs x) / ln 2) + 1)%Z.

(** The exponent of the last of the 53 bits of a double near [x]; no bit
    lies below 2^-1074. *)
Definition last_place (x : R) : Z := Z.max (mag x - 53) (-1074).

(** The nearest integer, the even one of two that are equally near. *)
Definition nearest_even (x : R) : Z :=
  let f := Zfloor x in
  if Rlt_dec (x - IZR f) (1 / 2) then f
  else if Rlt_dec (1 / 2) (x - IZR f) then (f + 1)%Z
  else if Z.even f then f else (f + 1)%Z.

(** Rounding to nearest, before the test for overflow. *)
Definition round (x : R) : R :=
  if Req_dec_T x 0 then 0
  else IZR (nearest_even (x * pow2 (- last_place x))) * pow2 (last_place x).

(** A double: finite, an infinity, or not a number.  The two zeros are not
    told apart; nothing here divides or prints. *)
Inductive binary64 : Type :=
  | Finite (x : R)
  | Infinite (negative : bool)
  | NaN.

(** The largest finite double, (2^53 - 1) 2^971. *)
Definition largest : R := IZR (2 ^ 53 - 1) * pow2 971.

(** The double of an exact result: what rounds beyond the largest finite
    double is an infinity. *)
Definition of_real (x : R) : binary64 :=
  let y := round x in
  if Rlt_dec largest (Rabs y) then Infinite (if Rlt_dec y 0 then true else false)
  else Finite y.

Definition b64_opp (a : binary64) : binary64 :=
  match a with
  | Finite x => Finite (- x)
  | Infinite s => Infinite (negb s)
  | NaN => NaN
  end.

Definition b64_add (a b : binary64) : binary64 :=
  match a, b with
  | Finite x, Finite y => of_real (x + y)
  | Infinite s, Finite _ | Finite _, Infinite s => Infinite s
  | Infinite s, Infinite s' => if Bool.eqb s s' then Infinite s else NaN
  | _, _ => NaN
  end.

Definition b64_sub (a b : binary64) : binary64 := b64_add a (b64_opp b).

Definition b64_mul (a b : binary64) : binary64 :=
  match a, b with
  | Finite x, Finite y => of_real (x * y)
  | Infinite s, Finite y | Finite y, Infinite s =>
      if Req_dec_T y 0 then NaN
      else Infinite (xorb s (if Rlt_dec y 0 then true else false))
  | Infinite s, Infinite s' => Infinite (xorb s s')
  | _, _ => NaN
  end.

(** [numpy.sin] and [numpy.cos] on a double: the sine and the cosine of the
    C library, taken to be correctly rounded; of an infinity they are not a
    number. *)
Definition np_sin (a : binary64) : binary64 :=
  match a with
  | Finite x => of_real (sin x)
  | _ => NaN
  end.

Definition np_cos (a : binary64) : binary64 :=
  match a with
  | Finite x => of_real (cos x)
  | _ => NaN
  end.

(** The constant [NPY_PI] of NumPy's headers as the compiler reads it: the
    double nearest pi, 0x1.921fb54442d18p+1. *)
Definition NPY_PI : R := 884279719003555 / 2 ^ 48.

(** [numpy.radians] multiplies by the constant [NPY_PI / 180.0]. *)
Definition DEG2RAD : binary64 := of_real (NPY_PI / 180).

Definition np_radians (a : binary64) : binary64 := b64_mul a DEG2RAD.

(** [ProfileTool.get_zero_point] on doubles. *)
Module Binary64.

(** [float(v)]: the double nearest the decimal value of the element. *)
Definition float (v : dicom_value) : outcome binary64 :=
  match v with
  | Number r => Returns (of_real r)
  | Sequence _ => Raises TypeError
  end.

Definition floats (v : dicom_value) : outcome (list binary64) :=
  match v with
  | Sequence l => Returns (of_real <$> l)
  | Number _ => Raises TypeError
  end.

Definition getitem (l : list binary64) (i : nat) : outcome binary64 :=
  match l !! i with
  | Some x => Returns x
  | None => Raises IndexError
  end.

Definition get_zero_point (mode : string) (t : ProfileTool)
    : outcome (option (binary64 * binary64 * binary64)) :=
  if String.eqb mode "INTERCEPT_CAX_SURFACE" then
    match _plan_reader t with
    | Inst rp =>
        let beam_params_dict := beam_parameters rp in
        if negb (forallb (fun key => bool_decide (is_Some (beam_params_dict !! key)))
                   ["Isocenter"; "Gantry Angle"; "SSD"]) then
          Returns None
        else
          iso ← subscript beam_params_dict "Isocenter" ≫= floats;
          gantry_angle ← subscript beam_params_dict "Gantry Angle" ≫= float;
          ssd ← subscript beam_params_dict "SSD" ≫= float;
          sad ← subscript beam_params_dict "SAD" ≫= float;
          iso0 ← getitem iso 0;
          x_zero_pt ← Returns (b64_sub iso0
                                 (b64_mul (b64_sub ssd sad)
                                    (np_sin (np_radians gantry_angle))));
          iso1 ← getitem iso 1;
          y_zero_pt ← Returns (b64_add iso1
                                 (b64_mul (b64_sub ssd sad)
                                    (np_cos (np_radians gantry_angle))));
          z_zero_pt ← getitem iso 2;
          Returns (Some (x_zero_pt, y_zero_pt, z_zero_pt))
    | _ => Raises AttributeError
    end
  else Returns None.

End Binary64.

(** ** Rational approximations of pi

    The partial sums of Machin's series for pi / 4 with atan(1/3) and
    atan(1/7), as rational numbers. *)





(** ** Lemmas on the building blocks *)

Lemma mapM_Returns {A B} (f : A -> outcome B) (g : A -> B) (l : list A) :
  (forall x, f x = Returns (g x)) -> mapM f l = Returns (g <$> l).
Proof.
  intros Hf. induction l as [|a l IH]; [reflexivity|].
  cbn. rewrite Hf. cbn. rewrite IH. reflexivity.
Qed.

Lemma rgi_call_value (f : RegularGridInterpolator) (p : vec3) :
  bounds_error f = false -> rgi_call f p = Returns (rgi_value f p).
Proof.
  intros Hb. unfold rgi_call, rgi_value. rewrite Hb. cbn.
  destruct (out_of_bounds (rgi_values f) p); reflexivity.
Qed.

Lemma rgi_call_all_value (f : RegularGridInterpolator) (ps : list vec3) :
  bounds_error f = false -> rgi_call_all f ps = Returns (rgi_value f <$> ps).
Proof.
  intros Hb. apply mapM_Returns. intros p. now apply rgi_call_value.
Qed.

Lemma zip_with_fmap_same {A B C D} (h : B -> C -> D) (f : A -> B) (g : A -> C)
    (l : list A) :
  zip_with h (f <$> l) (g <$> l) = (fun a => h (f a) (g a)) <$> l.
Proof. induction l as [|a l IH]; cbn; [reflexivity | now rewrite IH]. Qed.


Lemma linspace_nonneg (start stop : R) (num : Z) :
  (0 <= num)%Z ->
  linspace start stop num =
    Returns ((fun i => start + IZR i * ((stop - start) / IZR (num - 1))) <$> seqZ 0 num).
Proof.
  intros Hn. unfold linspace.
  destruct (Z.ltb_spec num 0) as [|_]; [lia|].
  f_equal. apply list_fmap_ext. intros k i Hi.
  apply lookup_seqZ in Hi as [-> Hk].
  destruct (Z.ltb_spec 0 (num - 1)) as [Hd|Hd]; [apply Rplus_comm|].
  assert (Z.of_nat k = 0%Z) as -> by lia.
  change (IZR (0 + 0)) with 0. rewrite !Rmult_0_l. lra.
Qed.

Lemma linalg_norm_3 (a b c : R) :
  linalg_norm [a; b; c] = sqrt (a * a + b * b + c * c).
Proof. unfold linalg_norm. cbn. f_equal. lra. Qed.

Lemma distance_nonneg (p q : vec3) : 0 <= distance p q.
Proof. destruct p as [[? ?] ?], q as [[? ?] ?]. apply sqrt_pos. Qed.

Lemma sample_count_pos (p q : vec3) (spacing : R) :
  0 < spacing -> (1 <= sample_count p q spacing)%Z.
Proof.
  intros Hs. unfold sample_count.
  assert (0 <= Zfloor (distance p q / spacing))%Z; [|lia].
  apply Zfloor_lub. cbn.
  apply Rmult_le_pos; [apply distance_nonneg|].
  left. now apply Rinv_0_lt_compat.
Qed.

Lemma configure_interpolator_ok (rd : RTDoseReader) :
  _interpolation_method rd ∈ Reader._interpolation_method_options ->
  Reader._configure_interpolator rd =
    (Returns tt,
     with_interpolator rd
       (Some (configured_interpolator rd (method_of (_interpolation_method rd))))).
Proof.
  intros Hm. unfold Reader._configure_interpolator, RegularGridInterpolator_new,
    configured_interpolator, method_of.
  destruct (String.eqb_spec (_interpolation_method rd) "linear") as [E|NE];
    [reflexivity|].
  destruct (String.eqb_spec (_interpolation_method rd) "nearest") as [E'|NE'];
    [reflexivity|].
  exfalso. unfold Reader._interpolation_method_options in Hm.
  rewrite !elem_of_cons in Hm. rewrite elem_of_nil in Hm. tauto.
Qed.

Lemma with_interpolator_same (rd : RTDoseReader) (f : RegularGridInterpolator) :
  _interpolator rd = Some f -> with_interpolator rd (Some f) = rd.
Proof. destruct rd; cbn; intros ->; reflexivity. Qed.

Lemma ensure_interpolator_ok (rd : RTDoseReader) :
  reader_inv rd ->
  Reader.ensure_interpolator rd =
    (Returns tt, with_interpolator rd (Some (active_interpolator rd))).
Proof.
  intros [Hm _]. unfold Reader.ensure_interpolator, active_interpolator.
  destruct (_interpolator rd) as [f|] eqn:E.
  - now rewrite with_interpolator_same.
  - now apply configure_interpolator_ok.
Qed.

Lemma active_interpolator_no_bounds_error (rd : RTDoseReader) :
  reader_inv rd -> bounds_error (active_interpolator rd) = false.
Proof.
  intros [_ [[E|[m E]] _]]; unfold active_interpolator; rewrite E; reflexivity.
Qed.

(** [Reader.get_profile] on two 3-D points, a positive spacing and a reader whose
    matrix has an inverse: the table of the evenly spaced points and of the
    interpolator's values at their images in index space. *)
Lemma get_profile_table (rd : RTDoseReader) (inv : mat4) (p q : vec3)
    (spacing : R) :
  reader_inv rd ->
  linalg_inv (_pixel_to_coords_matrix rd) = Returns inv ->
  0 < spacing ->
  Reader.get_profile (Some (to_list p)) (Some (to_list q)) spacing true rd =
    (Returns (Table
       ((fun pt => (pt, rgi_value (active_interpolator rd) (apply_affine inv pt)))
          <$> even_points p q (sample_count p q spacing))),
     with_interpolator rd (Some (active_interpolator rd))).
Proof.
  intros Hinv Hmat Hs.
  destruct p as [[x0 y0] z0], q as [[x1 y1] z1].
  assert (Hn := sample_count_pos (x0, y0, z0) (x1, y1, z1) spacing Hs).
  unfold Reader.get_profile, to_list. cbn [length Nat.eqb negb unpack3].
  unfold mbind, py_bind, lift, get_self, mret, py_ret.
  cbn [np_sub zip_with]. rewrite linalg_norm_3.
  unfold int_floordiv. destruct (Req_dec_T spacing 0) as [E|_]; [lra|].
  fold (distance (x0, y0, z0) (x1, y1, z1)).
  fold (sample_count (x0, y0, z0) (x1, y1, z1) spacing).
  set (n := sample_count (x0, y0, z0) (x1, y1, z1) spacing) in *.
  rewrite !linspace_nonneg by lia.
  rewrite Hmat. rewrite (ensure_interpolator_ok rd Hinv).
  cbn [_interpolator with_interpolator].
  unfold line_points, vstack4T. rewrite !zip_with_fmap_same.
  rewrite rgi_call_all_value by now apply active_interpolator_no_bounds_error.
  cbn [negb fst snd]. unfold even_points.
  rewrite <- !list_fmap_compose.
  rewrite zip_with_fmap_same. reflexivity.
Qed.

(** ** The invariant of the reader *)

Lemma nonempty_transpose210 (a : ndarray3) : nonempty a -> nonempty (transpose210 a).
Proof.
  unfold nonempty, transpose210. cbn. destruct (shape a) as [[n0 n1] n2]. tauto.
Qed.

(** The construction of a reader from a dataset establishes the invariant. *)
Lemma configure_dose_array_inv (ds : Dataset) (rd : RTDoseReader) :
  Reader._configure_dose_array ds = Returns rd ->
  (forall pixels, pixel_array ds = Some (Frames pixels) -> nonempty pixels) ->
  reader_inv rd.
Proof.
  unfold Reader._configure_dose_array.
  destruct ds as [[ipp|] [iop|] [ps|] [st|] [sc|] [u|] [[sh it|px]|]];
    cbn; intros H; try discriminate.
  injection H as <-. intros Hpx. split; [|split; [now left|]].
  - cbn. unfold Reader._interpolation_method_options. rewrite !elem_of_cons. auto.
  - cbn. apply nonempty_transpose210. now apply Hpx.
Qed.

Lemma with_interpolator_inv (rd : RTDoseReader) (m : interp_method) :
  reader_inv rd ->
  reader_inv (with_interpolator rd (Some (configured_interpolator rd m))).
Proof.
  intros (Hm & _ & Hn). split; [exact Hm|]. split; [|exact Hn].
  right. exists m. reflexivity.
Qed.

(** A call of [get_profile] leaves the reader as it was or with the
    interpolator it has just configured, and keeps the invariant. *)
Lemma get_profile_preserves_inv (rd : RTDoseReader) (p0 p1 : option (list R))
    (s : R) (return_coords : bool) :
  reader_inv rd -> reader_inv (final (Reader.get_profile p0 p1 s return_coords) rd).
Proof.
  intros Hinv.
  assert (Hens : reader_inv (snd (Reader.ensure_interpolator rd))).
  { rewrite (ensure_interpolator_ok rd Hinv). cbn [snd].
    destruct Hinv as (Hm & [E|[m E]] & Hn); unfold active_interpolator; rewrite E.
    - apply with_interpolator_inv. split; [exact Hm|]. split; [now left|exact Hn].
    - apply with_interpolator_inv. split; [exact Hm|].
      split; [right; now exists m|exact Hn]. }
  unfold final, Reader.get_profile.
  destruct p0 as [l0|], p1 as [l1|]; try exact Hinv.
  destruct (negb (length l0 =? length l1)%nat); [exact Hinv|].
  unfold mbind, py_bind, lift, get_self, mret, py_ret, raise.
  destruct (unpack3 l0) as [[[x0 y0] z0]|e]; [|exact Hinv].
  destruct (unpack3 l1) as [[[x1 y1] z1]|e]; [|exact Hinv].
  destruct (int_floordiv _ s) as [q|e]; [|exact Hinv].
  destruct (linspace x0 x1 _) as [xs|e]; [|exact Hinv].
  destruct (linspace y0 y1 _) as [ys|e]; [|exact Hinv].
  destruct (linspace z0 z1 _) as [zs|e]; [|exact Hinv].
  destruct (linalg_inv _) as [inv|e]; [|exact Hinv].
  destruct (Reader.ensure_interpolator rd) as [[[]|e] rd']; [|exact Hens].
  cbn [snd] in Hens.
  destruct (_interpolator rd') as [f|]; [|exact Hens].
  destruct (rgi_call_all f _) as [dose|e]; [|exact Hens].
  destruct (negb return_coords); exact Hens.
Qed.

(** ** The models of the library functions behave as documented *)

(** The matrix [numpy.linalg.inv] returns is a right inverse. *)
Lemma linalg_inv_right (M inv : mat4) :
  linalg_inv M = Returns inv -> matmul M inv = identity4.
Proof.
  unfold linalg_inv. destruct (Req_dec_T (det4 M) 0) as [E|NE]; [discriminate|].
  intros H. injection H as <-.
  destruct M as [[[[[[a00 a01] a02] a03] [[[a10 a11] a12] a13]]
                   [[[a20 a21] a22] a23]] [[[a30 a31] a32] a33]].
  revert NE.
  cbv [matmul build4 identity4 det4 cofactor minor entry entry4 row4 skip det3
       sign Nat.even Nat.add Nat.ltb Nat.leb].
  intros NE. repeat f_equal; field; intros E; apply NE; rewrite <- E; ring.
Qed.



(** ** The sample count and the sampled points *)

Lemma even_points_length (p q : vec3) (n : Z) :
  length (even_points p q n) = Z.to_nat n.
Proof. unfold even_points. now rewrite length_fmap, length_seqZ. Qed.

Lemma even_points_lookup (p q : vec3) (n : Z) (i : nat) :
  (Z.of_nat i < n)%Z ->
  even_points p q n !! i = Some (even_point p q n (Z.of_nat i)).
Proof.
  intros Hi. unfold even_points.
  rewrite list_lookup_fmap, lookup_seqZ_lt by lia. reflexivity.
Qed.

Lemma even_point_first (p q : vec3) (n : Z) : even_point p q n 0 = p.
Proof.
  destruct p as [[x0 y0] z0], q as [[x1 y1] z1]. unfold even_point.
  rewrite !Rmult_0_l, !Rplus_0_r. reflexivity.
Qed.

Lemma even_point_last (p q : vec3) (n : Z) :
  (2 <= n)%Z -> even_point p q n (n - 1) = q.
Proof.
  intros Hn. destruct p as [[x0 y0] z0], q as [[x1 y1] z1]. unfold even_point.
  assert (IZR (n - 1) <> 0) by (apply not_0_IZR; lia).
  repeat f_equal; field; assumption.
Qed.



Lemma sample_count_1 (p q : vec3) (spacing : R) :
  distance p q < spacing -> sample_count p q spacing = 1%Z.
Proof.
  intros Hd. assert (Hp := distance_nonneg p q).
  unfold sample_count. rewrite (Zfloor_eq 0); [reflexivity|].
  assert (0 < / spacing) by (apply Rinv_0_lt_compat; lra).
  split.
  - apply Rmult_le_pos; lra.
  - apply (Rmult_lt_reg_r spacing); [lra|].
    unfold Rdiv. rewrite Rmult_assoc, Rinv_l by lra. cbn. lra.
Qed.

Lemma example_reader_inv : reader_inv example_reader.
Proof.
  split; [|split; [now left|]].
  - cbn. unfold Reader._interpolation_method_options.
    rewrite !elem_of_cons. auto.
  - cbn. lia.
Qed.

Lemma example_matrix_inverse :
  exists inv, linalg_inv (_pixel_to_coords_matrix example_reader) = Returns inv.
Proof.
  unfold linalg_inv.
  destruct (Req_dec_T (det4 (_pixel_to_coords_matrix example_reader)) 0) as [E|_];
    [|eauto].
  exfalso. revert E. cbv [example_reader reader_of _pixel_to_coords_matrix
    Reader._dicom_pixel_to_patient_slice np_cross fst snd det4 cofactor minor
    entry entry4 row4 skip det3 sign Nat.even Nat.add Nat.ltb Nat.leb].
  lra.
Qed.

Lemma distance_unit_x : distance (0, 0, 0) (1, 0, 0) = 1.
Proof.
  unfold distance.
  replace ((1 - 0) * (1 - 0) + (0 - 0) * (0 - 0) + (0 - 0) * (0 - 0)) with 1 by lra.
  apply sqrt_1.
Qed.

Lemma distance_example : distance (0, 0, 0) (10, 0, 0) = 10.
Proof.
  unfold distance.
  replace ((10 - 0) * (10 - 0) + (0 - 0) * (0 - 0) + (0 - 0) * (0 - 0))
    with (10 * 10) by lra.
  apply sqrt_square. lra.
Qed.

Lemma sample_count_example : sample_count (0, 0, 0) (10, 0, 0) 3 = 4%Z.
Proof.
  unfold sample_count. rewrite distance_example.
  rewrite (Zfloor_eq 3); [reflexivity|]. split; lra.
Qed.

(** ** C10: a call without both endpoints *)

(** C10.  When [p0] is [None] or [p1] is [None] (the default call leaves
    both out), [RTDoseReader.get_profile] returns [None]: it raises nothing,
    and it leaves the reader as it found it, so no interpolator is built and
    the grid is not evaluated.  This holds for every reader, also for one
    whose matrix has no inverse and on which any evaluation would raise. *)
Theorem get_profile_without_endpoints (rd : RTDoseReader)
    (p0 p1 : option (list R)) (spacing : R) (return_coords : bool) :
  p0 = None \/ p1 = None ->
  Reader.get_profile p0 p1 spacing return_coords rd = (Returns PyNone, rd).
Proof.
  intros [-> | ->]; unfold Reader.get_profile.
  - reflexivity.
  - destruct p0; reflexivity.
Qed.

Lemma get_profile_without_endpoints_witness :
  (@None (list R) = None \/ @None (list R) = None) /\
  Reader.get_profile None None 1 false degenerate_reader
    = (Returns PyNone, degenerate_reader).
Proof.
  split; [now left|].
  apply (get_profile_without_endpoints degenerate_reader None None 1 false).
  now left.
Defined.

(** ** C1: the sample count and the endpoints *)

(** C1 at a failing input.  From (0,0,0) to (1,0,0) with spacing 3 the
    distance is 1, which 3 does not divide evenly; the count is
    floor(1/3) + 1 = 1, [numpy.linspace] with one sample yields the start
    alone, and the end point (1,0,0) is not among the sampled points.  The
    copy of [get_profile] inside the package, whose comment says that the
    endpoints will always be included, does the same on this input. *)
Theorem get_profile_short_segment_misses_endpoint :
  exists rows,
    result (Reader.get_profile (Some [0; 0; 0]) (Some [1; 0; 0]) 3 true)
      example_reader = Returns (Table rows)
    /\ result (PackagedReader.get_profile (Some [0; 0; 0]) (Some [1; 0; 0]) 3 true)
         example_reader = Returns (Table rows)
    /\ 0 < 3
    /\ ~ (exists k : Z, distance (0, 0, 0) (1, 0, 0) = IZR k * 3)
    /\ Z.of_nat (length rows) = sample_count (0, 0, 0) (1, 0, 0) 3
    /\ (1, 0, 0) ∉ (fst <$> rows).
Proof.
  destruct example_matrix_inverse as [inv Hinv].
  assert (Hn : sample_count (0, 0, 0) (1, 0, 0) 3 = 1%Z)
    by (apply sample_count_1; rewrite distance_unit_x; lra).
  assert (Hcall : forall rows,
            result (Reader.get_profile (Some [0; 0; 0]) (Some [1; 0; 0]) 3 true)
              example_reader = Returns (Table rows) ->
            result (PackagedReader.get_profile (Some [0; 0; 0]) (Some [1; 0; 0]) 3
                      true) example_reader = Returns (Table rows))
    by (intros rows H; exact H).
  eexists. split; [|split; [apply Hcall|]].
  1, 2: unfold result;
    change [0; 0; 0] with (to_list (0, 0, 0));
    change [1; 0; 0] with (to_list (1, 0, 0));
    rewrite (get_profile_table example_reader inv (0, 0, 0) (1, 0, 0) 3
               example_reader_inv Hinv) by lra;
    rewrite Hn; reflexivity.
  split; [lra|]. split.
  { intros [k Hk]. rewrite distance_unit_x in Hk.
    assert (E : IZR (k * 3) = IZR 1) by (rewrite mult_IZR; lra).
    apply eq_IZR in E. lia. }
  split.
  { rewrite length_fmap, even_points_length, Hn. reflexivity. }
  rewrite <- list_fmap_compose. unfold even_points.
  change (seqZ 0 1) with [0%Z]. cbn [fmap list_fmap compose fst].
  rewrite even_point_first. rewrite list_elem_of_singleton.
  intros E. inversion E. lra.
Qed.



(** ** The zero point *)

Lemma beam_parameters_lookup (isocenter monitor_units ssd sad gantry_angle
    : option dicom_value) :
  let d := beam_parameters
             (plan_reader_with isocenter monitor_units ssd sad gantry_angle) in
  d !! "Isocenter" = isocenter /\ d !! "Monitor Units" = monitor_units /\
  d !! "SSD" = ssd /\ d !! "SAD" = sad /\ d !! "Gantry Angle" = gantry_angle.
Proof.
  cbv zeta. unfold beam_parameters. rewrite !lookup_omap.
  repeat split; reflexivity.
Qed.

Lemma get_zero_point_value (t : ProfileTool) (rp : RTPlanReader)
    (ix iy iz g ssd sad : R) :
  _plan_reader t = Inst rp ->
  beam_parameters rp !! "Isocenter" = Some (Sequence [ix; iy; iz]) ->
  beam_parameters rp !! "Gantry Angle" = Some (Number g) ->
  beam_parameters rp !! "SSD" = Some (Number ssd) ->
  beam_parameters rp !! "SAD" = Some (Number sad) ->
  Tool.get_zero_point "INTERCEPT_CAX_SURFACE" t =
    Returns (Some (ix - (ssd - sad) * sin (radians g),
                   iy + (ssd - sad) * cos (radians g),
                   iz)).
Proof.
  intros Hrp Hiso Hg Hssd Hsad. unfold Tool.get_zero_point.
  rewrite String.eqb_refl, Hrp. cbn [forallb].
  rewrite Hiso, Hg, Hssd.
  rewrite !bool_decide_eq_true_2 by eauto. cbn [andb negb].
  unfold subscript. rewrite Hiso, Hg, Hssd, Hsad. reflexivity.
Qed.

(** When one of the three keys the guard names is absent, the zero point
    is unavailable: [None] is returned and nothing is raised. *)
Lemma get_zero_point_unavailable (t : ProfileTool) (rp : RTPlanReader) :
  _plan_reader t = Inst rp ->
  beam_parameters rp !! "Isocenter" = None \/
  beam_parameters rp !! "Gantry Angle" = None \/
  beam_parameters rp !! "SSD" = None ->
  Tool.get_zero_point "INTERCEPT_CAX_SURFACE" t = Returns None.
Proof.
  intros Hrp H. unfold Tool.get_zero_point.
  rewrite String.eqb_refl, Hrp. cbn [forallb].
  assert (forall o : option dicom_value,
            o = None -> bool_decide (is_Some o) = false) as Hnone.
  { intros o ->. apply bool_decide_eq_false_2. intros [? ?]. discriminate. }
  destruct H as [H | [H | H]]; rewrite (Hnone _ H);
    rewrite ?andb_false_r; reflexivity.
Qed.

(** The guard does not name ['SAD']: when the three keys it names are
    present and ['SAD'] is absent, the read of ['SAD'] raises. *)
Lemma get_zero_point_missing_sad (t : ProfileTool) (rp : RTPlanReader)
    (iso : list R) (g ssd : R) :
  _plan_reader t = Inst rp ->
  beam_parameters rp !! "Isocenter" = Some (Sequence iso) ->
  beam_parameters rp !! "Gantry Angle" = Some (Number g) ->
  beam_parameters rp !! "SSD" = Some (Number ssd) ->
  beam_parameters rp !! "SAD" = None ->
  Tool.get_zero_point "INTERCEPT_CAX_SURFACE" t = Raises (KeyError "SAD").
Proof.
  intros Hrp Hiso Hg Hssd Hsad. unfold Tool.get_zero_point.
  rewrite String.eqb_refl, Hrp. cbn [forallb].
  rewrite Hiso, Hg, Hssd.
  rewrite !bool_decide_eq_true_2 by eauto. cbn [andb negb].
  unfold subscript. rewrite Hiso, Hg, Hssd, Hsad. reflexivity.
Qed.

Lemma radians_0 : radians 0 = 0.
Proof. unfold radians. lra. Qed.

Lemma radians_180 : radians 180 = PI.
Proof. unfold radians. lra. Qed.

(** ** The zero point in exact arithmetic *)

(** With isocenter (ix,iy,iz), gantry angle g in degrees, SSD and SAD
    among the beam parameters, [get_zero_point] in mode
    INTERCEPT_CAX_SURFACE computes the point
    (ix - (SSD-SAD) sin(radians g), iy + (SSD-SAD) cos(radians g), iz).
    Were the arithmetic exact, this point would be (0,10,0) at gantry angle
    0 and (0,-10,0) at gantry angle 180 for isocenter (0,0,0), SSD 100 and
    SAD 90. *)
Lemma zero_point_in_exact_arithmetic (t : ProfileTool) (rp : RTPlanReader)
    (ix iy iz g ssd sad : R) :
  _plan_reader t = Inst rp ->
  beam_parameters rp !! "Isocenter" = Some (Sequence [ix; iy; iz]) ->
  beam_parameters rp !! "Gantry Angle" = Some (Number g) ->
  beam_parameters rp !! "SSD" = Some (Number ssd) ->
  beam_parameters rp !! "SAD" = Some (Number sad) ->
  Tool.get_zero_point "INTERCEPT_CAX_SURFACE" t =
    Returns (Some (ix - (ssd - sad) * sin (radians g),
                   iy + (ssd - sad) * cos (radians g),
                   iz))
  /\ ((ix, iy, iz) = (0, 0, 0) -> ssd = 100 -> sad = 90 ->
      (g = 0 ->
       Tool.get_zero_point "INTERCEPT_CAX_SURFACE" t = Returns (Some (0, 10, 0)))
      /\ (g = 180 ->
          Tool.get_zero_point "INTERCEPT_CAX_SURFACE" t
            = Returns (Some (0, -10, 0)))).
Proof.
  intros Hrp Hiso Hg Hssd Hsad.
  rewrite (get_zero_point_value t rp ix iy iz g ssd sad Hrp Hiso Hg Hssd Hsad).
  split; [reflexivity|].
  intros E -> ->. inversion E; subst. split; intros ->.
  - rewrite radians_0, sin_0, cos_0. repeat f_equal; lra.
  - rewrite radians_180, sin_PI, cos_PI. repeat f_equal; lra.
Qed.

(** ** Rounding to the nearest double *)





















Lemma round_0 : round 0 = 0.
Proof. unfold round. destruct (Req_dec_T 0 0); [reflexivity|contradiction]. Qed.





(** ** Pi to twenty decimals *)








(** ** The operations at the values of the example *)



















(** ** C2: the intercept of the central axis with the surface *)








(** ** Beam parameters without the source-to-axis distance *)

(** The guard of [get_zero_point] does not name ['SAD'].  On beam
    parameters that hold the isocenter, the gantry angle and the SSD but no
    SAD, the guard lets the call through and the read of ['SAD'] raises
    [KeyError].  No plan reader comes to hold such parameters through its
    own methods, which write the SAD before the gantry angle. *)
Lemma get_zero_point_without_sad_raises :
  Tool.get_zero_point "INTERCEPT_CAX_SURFACE"
    (tool_with plan_without_sad example_reader)
  = Raises (KeyError "SAD").
Proof.
  destruct (beam_parameters_lookup (Some (Sequence [0; 0; 0])) (Some (Number 200))
              (Some (Number 100)) None (Some (Number 0)))
    as (Hiso & _ & Hssd & Hsad & Hg).
  exact (get_zero_point_missing_sad (tool_with plan_without_sad example_reader)
           plan_without_sad [0; 0; 0] 0 100 eq_refl Hiso Hg Hssd Hsad).
Qed.

(** ** The index-to-patient matrix *)

Lemma det4_pixel_to_patient (ipp u v : vec3) (rs cs st : R) :
  det4 (Reader._dicom_pixel_to_patient_slice ipp (u, v) rs cs st) =
    let '(c0, c1, c2) := np_cross u v in
    cs * rs * st * (c0 * c0 + c1 * c1 + c2 * c2).
Proof.
  destruct ipp as [[px py] pz], u as [[u0 u1] u2], v as [[v0 v1] v2].
  cbv [Reader._dicom_pixel_to_patient_slice np_cross fst snd det4 cofactor minor
    entry entry4 row4 skip det3 sign Nat.even Nat.add Nat.ltb Nat.leb].
  ring.
Qed.

Lemma np_cross_dependent (u v : vec3) :
  linearly_dependent u v -> np_cross u v = (0, 0, 0).
Proof.
  destruct u as [[u0 u1] u2], v as [[v0 v1] v2].
  intros (a & b & Hab & E). cbn in E. injection E as E0 E1 E2.
  unfold np_cross.
  assert (Ha : a * (u1 * v2 - u2 * v1) = 0 /\ a * (u2 * v0 - u0 * v2) = 0
               /\ a * (u0 * v1 - u1 * v0) = 0).
  { repeat split.
    - replace (a * (u1 * v2 - u2 * v1))
        with (v2 * (u1 * a + v1 * b) - v1 * (u2 * a + v2 * b)) by ring.
      rewrite E1, E2. ring.
    - replace (a * (u2 * v0 - u0 * v2))
        with (v0 * (u2 * a + v2 * b) - v2 * (u0 * a + v0 * b)) by ring.
      rewrite E0, E2. ring.
    - replace (a * (u0 * v1 - u1 * v0))
        with (v1 * (u0 * a + v0 * b) - v0 * (u1 * a + v1 * b)) by ring.
      rewrite E0, E1. ring. }
  assert (Hb : b * (u1 * v2 - u2 * v1) = 0 /\ b * (u2 * v0 - u0 * v2) = 0
               /\ b * (u0 * v1 - u1 * v0) = 0).
  { repeat split.
    - replace (b * (u1 * v2 - u2 * v1))
        with (u1 * (u2 * a + v2 * b) - u2 * (u1 * a + v1 * b)) by ring.
      rewrite E1, E2. ring.
    - replace (b * (u2 * v0 - u0 * v2))
        with (u2 * (u0 * a + v0 * b) - u0 * (u2 * a + v2 * b)) by ring.
      rewrite E0, E2. ring.
    - replace (b * (u0 * v1 - u1 * v0))
        with (u0 * (u1 * a + v1 * b) - u1 * (u0 * a + v0 * b)) by ring.
      rewrite E0, E1. ring. }
  destruct Ha as (A0 & A1 & A2), Hb as (B0 & B1 & B2).
  destruct Hab as [N|N];
    [ apply Rmult_integral in A0, A1, A2 | apply Rmult_integral in B0, B1, B2 ];
    repeat f_equal; tauto.
Qed.

Lemma det4_degenerate (ipp u v : vec3) (rs cs st : R) :
  linearly_dependent u v ->
  det4 (Reader._dicom_pixel_to_patient_slice ipp (u, v) rs cs st) = 0.
Proof.
  intros H. rewrite det4_pixel_to_patient, (np_cross_dependent u v H). ring.
Qed.

Lemma linalg_inv_singular (M : mat4) : det4 M = 0 -> linalg_inv M = Raises LinAlgError.
Proof.
  intros H. unfold linalg_inv. destruct (Req_dec_T (det4 M) 0); [reflexivity|tauto].
Qed.

Lemma parallel_vectors_dependent : linearly_dependent (1, 0, 0) (2, 0, 0).
Proof.
  exists 2, (-1). split; [left; lra|]. cbn. repeat f_equal; lra.
Qed.

(** ** C7: a degenerate grid geometry *)

(** C7 as stated fails on the code.  The orientation vectors (1,0,0) and
    (2,0,0) are linearly dependent, yet the construction of the reader
    returns: it raises nothing, and the matrix it stores has determinant
    zero. *)
Lemma degenerate_geometry_is_constructed :
  linearly_dependent (1, 0, 0) (2, 0, 0)
  /\ ImageOrientationPatient degenerate_dataset = Some ((1, 0, 0), (2, 0, 0))
  /\ Reader._configure_dose_array degenerate_dataset = Returns degenerate_reader
  /\ det4 (Reader.ijk_to_xyz degenerate_reader) = 0.
Proof.
  split; [apply parallel_vectors_dependent|].
  split; [reflexivity|]. split; [reflexivity|].
  apply det4_degenerate, parallel_vectors_dependent.
Qed.

(** C7, amended.  For a dataset that has every attribute and a pixel
    array of several frames, the construction of the reader returns and
    stores the matrix of DICOM equation C.7.6.2.1-1 without testing it;
    when the two orientation vectors are linearly dependent this matrix has
    determinant zero, and the failure surfaces where the inverse is taken
    on demand: [xyz_to_ijk] raises the [LinAlgError] of
    [numpy.linalg.inv]. *)
Theorem degenerate_geometry_fails_at_inversion (ipp u v : vec3)
    (pixel_spacing : R * R) (thickness scaling : R) (units : string)
    (pixels : ndarray3) :
  linearly_dependent u v ->
  exists rd,
    Reader._configure_dose_array
      {| ImagePositionPatient := Some ipp;
         ImageOrientationPatient := Some (u, v);
         PixelSpacing := Some pixel_spacing;
         SliceThickness := Some thickness;
         DoseGridScaling := Some scaling;
         DoseUnits := Some units;
         pixel_array := Some (Frames pixels) |} = Returns rd
    /\ Reader.ijk_to_xyz rd =
         Reader._dicom_pixel_to_patient_slice ipp (u, v)
           (fst pixel_spacing) (snd pixel_spacing) thickness
    /\ det4 (Reader.ijk_to_xyz rd) = 0
    /\ Reader.xyz_to_ijk rd = Raises LinAlgError.
Proof.
  intros H. eexists. split; [reflexivity|]. split; [reflexivity|].
  assert (D := det4_degenerate ipp u v (fst pixel_spacing) (snd pixel_spacing)
                 thickness H).
  split; [exact D|]. apply linalg_inv_singular. exact D.
Qed.

Lemma degenerate_geometry_fails_at_inversion_witness :
  linearly_dependent (1, 0, 0) (2, 0, 0) /\
  exists rd,
    Reader._configure_dose_array degenerate_dataset = Returns rd
    /\ Reader.ijk_to_xyz rd =
         Reader._dicom_pixel_to_patient_slice (0, 0, 0) ((1, 0, 0), (2, 0, 0)) 1 1 1
    /\ det4 (Reader.ijk_to_xyz rd) = 0
    /\ Reader.xyz_to_ijk rd = Raises LinAlgError.
Proof.
  split; [apply parallel_vectors_dependent|].
  exact (degenerate_geometry_fails_at_inversion (0, 0, 0) (1, 0, 0) (2, 0, 0)
           (1, 1) 1 1 "GY" unit_cube parallel_vectors_dependent).
Defined.

(** ** C8: points outside the grid *)

Lemma axis_out_of_bounds_true (n : Z) (x : R) :
  x < 0 \/ IZR (n - 1) < x -> axis_out_of_bounds n x = true.
Proof.
  intros H. unfold axis_out_of_bounds.
  destruct (Rlt_dec x 0); [reflexivity|].
  destruct (Rgt_dec x (IZR (n - 1))); [reflexivity|].
  unfold Rgt in *. tauto.
Qed.

Lemma out_of_bounds_true (a : ndarray3) (p : vec3) :
  outside_bounds a p -> out_of_bounds a p = true.
Proof.
  unfold outside_bounds, out_of_bounds.
  destruct (shape a) as [[n0 n1] n2], p as [[x y] z].
  intros H.
  assert (H' : (x < 0 \/ IZR (n0 - 1) < x) \/ (y < 0 \/ IZR (n1 - 1) < y)
               \/ (z < 0 \/ IZR (n2 - 1) < z)) by tauto.
  destruct H' as [H'|[H'|H']]; rewrite (axis_out_of_bounds_true _ _ H');
    rewrite ?orb_true_r; reflexivity.
Qed.

(** C8.  With either kernel, nearest or linear, the interpolator the reader
    configures over its dose array returns exactly 0 at every point of
    index space that lies outside the bounds of the array along some axis;
    it raises nothing. *)
Theorem interpolator_zero_outside_bounds (rd : RTDoseReader) (method : string)
    (p : vec3) :
  method = "nearest" \/ method = "linear" ->
  nonempty (Reader.dose_array rd) ->
  outside_bounds (Reader.dose_array rd) p ->
  exists f,
    result (Reader.set_interpolation_method method) rd = Returns tt
    /\ _interpolator (final (Reader.set_interpolation_method method) rd) = Some f
    /\ rgi_method f = method_of method
    /\ rgi_call f p = Returns 0.
Proof.
  intros Hm _ Hout.
  exists (configured_interpolator rd (method_of method)).
  assert (Reader.set_interpolation_method method rd =
          (Returns tt,
           with_interpolator (with_interpolation_method rd method)
             (Some (configured_interpolator rd (method_of method))))) as E.
  { destruct Hm as [-> | ->]; reflexivity. }
  unfold result, final. rewrite E. cbn [fst snd].
  split; [reflexivity|]. split; [reflexivity|]. split; [reflexivity|].
  unfold rgi_call. cbn [configured_interpolator rgi_values bounds_error
    fill_value andb negb].
  now rewrite (out_of_bounds_true _ _ Hout).
Qed.

Lemma interpolator_zero_outside_bounds_witness :
  ("nearest" = "nearest" \/ "nearest" = "linear") /\
  nonempty (Reader.dose_array example_reader) /\
  outside_bounds (Reader.dose_array example_reader) (1002, 0, 0) /\
  exists f,
    result (Reader.set_interpolation_method "nearest") example_reader = Returns tt
    /\ _interpolator (final (Reader.set_interpolation_method "nearest")
                        example_reader) = Some f
    /\ rgi_method f = method_of "nearest"
    /\ rgi_call f (1002, 0, 0) = Returns 0.
Proof.
  assert (Ho : outside_bounds (Reader.dose_array example_reader) (1002, 0, 0)).
  { cbv [outside_bounds Reader.dose_array scale_array shape example_reader
      reader_of _pixel_array transpose210 unit_cube].
    right. left. change (2 - 1)%Z with 1%Z. lra. }
  assert (Hn : nonempty (Reader.dose_array example_reader)) by (cbn; lia).
  split; [now left|]. split; [exact Hn|]. split; [exact Ho|].
  exact (interpolator_zero_outside_bounds example_reader "nearest" (1002, 0, 0)
           (or_introl eq_refl) Hn Ho).
Defined.

(** ** The stages of [ProfileTool.get_profile] *)

Lemma tool_get_profile_stages (t : ProfileTool) (rd : RTDoseReader)
    (p0 p1 : vec3) (spacing : R) (return_coords : bool)
    (profile_dose_units : string) (normalize_by_monitor_units : bool)
    (zero_point : zero_point_arg) :
  _dose_reader t = Inst rd ->
  result (Tool.get_profile p0 p1 spacing return_coords profile_dose_units
            normalize_by_monitor_units zero_point) t
  = profile_stages t rd p0 p1 spacing return_coords profile_dose_units
      normalize_by_monitor_units zero_point.
Proof.
  intros Hrd.
  unfold Tool.get_profile, profile_stages.
  unfold result, mbind, py_bind, outcome_bind, get_self, lift,
    Tool.call_dose_reader, mret, py_ret, raise.
  destruct (Tool.resolve_zero_point zero_point t) as [[z|]|e];
    rewrite ?Hrd; try reflexivity.
  destruct (Reader.get_profile _ _ _ _ rd) as [[prof|e] rd']; [|reflexivity].
  cbn [fst snd].
  destruct (Tool.shift_profile z prof) as [rows0|e]; [|reflexivity].
  destruct (Tool.convert_dose_units _ _ rows0) as [rows1|e]; [|reflexivity].
  destruct (Tool.normalize_dose _ t rows1) as [rows|e]; reflexivity.
Qed.

Lemma doses_scale_dose (c : R) (rows : list row) :
  doses (scale_dose c <$> rows) = (fun d => d * c) <$> doses rows.
Proof. unfold doses. now rewrite <- !list_fmap_compose. Qed.

Lemma doses_divide_dose (c : R) (rows : list row) :
  doses (divide_dose c <$> rows) = (fun d => d / c) <$> doses rows.
Proof. unfold doses. now rewrite <- !list_fmap_compose. Qed.

Lemma doses_shift_back (z : vec3) (rows : list row) :
  doses (shift_back z <$> rows) = doses rows.
Proof. unfold doses. now rewrite <- !list_fmap_compose. Qed.

Lemma coords_scale_dose (c : R) (rows : list row) :
  coords (scale_dose c <$> rows) = coords rows.
Proof. unfold coords. now rewrite <- !list_fmap_compose. Qed.

Lemma coords_divide_dose (c : R) (rows : list row) :
  coords (divide_dose c <$> rows) = coords rows.
Proof. unfold coords. now rewrite <- !list_fmap_compose. Qed.

Lemma coords_shift_back (z : vec3) (rows : list row) :
  coords (shift_back z <$> rows) = (fun c => vsub c z) <$> coords rows.
Proof. unfold coords. now rewrite <- !list_fmap_compose. Qed.

Lemma convert_dose_units_gy (profile_dose_units : string) (rows : list row) :
  Tool.convert_dose_units "GY" profile_dose_units rows
  = Returns (unit_converted profile_dose_units rows).
Proof.
  unfold Tool.convert_dose_units, unit_converted.
  change (String.eqb "GY" "GY") with true. cbv iota.
  destruct (String.eqb (upper profile_dose_units) "CGY"); reflexivity.
Qed.

(** The stages after the sampling, once the zero point is resolved and the
    reader has returned its table. *)
Lemma profile_stages_sampled (t : ProfileTool) (rd : RTDoseReader)
    (p0 p1 z : vec3) (spacing : R) (profile_dose_units : string)
    (normalize_by_monitor_units : bool) (zero_point : zero_point_arg)
    (rows_mm : list row) :
  _dose_reader t = Inst rd ->
  Tool.resolve_zero_point zero_point t = Returns (Some z) ->
  result (Reader.get_profile (Some (to_list (vadd p0 z)))
            (Some (to_list (vadd p1 z))) (spacing * 10) true) rd
    = Returns (Table rows_mm) ->
  result (Tool.get_profile p0 p1 spacing true profile_dose_units
            normalize_by_monitor_units zero_point) t
  = (rows ← Tool.convert_dose_units (Reader.dose_units rd) profile_dose_units
              (shift_back z <$> rows_mm);
     Table <$> Tool.normalize_dose normalize_by_monitor_units t rows).
Proof.
  intros Hrd Hz Hs. rewrite (tool_get_profile_stages t rd) by exact Hrd.
  unfold profile_stages. rewrite Hz. cbn [mbind outcome_bind].
  rewrite Hs. cbn [mbind outcome_bind Tool.shift_profile].
  destruct (Tool.convert_dose_units _ _ _) as [rows1|e]; [|reflexivity].
  cbn [mbind outcome_bind].
  destruct (Tool.normalize_dose _ t rows1); reflexivity.
Qed.

(** ** C3: the conversion of dose units *)

(** C3.  In a call of [ProfileTool.get_profile] whose sampling stage has
    returned the table [rows_mm] of interpolated values: when the grid is in
    GY and CGY is requested, every dose that enters the normalisation stage
    is the interpolated value times 100, and this is the returned dose when
    no normalisation is requested; when the grid is in GY and the request
    is not for CGY (GY in particular), the dose values are unchanged; when
    the grid is RELATIVE the call raises the unsupported-unit [ValueError]
    whatever unit and normalisation are requested; any other unit of the
    grid raises the invalid-unit [ValueError]. *)
Theorem dose_unit_conversion (t : ProfileTool) (rd : RTDoseReader)
    (p0 p1 z : vec3) (spacing : R) (requested : string) (normalize : bool)
    (zero_point : zero_point_arg) (rows_mm : list row) :
  _dose_reader t = Inst rd ->
  Tool.resolve_zero_point zero_point t = Returns (Some z) ->
  result (Reader.get_profile (Some (to_list (vadd p0 z)))
            (Some (to_list (vadd p1 z))) (spacing * 10) true) rd
    = Returns (Table rows_mm) ->
  let call := result (Tool.get_profile p0 p1 spacing true requested normalize
                        zero_point) t in
  let shifted := shift_back z <$> rows_mm in
  (Reader.dose_units rd = "GY" -> upper requested = "CGY" ->
     call = Table <$> Tool.normalize_dose normalize t (scale_dose 100 <$> shifted)
     /\ doses (scale_dose 100 <$> shifted) = (fun d => d * 100) <$> doses rows_mm
     /\ (normalize = false -> call = Returns (Table (scale_dose 100 <$> shifted))))
  /\ (Reader.dose_units rd = "GY" -> upper requested <> "CGY" ->
      call = Table <$> Tool.normalize_dose normalize t shifted
      /\ doses shifted = doses rows_mm
      /\ (normalize = false -> call = Returns (Table shifted)))
  /\ (Reader.dose_units rd = "RELATIVE" ->
      call = Raises (ValueError RelativeDoseNotSupported))
  /\ (Reader.dose_units rd <> "GY" -> Reader.dose_units rd <> "RELATIVE" ->
      call = Raises (ValueError (InvalidDoseUnits (Reader.dose_units rd)))).
Proof.
  intros Hrd Hz Hs call shifted. subst call.
  rewrite (profile_stages_sampled t rd p0 p1 z spacing requested normalize
             zero_point rows_mm Hrd Hz Hs).
  fold shifted. unfold Tool.convert_dose_units.
  split; [|split; [|split]].
  - intros Hgy Hc. rewrite Hgy, Hc. split; [reflexivity|]. split.
    + subst shifted. now rewrite doses_scale_dose, doses_shift_back.
    + intros ->. reflexivity.
  - intros Hgy Hc. apply String.eqb_neq in Hc. rewrite Hgy, Hc.
    split; [reflexivity|]. split.
    + subst shifted. apply doses_shift_back.
    + intros ->. reflexivity.
  - intros Hrel. rewrite Hrel. reflexivity.
  - intros Hgy Hrel. apply String.eqb_neq in Hgy, Hrel.
    rewrite Hgy, Hrel. reflexivity.
Qed.

Lemma example_sampling (p q : vec3) (s : R) :
  0 < s ->
  exists rows,
    result (Reader.get_profile (Some (to_list p)) (Some (to_list q)) s true)
      example_reader = Returns (Table rows).
Proof.
  intros Hs. destruct example_matrix_inverse as [inv Hinv].
  eexists. unfold result.
  now rewrite (get_profile_table example_reader inv p q s example_reader_inv Hinv Hs).
Qed.

Lemma dose_unit_conversion_witness :
  exists rows_mm,
    let t := tool_with (plan_at_gantry 0) example_reader in
    _dose_reader t = Inst example_reader
    /\ Tool.resolve_zero_point ZeroNone t = Returns (Some (0, 0, 0))
    /\ result (Reader.get_profile (Some (to_list (vadd (0, 0, 0) (0, 0, 0))))
                 (Some (to_list (vadd (1, 0, 0) (0, 0, 0)))) (1 * 10) true)
         example_reader = Returns (Table rows_mm)
    /\ result (Tool.get_profile (0, 0, 0) (1, 0, 0) 1 true "cGy" false ZeroNone) t
       = Returns (Table (scale_dose 100 <$> (shift_back (0, 0, 0) <$> rows_mm))).
Proof.
  assert (Hs : 0 < 1 * 10) by lra.
  destruct (example_sampling (vadd (0, 0, 0) (0, 0, 0)) (vadd (1, 0, 0) (0, 0, 0))
              (1 * 10) Hs) as [rows_mm Hrows].
  exists rows_mm. cbv zeta.
  split; [reflexivity|]. split; [reflexivity|]. split; [exact Hrows|].
  destruct (dose_unit_conversion (tool_with (plan_at_gantry 0) example_reader)
              example_reader (0, 0, 0) (1, 0, 0) (0, 0, 0) 1 "cGy" false ZeroNone
              rows_mm eq_refl eq_refl Hrows) as [Hcgy _].
  destruct (Hcgy eq_refl eq_refl) as (_ & _ & Hcall).
  exact (Hcall eq_refl).
Defined.

(** ** C6: the normalisation by monitor units *)

Lemma normalize_dose_off (t : ProfileTool) (rows : list row) :
  Tool.normalize_dose false t rows = Returns rows.
Proof. reflexivity. Qed.

Lemma normalize_dose_present (t : ProfileTool) (rp : RTPlanReader) (mu : R)
    (rows : list row) :
  _plan_reader t = Inst rp ->
  beam_parameters rp !! "Monitor Units" = Some (Number mu) ->
  Tool.normalize_dose true t rows = Returns (divide_dose mu <$> rows).
Proof. intros Hrp Hmu. unfold Tool.normalize_dose. now rewrite Hrp, Hmu. Qed.

Lemma normalize_dose_absent (t : ProfileTool) (rp : RTPlanReader)
    (rows : list row) :
  _plan_reader t = Inst rp ->
  beam_parameters rp !! "Monitor Units" = None ->
  Tool.normalize_dose true t rows = Returns rows.
Proof. intros Hrp Hmu. unfold Tool.normalize_dose. now rewrite Hrp, Hmu. Qed.

(** C6.  In a call of [ProfileTool.get_profile] on a grid in GY whose
    sampling stage has returned a table: when normalisation is requested and
    the beam parameters hold a monitor-units value, every dose of the
    returned profile is the unit-converted dose divided by that value; when
    normalisation is not requested the unit-converted doses are returned
    unchanged; when it is requested and the beam parameters hold no monitor
    units, the step is skipped, the doses are returned unchanged and nothing
    is raised. *)
Theorem monitor_unit_normalization (t : ProfileTool) (rd : RTDoseReader)
    (p0 p1 z : vec3) (spacing : R) (requested : string)
    (zero_point : zero_point_arg) (rows_mm : list row) :
  _dose_reader t = Inst rd ->
  Tool.resolve_zero_point zero_point t = Returns (Some z) ->
  result (Reader.get_profile (Some (to_list (vadd p0 z)))
            (Some (to_list (vadd p1 z))) (spacing * 10) true) rd
    = Returns (Table rows_mm) ->
  Reader.dose_units rd = "GY" ->
  let call normalize :=
    result (Tool.get_profile p0 p1 spacing true requested normalize zero_point) t in
  let converted := unit_converted requested (shift_back z <$> rows_mm) in
  (forall rp mu,
      _plan_reader t = Inst rp ->
      beam_parameters rp !! "Monitor Units" = Some (Number mu) ->
      call true = Returns (Table (divide_dose mu <$> converted))
      /\ doses (divide_dose mu <$> converted) = (fun d => d / mu) <$> doses converted
      /\ coords (divide_dose mu <$> converted) = coords converted)
  /\ call false = Returns (Table converted)
  /\ (forall rp,
        _plan_reader t = Inst rp ->
        beam_parameters rp !! "Monitor Units" = None ->
        call true = Returns (Table converted)).
Proof.
  intros Hrd Hz Hs Hgy call converted.
  assert (Hcall : forall normalize,
             call normalize = Table <$> Tool.normalize_dose normalize t converted).
  { intros normalize. subst call. cbv beta.
    rewrite (profile_stages_sampled t rd p0 p1 z spacing requested normalize
               zero_point rows_mm Hrd Hz Hs).
    rewrite Hgy, convert_dose_units_gy. reflexivity. }
  split; [|split].
  - intros rp mu Hrp Hmu.
    rewrite Hcall, (normalize_dose_present t rp mu converted Hrp Hmu).
    split; [reflexivity|]. split.
    + apply doses_divide_dose.
    + apply coords_divide_dose.
  - now rewrite Hcall, normalize_dose_off.
  - intros rp Hrp Hmu.
    now rewrite Hcall, (normalize_dose_absent t rp converted Hrp Hmu).
Qed.

Lemma monitor_unit_normalization_witness :
  exists rows_mm,
    let t := tool_with (plan_at_gantry 0) example_reader in
    _dose_reader t = Inst example_reader
    /\ Tool.resolve_zero_point ZeroNone t = Returns (Some (0, 0, 0))
    /\ result (Reader.get_profile (Some (to_list (vadd (0, 0, 0) (0, 0, 0))))
                 (Some (to_list (vadd (1, 0, 0) (0, 0, 0)))) (1 * 10) true)
         example_reader = Returns (Table rows_mm)
    /\ Reader.dose_units example_reader = "GY"
    /\ result (Tool.get_profile (0, 0, 0) (1, 0, 0) 1 true "Gy" true ZeroNone) t
       = Returns (Table (divide_dose 200 <$>
                           unit_converted "Gy" (shift_back (0, 0, 0) <$> rows_mm))).
Proof.
  assert (Hs : 0 < 1 * 10) by lra.
  destruct (example_sampling (vadd (0, 0, 0) (0, 0, 0)) (vadd (1, 0, 0) (0, 0, 0))
              (1 * 10) Hs) as [rows_mm Hrows].
  destruct (beam_parameters_lookup (Some (Sequence [0; 0; 0])) (Some (Number 200))
              (Some (Number 100)) (Some (Number 90)) (Some (Number 0)))
    as (_ & Hmu & _).
  exists rows_mm. cbv zeta.
  split; [reflexivity|]. split; [reflexivity|]. split; [exact Hrows|].
  split; [reflexivity|].
  destruct (monitor_unit_normalization
              (tool_with (plan_at_gantry 0) example_reader)
              example_reader (0, 0, 0) (1, 0, 0) (0, 0, 0) 1 "Gy" ZeroNone
              rows_mm eq_refl eq_refl Hrows eq_refl) as [Hdiv _].
  destruct (Hdiv (plan_at_gantry 0) 200 eq_refl Hmu) as [Hcall _].
  exact Hcall.
Defined.

(** The plan without monitor units: the normalisation is requested, it is
    skipped, and the call returns the unit-converted table. *)
Lemma normalization_skipped_example :
  exists rows_mm,
    result (Reader.get_profile (Some (to_list (vadd (0, 0, 0) (0, 0, 0))))
              (Some (to_list (vadd (1, 0, 0) (0, 0, 0)))) (1 * 10) true)
      example_reader = Returns (Table rows_mm)
    /\ result (Tool.get_profile (0, 0, 0) (1, 0, 0) 1 true "Gy" true ZeroNone)
         (tool_with plan_without_monitor_units example_reader)
       = Returns (Table (shift_back (0, 0, 0) <$> rows_mm)).
Proof.
  assert (Hs : 0 < 1 * 10) by lra.
  destruct (example_sampling (vadd (0, 0, 0) (0, 0, 0)) (vadd (1, 0, 0) (0, 0, 0))
              (1 * 10) Hs) as [rows_mm Hrows].
  destruct (beam_parameters_lookup (Some (Sequence [0; 0; 0])) None
              (Some (Number 100)) (Some (Number 90)) (Some (Number 0)))
    as (_ & Hmu & _).
  exists rows_mm. split; [exact Hrows|].
  rewrite (profile_stages_sampled
             (tool_with plan_without_monitor_units example_reader) example_reader
             (0, 0, 0) (1, 0, 0) (0, 0, 0) 1 "Gy" true ZeroNone rows_mm
             eq_refl eq_refl Hrows).
  change (Reader.dose_units example_reader) with "GY".
  rewrite convert_dose_units_gy. cbn [mbind outcome_bind].
  rewrite (normalize_dose_absent
             (tool_with plan_without_monitor_units example_reader)
             plan_without_monitor_units _ eq_refl Hmu).
  reflexivity.
Qed.

(** ** What a successful call has computed *)

Lemma mapM_Returns_length {A B} (f : A -> outcome B) (l : list A) (l' : list B) :
  mapM f l = Returns l' -> length l' = length l.
Proof.
  revert l'. induction l as [|a l IH]; intros l' H; cbn in H.
  - injection H as <-. reflexivity.
  - destruct (f a) as [b|e]; cbn in H; [|discriminate].
    destruct (mapM f l) as [bs|e]; cbn in H; [|discriminate].
    injection H as <-. cbn. f_equal. now apply IH.
Qed.

Lemma fst_zip_with_pair {A B} (l : list A) (k : list B) :
  length k = length l -> fst <$> zip_with (fun a b => (a, b)) l k = l.
Proof.
  revert k. induction l as [|a l IH]; intros [|b k] H; cbn in *;
    try reflexivity; try discriminate.
  f_equal. apply IH. now injection H.
Qed.

Lemma linspace_negative (start stop : R) (num : Z) :
  (num < 0)%Z -> linspace start stop num = Raises (ValueError NegativeNumberOfSamples).
Proof.
  intros H. unfold linspace. destruct (Z.ltb_spec num 0); [reflexivity|lia].
Qed.

Lemma line_points_linspace (p q : vec3) (n : Z) :
  let '(x0, y0, z0) := p in
  let '(x1, y1, z1) := q in
  line_points
    ((fun i => x0 + IZR i * ((x1 - x0) / IZR (n - 1))) <$> seqZ 0 n)
    ((fun i => y0 + IZR i * ((y1 - y0) / IZR (n - 1))) <$> seqZ 0 n)
    ((fun i => z0 + IZR i * ((z1 - z0) / IZR (n - 1))) <$> seqZ 0 n)
  = even_points p q n.
Proof.
  destruct p as [[x0 y0] z0], q as [[x1 y1] z1].
  unfold line_points, even_points. now rewrite !zip_with_fmap_same.
Qed.

(** Whenever [RTDoseReader.get_profile] returns a table for two 3-D points,
    the spacing is not zero and the coordinates of the table are the evenly
    spaced points of the sample count. *)
Lemma reader_table_coords (rd : RTDoseReader) (p q : vec3) (s : R)
    (return_coords : bool) (rows : list row) :
  result (Reader.get_profile (Some (to_list p)) (Some (to_list q)) s return_coords)
    rd = Returns (Table rows) ->
  s <> 0 /\ coords rows = even_points p q (sample_count p q s).
Proof.
  destruct p as [[x0 y0] z0] eqn:Ep, q as [[x1 y1] z1] eqn:Eq.
  unfold result, Reader.get_profile, to_list.
  cbn [length Nat.eqb negb unpack3].
  unfold mbind, py_bind, lift, get_self, mret, py_ret, raise.
  cbn [np_sub zip_with]. rewrite linalg_norm_3.
  unfold int_floordiv. destruct (Req_dec_T s 0) as [E|NE]; [discriminate|].
  fold (distance (x0, y0, z0) (x1, y1, z1)).
  fold (sample_count (x0, y0, z0) (x1, y1, z1) s).
  set (n := sample_count (x0, y0, z0) (x1, y1, z1) s).
  destruct (Z.lt_ge_cases n 0) as [Hneg|Hpos].
  { rewrite !linspace_negative by exact Hneg. discriminate. }
  rewrite !linspace_nonneg by exact Hpos.
  destruct (linalg_inv (_pixel_to_coords_matrix rd)) as [inv|e]; [|discriminate].
  destruct (Reader.ensure_interpolator rd) as [[[]|e] rd']; [|discriminate].
  destruct (_interpolator rd') as [f|]; [|discriminate].
  destruct (rgi_call_all f _) as [dose|e] eqn:Ed; [|discriminate].
  apply mapM_Returns_length in Ed. rewrite length_fmap in Ed.
  destruct return_coords; cbn [negb fst]; intros H; [|discriminate].
  injection H as <-. split; [exact NE|].
  unfold coords, vstack4T.
  rewrite <- (line_points_linspace (x0, y0, z0) (x1, y1, z1) n).
  apply fst_zip_with_pair. exact Ed.
Qed.

(** ** Translating and rescaling a segment *)

Lemma distance_translate (p q z : vec3) :
  distance (vadd p z) (vadd q z) = distance p q.
Proof.
  destruct p as [[x0 y0] z0], q as [[x1 y1] z1], z as [[a b] c].
  unfold distance, vadd. f_equal. ring.
Qed.

Lemma sample_count_translate (p q z : vec3) (s : R) :
  sample_count (vadd p z) (vadd q z) s = sample_count p q s.
Proof. unfold sample_count. now rewrite distance_translate. Qed.

Lemma even_points_translate (p q z : vec3) (n : Z) :
  (fun c => vsub c z) <$> even_points (vadd p z) (vadd q z) n = even_points p q n.
Proof.
  unfold even_points. rewrite <- list_fmap_compose.
  apply list_fmap_ext. intros _ i _.
  destruct p as [[x0 y0] z0], q as [[x1 y1] z1], z as [[a b] c].
  unfold compose, even_point, vadd, vsub, Rdiv.
  generalize (IZR i) (/ IZR (n - 1)). intros r d.
  repeat f_equal; ring.
Qed.

Lemma distance_scale_10 (p q : vec3) :
  distance (vscale 10 p) (vscale 10 q) = 10 * distance p q.
Proof.
  destruct p as [[x0 y0] z0], q as [[x1 y1] z1]. unfold distance, vscale.
  set (S := (x1 - x0) * (x1 - x0) + (y1 - y0) * (y1 - y0) + (z1 - z0) * (z1 - z0)).
  replace ((x1 * 10 - x0 * 10) * (x1 * 10 - x0 * 10)
           + (y1 * 10 - y0 * 10) * (y1 * 10 - y0 * 10)
           + (z1 * 10 - z0 * 10) * (z1 * 10 - z0 * 10))
    with ((10 * 10) * S) by (unfold S; ring).
  assert (0 <= S).
  { pose proof (Rle_0_sqr (x1 - x0)). pose proof (Rle_0_sqr (y1 - y0)).
    pose proof (Rle_0_sqr (z1 - z0)). unfold Rsqr in *. unfold S. lra. }
  rewrite sqrt_mult by lra. rewrite sqrt_square by lra. reflexivity.
Qed.

Lemma sample_count_scale_10 (p q : vec3) (s : R) :
  s <> 0 -> sample_count (vscale 10 p) (vscale 10 q) (s * 10) = sample_count p q s.
Proof.
  intros Hs. unfold sample_count. rewrite distance_scale_10.
  do 2 f_equal. field. exact Hs.
Qed.

Lemma even_points_scale_10 (p q : vec3) (n : Z) :
  (fun c => vdiv c 10) <$> even_points (vscale 10 p) (vscale 10 q) n
  = even_points p q n.
Proof.
  unfold even_points. rewrite <- list_fmap_compose.
  apply list_fmap_ext. intros _ i _.
  destruct p as [[x0 y0] z0], q as [[x1 y1] z1].
  unfold compose, even_point, vscale, vdiv, Rdiv.
  generalize (IZR i) (/ IZR (n - 1)). intros r d.
  repeat f_equal; field.
Qed.

Lemma convert_dose_units_coords (native requested : string)
    (rows rows' : list row) :
  Tool.convert_dose_units native requested rows = Returns rows' ->
  coords rows' = coords rows.
Proof.
  unfold Tool.convert_dose_units.
  destruct (String.eqb native "GY").
  - destruct (String.eqb (upper requested) "CGY"); intros H; injection H as <-;
      [apply coords_scale_dose | reflexivity].
  - destruct (String.eqb native "RELATIVE"); discriminate.
Qed.

Lemma normalize_dose_coords (normalize : bool) (t : ProfileTool)
    (rows rows' : list row) :
  Tool.normalize_dose normalize t rows = Returns rows' ->
  coords rows' = coords rows.
Proof.
  unfold Tool.normalize_dose. destruct normalize.
  - destruct (_plan_reader t) as [| |rp]; try discriminate.
    + intros H. now injection H as <-.
    + destruct (beam_parameters rp !! "Monitor Units") as [v|].
      * destruct (float v) as [mu|e]; cbn; [|discriminate].
        intros H. injection H as <-. apply coords_divide_dose.
      * intros H. now injection H as <-.
  - intros H. now injection H as <-.
Qed.

(** Whenever [ProfileTool.get_profile] returns, the zero point was
    resolved, the reader returned a table, and the coordinates of the
    returned table are those of the reader's, shifted back. *)
Lemma tool_profile_success (t : ProfileTool) (rd : RTDoseReader) (p0 p1 : vec3)
    (spacing : R) (return_coords : bool) (requested : string) (normalize : bool)
    (zero_point : zero_point_arg) (prof : profile) :
  _dose_reader t = Inst rd ->
  result (Tool.get_profile p0 p1 spacing return_coords requested normalize
            zero_point) t = Returns prof ->
  exists z rows_mm rows,
    Tool.resolve_zero_point zero_point t = Returns (Some z)
    /\ result (Reader.get_profile (Some (to_list (vadd p0 z)))
                 (Some (to_list (vadd p1 z))) (spacing * 10) return_coords) rd
       = Returns (Table rows_mm)
    /\ prof = Table rows
    /\ coords rows = (fun c => vsub c z) <$> coords rows_mm.
Proof.
  intros Hrd. rewrite (tool_get_profile_stages t rd) by exact Hrd.
  unfold profile_stages.
  destruct (Tool.resolve_zero_point zero_point t) as [[z|]|e];
    cbn [mbind outcome_bind]; try discriminate.
  destruct (result _ rd) as [prof0|e] eqn:Es; cbn [mbind outcome_bind];
    [|discriminate].
  destruct prof0 as [|dose|rows_mm]; cbn [Tool.shift_profile mbind outcome_bind];
    try discriminate.
  destruct (Tool.convert_dose_units _ _ _) as [rows1|e] eqn:E1;
    cbn [mbind outcome_bind]; [|discriminate].
  destruct (Tool.normalize_dose _ t rows1) as [rows|e] eqn:E2;
    cbn [mbind outcome_bind]; [|discriminate].
  intros H. injection H as <-.
  exists z, rows_mm, rows.
  split; [reflexivity|]. split; [exact Es|]. split; [reflexivity|].
  rewrite (normalize_dose_coords _ _ _ _ E2), (convert_dose_units_coords _ _ _ _ E1).
  apply coords_shift_back.
Qed.

Lemma tool_profile_coords (t : ProfileTool) (rd : RTDoseReader) (p0 p1 : vec3)
    (spacing : R) (return_coords : bool) (requested : string) (normalize : bool)
    (zero_point : zero_point_arg) (prof : profile) :
  _dose_reader t = Inst rd ->
  result (Tool.get_profile p0 p1 spacing return_coords requested normalize
            zero_point) t = Returns prof ->
  exists rows,
    prof = Table rows
    /\ coords rows = even_points p0 p1 (sample_count p0 p1 (spacing * 10)).
Proof.
  intros Hrd H.
  destruct (tool_profile_success t rd p0 p1 spacing return_coords requested
              normalize zero_point prof Hrd H) as (z & rows_mm & rows & _ & Hs & -> & Hc).
  exists rows. split; [reflexivity|].
  apply reader_table_coords in Hs as [_ Hs].
  rewrite Hc, Hs, sample_count_translate. apply even_points_translate.
Qed.

Lemma example_tool_call (p0 p1 z : vec3) (s : R) (zero_point : zero_point_arg) :
  0 < s ->
  Tool.resolve_zero_point zero_point (tool_with (plan_at_gantry 0) example_reader)
    = Returns (Some z) ->
  exists rows,
    result (Tool.get_profile p0 p1 s true "Gy" false zero_point)
      (tool_with (plan_at_gantry 0) example_reader) = Returns (Table rows).
Proof.
  intros Hs Hz.
  assert (Hs' : 0 < s * 10) by lra.
  destruct (example_sampling (vadd p0 z) (vadd p1 z) (s * 10) Hs') as [rows_mm Hr].
  eexists.
  rewrite (profile_stages_sampled (tool_with (plan_at_gantry 0) example_reader)
             example_reader p0 p1 z s "Gy" false zero_point rows_mm eq_refl Hz Hr).
  reflexivity.
Qed.

(** ** C9: the shift by the zero point cancels *)

(** C9.  Whenever [ProfileTool.get_profile] returns, with whatever zero
    point (explicit, the origin, or the derived one), it returns a table
    whose coordinate columns are the evenly spaced points from [p0] to [p1]
    of the sample count, in exact arithmetic: the shift by the zero point
    before the sampling and the shift back afterwards cancel.  Hence two
    calls that differ in the zero point alone return the same coordinate
    columns. *)
Theorem zero_point_shift_cancels (t : ProfileTool) (rd : RTDoseReader)
    (p0 p1 : vec3) (spacing : R) (return_coords : bool) (requested : string)
    (normalize : bool) (zero_point : zero_point_arg) (prof : profile) :
  _dose_reader t = Inst rd ->
  result (Tool.get_profile p0 p1 spacing return_coords requested normalize
            zero_point) t = Returns prof ->
  (exists rows,
      prof = Table rows
      /\ coords rows = even_points p0 p1 (sample_count p0 p1 (spacing * 10)))
  /\ (forall zero_point' prof',
        result (Tool.get_profile p0 p1 spacing return_coords requested normalize
                  zero_point') t = Returns prof' ->
        exists rows rows',
          prof = Table rows /\ prof' = Table rows' /\ coords rows = coords rows').
Proof.
  intros Hrd H.
  destruct (tool_profile_coords t rd p0 p1 spacing return_coords requested
              normalize zero_point prof Hrd H) as (rows & -> & Hc).
  split; [now exists rows|].
  intros zero_point' prof' H'.
  destruct (tool_profile_coords t rd p0 p1 spacing return_coords requested
              normalize zero_point' prof' Hrd H') as (rows' & -> & Hc').
  exists rows, rows'. split; [reflexivity|]. split; [reflexivity|].
  now rewrite Hc, Hc'.
Qed.

Lemma zero_point_shift_cancels_witness :
  exists rows,
    let t := tool_with (plan_at_gantry 0) example_reader in
    _dose_reader t = Inst example_reader
    /\ result (Tool.get_profile (0, 0, 0) (10, 0, 0) 1 true "Gy" false
                 (ZeroPoint (5, 6, 7))) t = Returns (Table rows)
    /\ coords rows
       = even_points (0, 0, 0) (10, 0, 0) (sample_count (0, 0, 0) (10, 0, 0) (1 * 10)).
Proof.
  assert (Hs : 0 < 1) by lra.
  destruct (example_tool_call (0, 0, 0) (10, 0, 0) (5, 6, 7) 1 (ZeroPoint (5, 6, 7))
              Hs eq_refl) as [rows Hrows].
  exists rows. cbv zeta. split; [reflexivity|]. split; [exact Hrows|].
  destruct (zero_point_shift_cancels (tool_with (plan_at_gantry 0) example_reader)
              example_reader (0, 0, 0) (10, 0, 0) 1 true "Gy" false
              (ZeroPoint (5, 6, 7)) (Table rows) eq_refl Hrows)
    as [(rows' & E & Hc) _].
  injection E as ->. exact Hc.
Defined.

(** ** C4: centimeters at the boundary, millimeters on the grid *)

Lemma profile_of_line_success (t : ProfileTool) (z0 z1 x0 x1 y0 y1 spacing : R)
    (requested : string) (normalize : bool) (zero_point : zero_point_arg)
    (prof : profile) :
  result (Tool.profile_of_line [z0; z1; x0; x1; y0; y1] spacing requested
            normalize zero_point) t = Returns prof ->
  exists rows,
    result (Tool.get_profile (vscale 10 (x0, y0, z0)) (vscale 10 (x1, y1, z1))
              spacing true requested normalize zero_point) t
      = Returns (Table rows)
    /\ prof = Table (divide_coords 10 <$> rows).
Proof.
  unfold result, Tool.profile_of_line, Tool.unpack6.
  unfold mbind at 1 2. unfold py_bind, lift.
  destruct (Tool.get_profile _ _ _ _ _ _ _ t) as [[prof1|e] t']; cbn [fst];
    [|discriminate].
  destruct prof1 as [|dose|rows]; cbn [Tool.to_centimeters fst]; try discriminate.
  intros H. injection H as <-. now exists rows.
Qed.

Lemma coords_divide_coords (c : R) (rows : list row) :
  coords (divide_coords c <$> rows) = (fun v => vdiv v c) <$> coords rows.
Proof. unfold coords. now rewrite <- !list_fmap_compose. Qed.

(** For a line of the input file, whose endpoints and spacing are in
    centimeters: whenever the extraction returns, the dose reader was
    called with both endpoints multiplied by 10 (and shifted by the zero
    point, which is in millimeters) and with the spacing multiplied by 10;
    the coordinates of every row of the output are the coordinates the
    reader sampled, taken relative to the zero point and divided by 10.
    They are the evenly spaced points between the endpoints in centimeters,
    with the sample count of the spacing in centimeters. *)
Lemma profile_of_line_centimeters (t : ProfileTool) (rd : RTDoseReader)
    (z0 z1 x0 x1 y0 y1 spacing : R) (requested : string) (normalize : bool)
    (zero_point : zero_point_arg) (prof : profile) :
  _dose_reader t = Inst rd ->
  result (Tool.profile_of_line [z0; z1; x0; x1; y0; y1] spacing requested
            normalize zero_point) t = Returns prof ->
  exists z rows_mm rows,
    Tool.resolve_zero_point zero_point t = Returns (Some z)
    /\ result (Reader.get_profile
                 (Some (to_list (vadd (vscale 10 (x0, y0, z0)) z)))
                 (Some (to_list (vadd (vscale 10 (x1, y1, z1)) z)))
                 (spacing * 10) true) rd = Returns (Table rows_mm)
    /\ prof = Table rows
    /\ coords rows = (fun c => vdiv (vsub c z) 10) <$> coords rows_mm
    /\ coords rows
       = even_points (x0, y0, z0) (x1, y1, z1)
           (sample_count (x0, y0, z0) (x1, y1, z1) spacing).
Proof.
  intros Hrd H.
  apply profile_of_line_success in H as (rows1 & H & ->).
  destruct (tool_profile_success t rd _ _ spacing true requested normalize
              zero_point (Table rows1) Hrd H)
    as (z & rows_mm & rows1' & Hz & Hs & E & Hc).
  injection E as <-.
  exists z, rows_mm, (divide_coords 10 <$> rows1).
  split; [exact Hz|]. split; [exact Hs|]. split; [reflexivity|].
  rewrite coords_divide_coords, Hc, <- list_fmap_compose.
  split; [reflexivity|].
  apply reader_table_coords in Hs as [Hne Hs].
  rewrite Hs, sample_count_translate.
  rewrite sample_count_scale_10 by lra.
  rewrite (list_fmap_compose (fun c => vsub c z) (fun c => vdiv c 10)).
  rewrite even_points_translate. apply even_points_scale_10.
Qed.

Lemma example_line_call :
  exists prof,
    result (Tool.profile_of_line [0; 0; 0; 1; 0; 0] 1 "Gy" false ZeroNone)
      (tool_with (plan_at_gantry 0) example_reader) = Returns prof.
Proof.
  assert (Hs : 0 < 1) by lra.
  destruct (example_tool_call (vscale 10 (0, 0, 0)) (vscale 10 (1, 0, 0)) (0, 0, 0)
              1 ZeroNone Hs eq_refl) as [rows Hrows].
  exists (Table (divide_coords 10 <$> rows)).
  unfold result in *. unfold Tool.profile_of_line, Tool.unpack6.
  unfold mbind at 1 2. unfold py_bind, lift.
  destruct (Tool.get_profile _ _ _ _ _ _ _ _) as [[prof1|e] t'];
    cbn [fst] in Hrows; [|discriminate].
  injection Hrows as ->. reflexivity.
Qed.

Lemma sample_count_two : sample_count (0, 0, 0) (10, 0, 0) (1 * 10) = 2%Z.
Proof.
  unfold sample_count. rewrite distance_example.
  rewrite (Zfloor_eq 1); [reflexivity|]. split; lra.
Qed.

Lemma sample_count_eleven : sample_count (0, 0, 0) (10, 0, 0) 1 = 11%Z.
Proof.
  unfold sample_count. rewrite distance_example.
  rewrite (Zfloor_eq 10); [reflexivity|]. split; lra.
Qed.

(** C4 as stated fails on [ProfileTool.get_profile].  Called with the
    endpoints (0,0,0) and (10,0,0) and the spacing 1, it multiplies the
    spacing by 10 and nothing else: the reader samples the segment as it is
    given, with a spacing of 10, and the two points (0,0,0) and (10,0,0)
    are reported as they were sampled.  Had the endpoints been multiplied by
    10 before the sampling and the coordinates divided by 10 afterwards,
    there would be eleven rows, one unit apart. *)
Lemma get_profile_converts_the_spacing_alone :
  exists rows,
    result (Tool.get_profile (0, 0, 0) (10, 0, 0) 1 true "Gy" false ZeroNone)
      (tool_with (plan_at_gantry 0) example_reader) = Returns (Table rows)
    /\ coords rows = [(0, 0, 0); (10, 0, 0)]
    /\ coords rows
       <> (fun c => vdiv c 10)
            <$> even_points (vscale 10 (0, 0, 0)) (vscale 10 (10, 0, 0))
                  (sample_count (vscale 10 (0, 0, 0)) (vscale 10 (10, 0, 0))
                     (1 * 10)).
Proof.
  assert (Hs : 0 < 1) by lra.
  destruct (example_tool_call (0, 0, 0) (10, 0, 0) (0, 0, 0) 1 ZeroNone Hs eq_refl)
    as [rows Hrows].
  exists rows. split; [exact Hrows|].
  destruct (tool_profile_coords (tool_with (plan_at_gantry 0) example_reader)
              example_reader (0, 0, 0) (10, 0, 0) 1 true "Gy" false ZeroNone
              (Table rows) eq_refl Hrows) as (rows' & E & Hc).
  injection E as <-. rewrite Hc, sample_count_two. split.
  - unfold even_points. change (seqZ 0 2) with [0%Z; 1%Z].
    cbn [fmap list_fmap]. rewrite even_point_first.
    change (even_point (0, 0, 0) (10, 0, 0) 2 1)
      with (even_point (0, 0, 0) (10, 0, 0) 2 (2 - 1)).
    rewrite even_point_last by lia. reflexivity.
  - rewrite sample_count_scale_10 by lra. rewrite even_points_scale_10.
    rewrite sample_count_eleven. intros E.
    apply (f_equal length) in E. rewrite !even_points_length in E. discriminate.
Qed.

(** C4, amended.  [ProfileTool.get_profile] converts the spacing alone: it
    calls the dose reader with the spacing multiplied by 10 and with the
    endpoints as they are given (shifted by the zero point), and it reports
    the coordinates the reader sampled, relative to the zero point, in the
    unit of the endpoints; they are the evenly spaced points from [p0] to
    [p1] with the sample count of ten times the spacing.  The endpoints are
    converted by [profiles_from_file]: for a line of the input file, whose
    endpoints and spacing are in centimeters, the dose reader is called with
    both endpoints and the spacing multiplied by 10, and the coordinates of
    the output are those the reader sampled, relative to the zero point and
    divided by 10, which are the evenly spaced points between the endpoints
    in centimeters with the sample count of the spacing in centimeters. *)
Theorem centimeters_at_the_boundary (t : ProfileTool) (rd : RTDoseReader)
    (p0 p1 : vec3) (z0 z1 x0 x1 y0 y1 spacing : R) (return_coords : bool)
    (requested : string) (normalize : bool) (zero_point : zero_point_arg) :
  _dose_reader t = Inst rd ->
  (forall prof,
     result (Tool.get_profile p0 p1 spacing return_coords requested normalize
               zero_point) t = Returns prof ->
     exists z rows_mm rows,
       Tool.resolve_zero_point zero_point t = Returns (Some z)
       /\ result (Reader.get_profile (Some (to_list (vadd p0 z)))
                    (Some (to_list (vadd p1 z))) (spacing * 10) return_coords) rd
          = Returns (Table rows_mm)
       /\ prof = Table rows
       /\ coords rows = (fun c => vsub c z) <$> coords rows_mm
       /\ coords rows = even_points p0 p1 (sample_count p0 p1 (spacing * 10)))
  /\ (forall prof,
        result (Tool.profile_of_line [z0; z1; x0; x1; y0; y1] spacing requested
                  normalize zero_point) t = Returns prof ->
        exists z rows_mm rows,
          Tool.resolve_zero_point zero_point t = Returns (Some z)
          /\ result (Reader.get_profile
                       (Some (to_list (vadd (vscale 10 (x0, y0, z0)) z)))
                       (Some (to_list (vadd (vscale 10 (x1, y1, z1)) z)))
                       (spacing * 10) true) rd = Returns (Table rows_mm)
          /\ prof = Table rows
          /\ coords rows = (fun c => vdiv (vsub c z) 10) <$> coords rows_mm
          /\ coords rows
             = even_points (x0, y0, z0) (x1, y1, z1)
                 (sample_count (x0, y0, z0) (x1, y1, z1) spacing)).
Proof.
  intros Hrd. split; intros prof H.
  - destruct (tool_profile_success t rd p0 p1 spacing return_coords requested
                normalize zero_point prof Hrd H)
      as (z & rows_mm & rows & Hz & Hs & -> & Hc).
    exists z, rows_mm, rows.
    split; [exact Hz|]. split; [exact Hs|]. split; [reflexivity|].
    split; [exact Hc|].
    apply reader_table_coords in Hs as [_ Hs].
    rewrite Hc, Hs, sample_count_translate. apply even_points_translate.
  - exact (profile_of_line_centimeters t rd z0 z1 x0 x1 y0 y1 spacing requested
             normalize zero_point prof Hrd H).
Qed.

Lemma centimeters_at_the_boundary_witness :
  exists rows prof rows',
    let t := tool_with (plan_at_gantry 0) example_reader in
    _dose_reader t = Inst example_reader
    /\ result (Tool.get_profile (0, 0, 0) (10, 0, 0) 1 true "Gy" false ZeroNone) t
       = Returns (Table rows)
    /\ coords rows
       = even_points (0, 0, 0) (10, 0, 0) (sample_count (0, 0, 0) (10, 0, 0) (1 * 10))
    /\ result (Tool.profile_of_line [0; 0; 0; 1; 0; 0] 1 "Gy" false ZeroNone) t
       = Returns prof
    /\ prof = Table rows'
    /\ coords rows'
       = even_points (0, 0, 0) (1, 0, 0) (sample_count (0, 0, 0) (1, 0, 0) 1).
Proof.
  assert (Hs : 0 < 1) by lra.
  destruct (example_tool_call (0, 0, 0) (10, 0, 0) (0, 0, 0) 1 ZeroNone Hs eq_refl)
    as [rows Hrows].
  destruct example_line_call as [prof Hprof].
  destruct (centimeters_at_the_boundary
              (tool_with (plan_at_gantry 0) example_reader) example_reader
              (0, 0, 0) (10, 0, 0) 0 0 0 1 0 0 1 true "Gy" false ZeroNone eq_refl)
    as [Htool Hline].
  destruct (Htool (Table rows) Hrows) as (z & rows_mm & rows1 & _ & _ & E & _ & Hc).
  injection E as <-.
  destruct (Hline prof Hprof) as (z' & rows_mm' & rows' & _ & _ & E' & _ & Hc').
  exists rows, prof, rows'. cbv zeta.
  split; [reflexivity|]. split; [exact Hrows|]. split; [exact Hc|].
  split; [exact Hprof|]. split; [exact E'|]. exact Hc'.
Defined.

(** * Further properties of the code *)

(** ** The call of the reader, whatever its arguments *)

(** Under the invariant, what a call returns is a function of the matrix
    and of the active interpolator alone, and the call leaves the reader as
    it was or with that interpolator cached. *)
Lemma get_profile_normal_form (rd : RTDoseReader) (l0 l1 : list R) (s : R)
    (return_coords : bool) :
  reader_inv rd ->
  result (Reader.get_profile (Some l0) (Some l1) s return_coords) rd
    = profile_of (_pixel_to_coords_matrix rd) (active_interpolator rd) l0 l1 s
        return_coords
  /\ (final (Reader.get_profile (Some l0) (Some l1) s return_coords) rd = rd
      \/ final (Reader.get_profile (Some l0) (Some l1) s return_coords) rd
         = cached rd).
Proof.
  intros Hinv. unfold result, final, Reader.get_profile, profile_of.
  destruct (negb (length l0 =? length l1)%nat); [split; [reflexivity|now left]|].
  unfold mbind, py_bind, outcome_bind, lift, get_self, mret, py_ret, raise.
  destruct (unpack3 l0) as [[[x0 y0] z0]|e]; [|split; [reflexivity|now left]].
  destruct (unpack3 l1) as [[[x1 y1] z1]|e]; [|split; [reflexivity|now left]].
  destruct (int_floordiv _ s) as [q|e]; [|split; [reflexivity|now left]].
  destruct (linspace x0 x1 _) as [xs|e]; [|split; [reflexivity|now left]].
  destruct (linspace y0 y1 _) as [ys|e]; [|split; [reflexivity|now left]].
  destruct (linspace z0 z1 _) as [zs|e]; [|split; [reflexivity|now left]].
  destruct (linalg_inv _) as [inv|e]; [|split; [reflexivity|now left]].
  rewrite (ensure_interpolator_ok rd Hinv). fold (cached rd).
  cbn [_interpolator cached with_interpolator].
  destruct (rgi_call_all _ _) as [dose|e]; [|split; [reflexivity|now right]].
  destruct (negb return_coords); split; try reflexivity; now right.
Qed.

Lemma cached_inv (rd : RTDoseReader) : reader_inv rd -> reader_inv (cached rd).
Proof.
  intros Hinv. unfold cached, active_interpolator.
  destruct Hinv as (Hm & [E|[m E]] & Hn); rewrite E.
  - apply with_interpolator_inv. split; [exact Hm|]. split; [now left|exact Hn].
  - apply with_interpolator_inv. split; [exact Hm|].
    split; [right; now exists m|exact Hn].
Qed.

Lemma cached_active (rd : RTDoseReader) :
  active_interpolator (cached rd) = active_interpolator rd.
Proof. reflexivity. Qed.

Lemma cached_cached (rd : RTDoseReader) : cached (cached rd) = cached rd.
Proof. reflexivity. Qed.

(** X1.  The cache of the interpolator is transparent: after any call of
    [get_profile], a further call, with whatever arguments, returns exactly
    what it would have returned on the reader before the first call. *)
Theorem get_profile_cache_transparent (rd : RTDoseReader)
    (p0 p1 p0' p1' : option (list R)) (s s' : R) (rc rc' : bool) :
  reader_inv rd ->
  result (Reader.get_profile p0' p1' s' rc')
    (final (Reader.get_profile p0 p1 s rc) rd)
  = result (Reader.get_profile p0' p1' s' rc') rd.
Proof.
  intros Hinv.
  assert (Hfinal : final (Reader.get_profile p0 p1 s rc) rd = rd
                   \/ final (Reader.get_profile p0 p1 s rc) rd = cached rd).
  { destruct p0 as [l0|], p1 as [l1|]; try (now left).
    apply (get_profile_normal_form rd l0 l1 s rc Hinv). }
  destruct Hfinal as [-> | ->]; [reflexivity|].
  destruct p0' as [l0|], p1' as [l1|]; try reflexivity.
  destruct (get_profile_normal_form rd l0 l1 s' rc' Hinv) as [-> _].
  destruct (get_profile_normal_form (cached rd) l0 l1 s' rc' (cached_inv rd Hinv))
    as [-> _].
  reflexivity.
Qed.

Lemma get_profile_cache_transparent_witness :
  reader_inv example_reader /\
  result (Reader.get_profile (Some [0; 0; 0]) (Some [1; 1; 1]) (1 / 2) true)
    (final (Reader.get_profile (Some [0; 0; 0]) (Some [1; 0; 0]) 1 false)
       example_reader)
  = result (Reader.get_profile (Some [0; 0; 0]) (Some [1; 1; 1]) (1 / 2) true)
      example_reader.
Proof.
  split; [exact example_reader_inv|].
  exact (get_profile_cache_transparent example_reader (Some [0; 0; 0])
           (Some [1; 0; 0]) (Some [0; 0; 0]) (Some [1; 1; 1]) 1 (1 / 2) false true
           example_reader_inv).
Defined.

Lemma unpack3_wrong_length (l : list R) :
  length l <> 3%nat -> unpack3 l = Raises (ValueError CannotUnpack).
Proof.
  destruct l as [|a [|b [|c [|d l]]]]; cbn; intros H; try reflexivity.
  now contradict H.
Qed.

Lemma get_profile_rejects_malformed_endpoints_aux (rd : RTDoseReader)
    (l0 l1 : list R) (s : R) (rc : bool) :
  length l0 <> 3%nat \/ length l1 <> 3%nat ->
  Reader.get_profile (Some l0) (Some l1) s rc rd
  = (Raises (if (length l0 =? length l1)%nat then ValueError CannotUnpack
             else AssertionError "p0 must be the same length as p1"),
     rd).
Proof.
  intros H. unfold Reader.get_profile.
  destruct (Nat.eqb_spec (length l0) (length l1)) as [E|NE]; [|reflexivity].
  cbn [negb]. unfold mbind, py_bind, lift.
  assert (H0 : length l0 <> 3%nat) by (destruct H; congruence).
  now rewrite (unpack3_wrong_length l0 H0).
Qed.

(** X2.  Endpoints that are not both 3-D are refused before anything is
    computed: sequences of different lengths raise the [AssertionError] of
    the length test, sequences of one length other than 3 raise the
    [ValueError] of the tuple unpacking, and the reader is left untouched:
    no interpolator is configured and the matrix is not inverted. *)
Theorem get_profile_rejects_malformed_endpoints (rd : RTDoseReader)
    (l0 l1 : list R) (s : R) (rc : bool) :
  length l0 <> 3%nat \/ length l1 <> 3%nat ->
  Reader.get_profile (Some l0) (Some l1) s rc rd
  = (Raises (if (length l0 =? length l1)%nat then ValueError CannotUnpack
             else AssertionError "p0 must be the same length as p1"),
     rd).
Proof. apply get_profile_rejects_malformed_endpoints_aux. Qed.

Lemma get_profile_rejects_malformed_endpoints_witness :
  (length [0; 0] <> 3%nat \/ length [1; 1] <> 3%nat) /\
  Reader.get_profile (Some [0; 0]) (Some [1; 1]) 1 true example_reader
  = (Raises (ValueError CannotUnpack), example_reader).
Proof.
  assert (H : length [0; 0] <> 3%nat \/ length [1; 1] <> 3%nat)
    by (left; cbn; lia).
  split; [exact H|].
  exact (get_profile_rejects_malformed_endpoints example_reader [0; 0] [1; 1] 1
           true H).
Defined.

Lemma zfloor_below_minus_one (x : R) : x < -1 -> (Zfloor x + 1 < 0)%Z.
Proof.
  intros Hx. pose proof (Zfloor_bound x) as [Hl _].
  assert (IZR (Zfloor x) < IZR (-1)) by (cbn; lra).
  apply lt_IZR in H. lia.
Qed.

(** X3.  A spacing that is zero, or negative and shorter than the segment,
    yields no profile: the call raises, and the reader is left untouched.
    By zero the floor division gives an infinity or a NaN that [int]
    refuses; a negative spacing gives a negative number of samples, which
    [numpy.linspace] refuses. *)
Theorem get_profile_rejects_bad_spacing (rd : RTDoseReader) (p q : vec3)
    (s : R) (rc : bool) :
  s = 0 \/ (s < 0 /\ - s < distance p q) ->
  Reader.get_profile (Some (to_list p)) (Some (to_list q)) s rc rd
  = (Raises (if Req_dec_T s 0 then
               if Req_dec_T (distance p q) 0 then ValueError CannotConvertNaN
               else OverflowError
             else ValueError NegativeNumberOfSamples),
     rd).
Proof.
  intros H. destruct p as [[x0 y0] z0], q as [[x1 y1] z1].
  unfold Reader.get_profile, to_list. cbn [length Nat.eqb negb unpack3].
  unfold mbind, py_bind, lift, get_self, mret, py_ret.
  cbn [np_sub zip_with]. rewrite linalg_norm_3.
  fold (distance (x0, y0, z0) (x1, y1, z1)).
  unfold int_floordiv. destruct (Req_dec_T s 0) as [E|NE]; [reflexivity|].
  destruct H as [H|[Hs Hd]]; [contradiction|].
  rewrite linspace_negative; [reflexivity|].
  apply zfloor_below_minus_one.
  apply (Rmult_lt_reg_r (- s)); [lra|].
  replace (distance (x0, y0, z0) (x1, y1, z1) / s * - s)
    with (- distance (x0, y0, z0) (x1, y1, z1)) by (field; exact NE).
  lra.
Qed.

Lemma get_profile_rejects_bad_spacing_witness :
  (-1 = 0 \/ (-1 < 0 /\ - -1 < distance (0, 0, 0) (10, 0, 0))) /\
  Reader.get_profile (Some (to_list (0, 0, 0))) (Some (to_list (10, 0, 0))) (-1)
    true example_reader
  = (Raises (if Req_dec_T (-1) 0 then
               if Req_dec_T (distance (0, 0, 0) (10, 0, 0)) 0
               then ValueError CannotConvertNaN else OverflowError
             else ValueError NegativeNumberOfSamples),
     example_reader).
Proof.
  assert (H : -1 = 0 \/ (-1 < 0 /\ - -1 < distance (0, 0, 0) (10, 0, 0))).
  { right. rewrite distance_example. split; lra. }
  split; [exact H|].
  exact (get_profile_rejects_bad_spacing example_reader (0, 0, 0) (10, 0, 0) (-1)
           true H).
Defined.

(** ** Sampling and interpolation *)

Lemma zip_with_fmap_r {A B C} (h : A -> B -> C) (g : A -> B) (l : list A) :
  zip_with h l (g <$> l) = (fun a => h a (g a)) <$> l.
Proof. induction l as [|a l IH]; cbn; [reflexivity | now rewrite IH]. Qed.

Lemma interpolate_points_result (rd : RTDoseReader) (pts : list vec3) :
  reader_inv rd ->
  result (Reader.interpolate_points pts) rd
  = (inv ← linalg_inv (_pixel_to_coords_matrix rd);
     Returns ((fun pt => rgi_value (active_interpolator rd) (apply_affine inv pt))
                <$> pts)).
Proof.
  intros Hinv. unfold result, Reader.interpolate_points.
  unfold mbind, py_bind, outcome_bind, lift, get_self.
  rewrite (ensure_interpolator_ok rd Hinv).
  cbn [_pixel_to_coords_matrix _interpolator with_interpolator].
  destruct (linalg_inv _) as [inv|e]; [|reflexivity].
  rewrite rgi_call_all_value by now apply active_interpolator_no_bounds_error.
  cbn [fst]. now rewrite <- list_fmap_compose.
Qed.

Lemma get_profile_3d (rd : RTDoseReader) (p q : vec3) (s : R) (rc : bool) :
  reader_inv rd -> 0 < s ->
  result (Reader.get_profile (Some (to_list p)) (Some (to_list q)) s rc) rd
  = (inv ← linalg_inv (_pixel_to_coords_matrix rd);
     Returns
       (if rc then
          Table ((fun pt => (pt, rgi_value (active_interpolator rd)
                                   (apply_affine inv pt)))
                   <$> even_points p q (sample_count p q s))
        else
          Doses ((fun pt => rgi_value (active_interpolator rd) (apply_affine inv pt))
                   <$> even_points p q (sample_count p q s)))).
Proof.
  intros Hinv Hs.
  destruct (get_profile_normal_form rd (to_list p) (to_list q) s rc Hinv) as [-> _].
  assert (Hn := sample_count_pos p q s Hs).
  destruct p as [[x0 y0] z0], q as [[x1 y1] z1].
  unfold profile_of, to_list. cbn [length Nat.eqb negb unpack3 mbind outcome_bind].
  cbn [np_sub zip_with]. rewrite linalg_norm_3.
  unfold int_floordiv. destruct (Req_dec_T s 0) as [E|_]; [lra|].
  cbn [mbind outcome_bind].
  fold (distance (x0, y0, z0) (x1, y1, z1)).
  fold (sample_count (x0, y0, z0) (x1, y1, z1) s).
  set (n := sample_count (x0, y0, z0) (x1, y1, z1) s) in *.
  rewrite !linspace_nonneg by lia. cbn [mbind outcome_bind].
  destruct (linalg_inv _) as [inv|e]; [|reflexivity].
  cbn [mbind outcome_bind].
  rewrite rgi_call_all_value by now apply active_interpolator_no_bounds_error.
  cbn [mbind outcome_bind].
  pose proof (line_points_linspace (x0, y0, z0) (x1, y1, z1) n) as Hl.
  cbv beta iota in Hl. unfold vstack4T. fold (line_points
    ((fun i => x0 + IZR i * ((x1 - x0) / IZR (n - 1))) <$> seqZ 0 n)
    ((fun i => y0 + IZR i * ((y1 - y0) / IZR (n - 1))) <$> seqZ 0 n)
    ((fun i => z0 + IZR i * ((z1 - z0) / IZR (n - 1))) <$> seqZ 0 n)).
  rewrite Hl. rewrite <- list_fmap_compose.
  destruct rc; cbn [negb]; [|reflexivity].
  now rewrite zip_with_fmap_r.
Qed.

(** X4.  The dose column of a profile is [interpolate_points] on the
    sampled points: for 3-D endpoints and a positive spacing,
    [get_profile] without coordinates returns what [interpolate_points]
    returns at the evenly spaced points of the sample count, and raises
    whenever it raises. *)
Theorem get_profile_is_interpolate_points (rd : RTDoseReader) (p q : vec3)
    (s : R) :
  reader_inv rd -> 0 < s ->
  result (Reader.get_profile (Some (to_list p)) (Some (to_list q)) s false) rd
  = Doses <$> result (Reader.interpolate_points
                        (even_points p q (sample_count p q s))) rd.
Proof.
  intros Hinv Hs.
  rewrite (get_profile_3d rd p q s false Hinv Hs).
  rewrite (interpolate_points_result rd _ Hinv).
  destruct (linalg_inv _); reflexivity.
Qed.

Lemma get_profile_is_interpolate_points_witness :
  reader_inv example_reader /\ 0 < 3 /\
  result (Reader.get_profile (Some (to_list (0, 0, 0))) (Some (to_list (10, 0, 0)))
            3 false) example_reader
  = Doses <$> result (Reader.interpolate_points
                        (even_points (0, 0, 0) (10, 0, 0)
                           (sample_count (0, 0, 0) (10, 0, 0) 3)))
                example_reader.
Proof.
  assert (H3 : 0 < 3) by lra.
  split; [exact example_reader_inv|]. split; [exact H3|].
  exact (get_profile_is_interpolate_points example_reader (0, 0, 0) (10, 0, 0) 3
           example_reader_inv H3).
Defined.

Lemma even_point_step_distance (p q : vec3) (n i : Z) :
  (2 <= n)%Z ->
  distance (even_point p q n i) (even_point p q n (i + 1))
  = distance p q / IZR (n - 1).
Proof.
  intros Hn. destruct p as [[x0 y0] z0], q as [[x1 y1] z1].
  unfold even_point, distance. rewrite plus_IZR.
  assert (Hk : 0 < IZR (n - 1)) by (apply IZR_lt; lia).
  set (k := IZR (n - 1)) in *. set (r := IZR i).
  set (S := (x1 - x0) * (x1 - x0) + (y1 - y0) * (y1 - y0) + (z1 - z0) * (z1 - z0)).
  assert (HS : 0 <= S).
  { pose proof (Rle_0_sqr (x1 - x0)). pose proof (Rle_0_sqr (y1 - y0)).
    pose proof (Rle_0_sqr (z1 - z0)). unfold Rsqr in *. unfold S. lra. }
  match goal with |- sqrt ?e = _ => replace e with (S * (/ k * / k)) end.
  - assert (0 < / k) by now apply Rinv_0_lt_compat.
    rewrite sqrt_mult by nra. rewrite sqrt_square by lra. reflexivity.
  - unfold S. field. lra.
Qed.

(** X5.  The samples are never closer together than the requested spacing:
    two consecutive points of a returned profile are exactly
    distance / (count - 1) apart, which is at least the spacing and less
    than twice the spacing.  When the spacing does not divide the distance
    the profile is therefore sampled more coarsely than requested, not more
    finely. *)
Theorem sample_spacing_not_finer (rd : RTDoseReader) (p q a b : vec3) (s : R)
    (rc : bool) (rows : list row) (i : nat) :
  0 < s ->
  result (Reader.get_profile (Some (to_list p)) (Some (to_list q)) s rc) rd
    = Returns (Table rows) ->
  coords rows !! i = Some a ->
  coords rows !! S i = Some b ->
  distance a b = distance p q / IZR (Z.of_nat (length rows) - 1)
  /\ s <= distance a b < 2 * s.
Proof.
  intros Hs Hr Ha Hb.
  apply reader_table_coords in Hr as [_ Hc].
  assert (Hlen : length rows = Z.to_nat (sample_count p q s)).
  { pose proof (length_fmap fst rows) as Hl. fold (coords rows) in Hl.
    rewrite Hc, even_points_length in Hl. symmetry. exact Hl. }
  rewrite Hc in Ha, Hb.
  assert (Hi : (Z.of_nat (S i) < sample_count p q s)%Z).
  { apply lookup_lt_Some in Hb. rewrite even_points_length in Hb. lia. }
  rewrite even_points_lookup in Ha, Hb by lia.
  injection Ha as <-. injection Hb as <-.
  replace (Z.of_nat (S i)) with (Z.of_nat i + 1)%Z by lia.
  rewrite even_point_step_distance by lia.
  rewrite Hlen, Z2Nat.id by lia. split; [reflexivity|].
  unfold sample_count in *.
  pose proof (Zfloor_bound (distance p q / s)) as [Hlo Hhi].
  set (k := Zfloor (distance p q / s)) in *.
  replace (k + 1 - 1)%Z with k by lia.
  assert (Hk : 1 <= IZR k) by (apply IZR_le; lia).
  set (d := distance p q) in *.
  assert (Hd : d = d / s * s) by (field; lra).
  assert (Hks : IZR k * s <= d) by (rewrite Hd; apply Rmult_le_compat_r; lra).
  assert (Hks' : d < (IZR k + 1) * s) by (rewrite Hd at 1; apply Rmult_lt_compat_r; lra).
  split.
  - apply (Rmult_le_reg_r (IZR k)); [lra|].
    replace (d / IZR k * IZR k) with d by (field; lra). lra.
  - apply (Rmult_lt_reg_r (IZR k)); [lra|].
    replace (d / IZR k * IZR k) with d by (field; lra). nra.
Qed.

Lemma sample_spacing_not_finer_witness :
  exists rows a b,
    0 < 3
    /\ result (Reader.get_profile (Some (to_list (0, 0, 0)))
                 (Some (to_list (10, 0, 0))) 3 true) example_reader
       = Returns (Table rows)
    /\ coords rows !! 0%nat = Some a
    /\ coords rows !! 1%nat = Some b
    /\ distance a b = distance (0, 0, 0) (10, 0, 0) / IZR (Z.of_nat (length rows) - 1)
    /\ 3 <= distance a b < 2 * 3.
Proof.
  assert (H3 : 0 < 3) by lra.
  destruct (example_sampling (0, 0, 0) (10, 0, 0) 3 H3) as [rows Hrows].
  assert (Hc := proj2 (reader_table_coords _ _ _ _ _ _ Hrows)).
  rewrite sample_count_example in Hc.
  exists rows, (even_point (0, 0, 0) (10, 0, 0) 4 0),
    (even_point (0, 0, 0) (10, 0, 0) 4 1).
  assert (Ha : coords rows !! 0%nat = Some (even_point (0, 0, 0) (10, 0, 0) 4 0))
    by (rewrite Hc; reflexivity).
  assert (Hb : coords rows !! 1%nat = Some (even_point (0, 0, 0) (10, 0, 0) 4 1))
    by (rewrite Hc; reflexivity).
  split; [exact H3|]. split; [exact Hrows|]. split; [exact Ha|].
  split; [exact Hb|].
  exact (sample_spacing_not_finer example_reader (0, 0, 0) (10, 0, 0) _ _ 3 true
           rows 0 H3 Hrows Ha Hb).
Defined.

Lemma active_interpolator_configured (rd : RTDoseReader) :
  reader_inv rd ->
  rgi_values (active_interpolator rd) = Reader.dose_array rd
  /\ fill_value (active_interpolator rd) = 0.
Proof.
  intros [_ [[E|[m E]] _]]; unfold active_interpolator; rewrite E; now split.
Qed.

(** X6.  Beyond the scored volume a profile reads zero dose: in a returned
    table, every row whose point falls, in index space, outside the bounds
    of the dose array carries the dose 0. *)
Theorem profile_reads_zero_outside_grid (rd : RTDoseReader) (inv : mat4)
    (p q c : vec3) (s d : R) (rows : list row) :
  reader_inv rd ->
  Reader.xyz_to_ijk rd = Returns inv ->
  0 < s ->
  result (Reader.get_profile (Some (to_list p)) (Some (to_list q)) s true) rd
    = Returns (Table rows) ->
  (c, d) ∈ rows ->
  outside_bounds (Reader.dose_array rd) (apply_affine inv c) ->
  d = 0.
Proof.
  intros Hinv Hm Hs Hr Hin Hout. unfold Reader.xyz_to_ijk in Hm.
  rewrite (get_profile_3d rd p q s true Hinv Hs), Hm in Hr.
  cbn [mbind outcome_bind] in Hr. injection Hr as <-.
  apply list_elem_of_fmap in Hin as (pt & E & _). injection E as -> ->.
  destruct (active_interpolator_configured rd Hinv) as [Hv Hf].
  unfold rgi_value. rewrite Hv, (out_of_bounds_true _ _ Hout). exact Hf.
Qed.

(** ** The transform and its inverse *)

Lemma affine_round_trip (r0 r1 r2 : vec4) (inv : mat4) (p : vec3) :
  linalg_inv (r0, r1, r2, (0, 0, 0, 1)) = Returns inv ->
  apply_affine inv (apply_affine (r0, r1, r2, (0, 0, 0, 1)) p) = p
  /\ apply_affine (r0, r1, r2, (0, 0, 0, 1)) (apply_affine inv p) = p.
Proof.
  unfold linalg_inv.
  destruct (Req_dec_T (det4 (r0, r1, r2, (0, 0, 0, 1))) 0) as [E|NE];
    [discriminate|].
  intros H. injection H as <-.
  destruct r0 as [[[a00 a01] a02] a03], r1 as [[[a10 a11] a12] a13],
    r2 as [[[a20 a21] a22] a23], p as [[x y] z].
  revert NE.
  cbv [apply_affine build4 det4 cofactor minor entry entry4 row4 skip det3
       sign Nat.even Nat.add Nat.ltb Nat.leb].
  intros NE.
  split; repeat f_equal; field; intros E; apply NE; lra.
Qed.

Lemma configure_dose_array_matrix (ds : Dataset) (rd : RTDoseReader) :
  Reader._configure_dose_array ds = Returns rd ->
  exists r0 r1 r2, _pixel_to_coords_matrix rd = (r0, r1, r2, (0, 0, 0, 1)).
Proof.
  unfold Reader._configure_dose_array.
  destruct ds as [[ipp|] [iop|] [ps|] [st|] [sc|] [u|] [[sh it|px]|]];
    cbn; intros H; try discriminate.
  injection H as <-. cbn [_pixel_to_coords_matrix].
  destruct ipp as [[px0 py0] pz0], iop as [[[u0 u1] u2] [[v0 v1] v2]].
  cbn. eauto.
Qed.

(** X7.  Round trip between the two frames: for a reader built from a
    dataset whose matrix has an inverse, mapping a point with [ijk_to_xyz]
    and then with [xyz_to_ijk] gives the point back, and so does the other
    order. *)
Theorem index_patient_round_trip (ds : Dataset) (rd : RTDoseReader)
    (inv : mat4) (p : vec3) :
  Reader._configure_dose_array ds = Returns rd ->
  Reader.xyz_to_ijk rd = Returns inv ->
  apply_affine inv (apply_affine (Reader.ijk_to_xyz rd) p) = p
  /\ apply_affine (Reader.ijk_to_xyz rd) (apply_affine inv p) = p.
Proof.
  intros Hds Hinv.
  destruct (configure_dose_array_matrix ds rd Hds) as (r0 & r1 & r2 & E).
  unfold Reader.xyz_to_ijk, Reader.ijk_to_xyz in *. rewrite E in *.
  now apply affine_round_trip.
Qed.

Lemma example_reader_configured :
  Reader._configure_dose_array example_dataset = Returns example_reader.
Proof. reflexivity. Qed.

Lemma index_patient_round_trip_witness :
  exists inv,
    Reader._configure_dose_array example_dataset = Returns example_reader
    /\ Reader.xyz_to_ijk example_reader = Returns inv
    /\ apply_affine inv (apply_affine (Reader.ijk_to_xyz example_reader) (1, 2, 3))
       = (1, 2, 3)
    /\ apply_affine (Reader.ijk_to_xyz example_reader) (apply_affine inv (1, 2, 3))
       = (1, 2, 3).
Proof.
  destruct example_matrix_inverse as [inv Hinv]. exists inv.
  split; [exact example_reader_configured|]. split; [exact Hinv|].
  exact (index_patient_round_trip example_dataset example_reader inv (1, 2, 3)
           example_reader_configured Hinv).
Defined.

Lemma example_matrix_apply (p : vec3) :
  apply_affine (Reader.ijk_to_xyz example_reader) p = p.
Proof.
  destruct p as [[x y] z].
  cbv [Reader.ijk_to_xyz example_reader reader_of _pixel_to_coords_matrix
       Reader._dicom_pixel_to_patient_slice np_cross fst snd apply_affine entry
       entry4 row4].
  repeat f_equal; ring.
Qed.

Lemma example_inverse_apply (inv : mat4) (p : vec3) :
  Reader.xyz_to_ijk example_reader = Returns inv -> apply_affine inv p = p.
Proof.
  intros Hinv.
  destruct (affine_round_trip (1 * 1, 0 * 1, (0 * 0 - 0 * 1) * 1, 0)
              (0 * 1, 1 * 1, (0 * 0 - 1 * 0) * 1, 0)
              (0 * 1, 0 * 1, (1 * 1 - 0 * 0) * 1, 0) inv p Hinv) as [H _].
  rewrite <- H at 2. f_equal. symmetry. apply example_matrix_apply.
Qed.

Lemma profile_reads_zero_outside_grid_witness :
  exists inv rows d,
    reader_inv example_reader
    /\ Reader.xyz_to_ijk example_reader = Returns inv
    /\ 0 < 3
    /\ result (Reader.get_profile (Some (to_list (0, 0, 0)))
                 (Some (to_list (10, 0, 0))) 3 true) example_reader
       = Returns (Table rows)
    /\ ((10, 0, 0), d) ∈ rows
    /\ outside_bounds (Reader.dose_array example_reader)
         (apply_affine inv (10, 0, 0))
    /\ d = 0.
Proof.
  destruct example_matrix_inverse as [inv Hinv].
  assert (H3 : 0 < 3) by lra.
  set (rows := (fun pt => (pt, rgi_value (active_interpolator example_reader)
                                 (apply_affine inv pt)))
                 <$> even_points (0, 0, 0) (10, 0, 0)
                       (sample_count (0, 0, 0) (10, 0, 0) 3)).
  assert (Hrows : result (Reader.get_profile (Some (to_list (0, 0, 0)))
                            (Some (to_list (10, 0, 0))) 3 true) example_reader
                  = Returns (Table rows)).
  { rewrite (get_profile_3d example_reader _ _ 3 true example_reader_inv H3).
    now rewrite Hinv. }
  set (d := rgi_value (active_interpolator example_reader)
              (apply_affine inv (10, 0, 0))).
  assert (Hin : ((10, 0, 0), d) ∈ rows).
  { apply list_elem_of_fmap. exists (10, 0, 0). split; [reflexivity|].
    rewrite sample_count_example.
    apply list_elem_of_lookup. exists 3%nat.
    rewrite even_points_lookup by lia. f_equal.
    apply (even_point_last (0, 0, 0) (10, 0, 0) 4). lia. }
  assert (Hout : outside_bounds (Reader.dose_array example_reader)
                   (apply_affine inv (10, 0, 0))).
  { rewrite (example_inverse_apply inv (10, 0, 0) Hinv).
    cbv [outside_bounds Reader.dose_array scale_array shape example_reader
         reader_of _pixel_array transpose210 unit_cube].
    right. left. change (2 - 1)%Z with 1%Z. lra. }
  exists inv, rows, d.
  split; [exact example_reader_inv|]. split; [exact Hinv|]. split; [exact H3|].
  split; [exact Hrows|]. split; [exact Hin|]. split; [exact Hout|].
  exact (profile_reads_zero_outside_grid example_reader inv (0, 0, 0) (10, 0, 0)
           (10, 0, 0) 3 d rows example_reader_inv Hinv H3 Hrows Hin Hout).
Defined.

Lemma np_cross_zero_dependent (u v : vec3) :
  np_cross u v = (0, 0, 0) -> linearly_dependent u v.
Proof.
  destruct u as [[u0 u1] u2], v as [[v0 v1] v2]. unfold np_cross.
  intros H. injection H as C0 C1 C2. unfold linearly_dependent.
  destruct (Req_dec_T u0 0) as [E0|N0].
  - destruct (Req_dec_T u1 0) as [E1|N1].
    + destruct (Req_dec_T u2 0) as [E2|N2].
      * exists 1, 0. split; [left; lra|]. subst. cbn. repeat f_equal; ring.
      * exists v2, (- u2). split; [right; lra|]. cbn. repeat f_equal; lra.
    + exists v1, (- u1). split; [right; lra|]. cbn. repeat f_equal; lra.
  - exists v0, (- u0). split; [right; lra|]. cbn. repeat f_equal; lra.
Qed.

Lemma sum_squares_zero (a b c : R) : a * a + b * b + c * c = 0 -> (a, b, c) = (0, 0, 0).
Proof.
  intros H. pose proof (Rle_0_sqr a). pose proof (Rle_0_sqr b).
  pose proof (Rle_0_sqr c). unfold Rsqr in *.
  assert (a * a = 0) by lra. assert (b * b = 0) by lra. assert (c * c = 0) by lra.
  repeat f_equal; now apply Rsqr_eq_0.
Qed.

Lemma reader_of_xyz_to_ijk_raises_iff (ds : Dataset) (ipp u v : vec3)
    (pixel_spacing : R * R) (thickness scaling : R) (units : string)
    (pixels : ndarray3) :
  Reader.xyz_to_ijk
    (reader_of ds ipp (u, v) pixel_spacing thickness scaling units pixels)
    = Raises LinAlgError
  <-> (fst pixel_spacing = 0 \/ snd pixel_spacing = 0 \/ thickness = 0
       \/ linearly_dependent u v).
Proof.
  unfold Reader.xyz_to_ijk, reader_of. cbn [_pixel_to_coords_matrix].
  pose proof (det4_pixel_to_patient ipp u v (fst pixel_spacing)
                (snd pixel_spacing) thickness) as D.
  unfold linalg_inv.
  destruct (Req_dec_T _ 0) as [E|NE]; split; intros H; try reflexivity;
    try discriminate.
  - rewrite D in E. destruct (np_cross u v) as [[c0 c1] c2] eqn:Ec.
    apply Rmult_integral in E as [E|E].
    + apply Rmult_integral in E as [E|E]; [|tauto].
      apply Rmult_integral in E as [E|E]; tauto.
    + right. right. right. apply np_cross_zero_dependent.
      rewrite Ec. now apply sum_squares_zero.
  - exfalso. apply NE. rewrite D.
    destruct H as [H|[H|[H|H]]].
    + destruct (np_cross u v) as [[c0 c1] c2]. rewrite H. ring.
    + destruct (np_cross u v) as [[c0 c1] c2]. rewrite H. ring.
    + destruct (np_cross u v) as [[c0 c1] c2]. rewrite H. ring.
    + rewrite (np_cross_dependent u v H). ring.
Qed.

Lemma configure_dose_array_reader_of (ds : Dataset) (rd : RTDoseReader) :
  Reader._configure_dose_array ds = Returns rd ->
  exists ipp iop ps th sc units px,
    ImagePositionPatient ds = Some ipp /\ ImageOrientationPatient ds = Some iop
    /\ PixelSpacing ds = Some ps /\ SliceThickness ds = Some th
    /\ DoseGridScaling ds = Some sc /\ DoseUnits ds = Some units
    /\ pixel_array ds = Some (Frames px)
    /\ rd = reader_of ds ipp iop ps th sc units px.
Proof.
  unfold Reader._configure_dose_array.
  destruct ds as [[ipp|] [iop|] [ps|] [st|] [sc|] [u|] [[sh it|px]|]];
    cbn; intros H; try discriminate.
  injection H as <-. exists ipp, iop, ps, st, sc, u, px. repeat split.
Qed.

(** X8.  For a reader built from a dataset, [xyz_to_ijk] raises the
    [LinAlgError] of the inversion exactly when the row spacing, the column
    spacing or the slice thickness is zero or the two orientation vectors
    are linearly dependent; in every other case it returns the inverse. *)
Theorem xyz_to_ijk_raises_iff (ds : Dataset) (rd : RTDoseReader) (u v : vec3)
    (pixel_spacing : R * R) (thickness : R) :
  Reader._configure_dose_array ds = Returns rd ->
  ImageOrientationPatient ds = Some (u, v) ->
  PixelSpacing ds = Some pixel_spacing ->
  SliceThickness ds = Some thickness ->
  Reader.xyz_to_ijk rd = Raises LinAlgError
  <-> (fst pixel_spacing = 0 \/ snd pixel_spacing = 0 \/ thickness = 0
       \/ linearly_dependent u v).
Proof.
  intros Hds Hiop Hps Hth.
  destruct (configure_dose_array_reader_of ds rd Hds)
    as (ipp & iop & ps & th & sc & units & px & _ & Hiop' & Hps' & Hth' & _ & _ & _ & ->).
  rewrite Hiop in Hiop'. rewrite Hps in Hps'. rewrite Hth in Hth'.
  injection Hiop' as <-. injection Hps' as <-. injection Hth' as <-.
  apply reader_of_xyz_to_ijk_raises_iff.
Qed.

Lemma xyz_to_ijk_raises_iff_witness :
  Reader._configure_dose_array degenerate_dataset = Returns degenerate_reader
  /\ ImageOrientationPatient degenerate_dataset = Some ((1, 0, 0), (2, 0, 0))
  /\ PixelSpacing degenerate_dataset = Some (1, 1)
  /\ SliceThickness degenerate_dataset = Some 1
  /\ (Reader.xyz_to_ijk degenerate_reader = Raises LinAlgError
      <-> (fst (1, 1) = 0 \/ snd (1, 1) = 0 \/ 1 = 0
           \/ linearly_dependent (1, 0, 0) (2, 0, 0))).
Proof.
  split; [reflexivity|]. split; [reflexivity|]. split; [reflexivity|].
  split; [reflexivity|].
  exact (xyz_to_ijk_raises_iff degenerate_dataset degenerate_reader (1, 0, 0)
           (2, 0, 0) (1, 1) 1 eq_refl eq_refl eq_refl eq_refl).
Defined.

(** ** Interpolation at the voxels *)






Lemma set_interpolation_method_ok (rd : RTDoseReader) (method : string) :
  method = "nearest" \/ method = "linear" ->
  Reader.set_interpolation_method method rd
  = (Returns tt,
     with_interpolator (with_interpolation_method rd method)
       (Some (configured_interpolator rd (method_of method)))).
Proof. intros [-> | ->]; reflexivity. Qed.

Lemma set_interpolation_method_inv (rd : RTDoseReader) (method : string) :
  method = "nearest" \/ method = "linear" ->
  nonempty (_pixel_array rd) ->
  reader_inv (final (Reader.set_interpolation_method method) rd).
Proof.
  intros Hm Hn. unfold final. rewrite (set_interpolation_method_ok rd method Hm).
  cbn [snd]. split; [|split].
  - cbn. unfold Reader._interpolation_method_options. rewrite !elem_of_cons.
    destruct Hm; auto.
  - right. exists (method_of method). reflexivity.
  - exact Hn.
Qed.



(** ** Choosing the kernel and building the reader *)

(** X10.  Selecting a kernel takes effect whatever was cached: after
    [set_interpolation_method] with a supported name, a call of
    [get_profile] returns the profile computed with an interpolator of that
    kernel over the dose array, also when an interpolator of the other
    kernel had been cached before. *)
Theorem set_interpolation_method_takes_effect (rd : RTDoseReader)
    (method : string) (l0 l1 : list R) (s : R) (rc : bool) :
  reader_inv rd ->
  method = "nearest" \/ method = "linear" ->
  result (Reader.set_interpolation_method method) rd = Returns tt
  /\ result (Reader.get_profile (Some l0) (Some l1) s rc)
       (final (Reader.set_interpolation_method method) rd)
     = profile_of (_pixel_to_coords_matrix rd)
         (configured_interpolator rd (method_of method)) l0 l1 s rc.
Proof.
  intros Hinv Hm.
  pose proof (set_interpolation_method_inv rd method Hm (proj2 (proj2 Hinv))) as Hinv'.
  destruct (get_profile_normal_form _ l0 l1 s rc Hinv') as [-> _].
  unfold result, final. rewrite (set_interpolation_method_ok rd method Hm).
  split; reflexivity.
Qed.

Lemma set_interpolation_method_takes_effect_witness :
  reader_inv (cached example_reader)
  /\ ("nearest" = "nearest" \/ "nearest" = "linear")
  /\ result (Reader.set_interpolation_method "nearest") (cached example_reader)
     = Returns tt
  /\ result (Reader.get_profile (Some [0; 0; 0]) (Some [1; 0; 0]) 1 true)
       (final (Reader.set_interpolation_method "nearest") (cached example_reader))
     = profile_of (_pixel_to_coords_matrix (cached example_reader))
         (configured_interpolator (cached example_reader) (method_of "nearest"))
         [0; 0; 0] [1; 0; 0] 1 true.
Proof.
  pose proof (cached_inv example_reader example_reader_inv) as Hinv.
  split; [exact Hinv|]. split; [now left|].
  exact (set_interpolation_method_takes_effect (cached example_reader) "nearest"
           [0; 0; 0] [1; 0; 0] 1 true Hinv (or_introl eq_refl)).
Defined.

Lemma set_interpolation_method_unsupported_aux (rd : RTDoseReader)
    (method : string) :
  ~ (method = "nearest" \/ method = "linear") ->
  Reader.set_interpolation_method method rd
  = (Raises (ValueError InterpolationMethodNotSupported), rd).
Proof.
  intros H. unfold Reader.set_interpolation_method.
  rewrite bool_decide_eq_false_2; [reflexivity|].
  unfold Reader._interpolation_method_options.
  rewrite !elem_of_cons, elem_of_nil. tauto.
Qed.

(** X11.  An interpolation method other than ['nearest'] and ['linear'] is
    refused with a [ValueError], and the reader keeps the method and the
    interpolator it had. *)
Theorem set_interpolation_method_unsupported (rd : RTDoseReader)
    (method : string) :
  method <> "nearest" -> method <> "linear" ->
  Reader.set_interpolation_method method rd
  = (Raises (ValueError InterpolationMethodNotSupported), rd).
Proof.
  intros Hn Hl. apply set_interpolation_method_unsupported_aux. tauto.
Qed.

Lemma set_interpolation_method_unsupported_witness :
  "cubic" <> "nearest" /\ "cubic" <> "linear" /\
  Reader.set_interpolation_method "cubic" example_reader
  = (Raises (ValueError InterpolationMethodNotSupported), example_reader).
Proof.
  assert (Hn : "cubic" <> "nearest") by discriminate.
  assert (Hl : "cubic" <> "linear") by discriminate.
  split; [exact Hn|]. split; [exact Hl|].
  exact (set_interpolation_method_unsupported example_reader "cubic" Hn Hl).
Defined.



(** A dataset with a single frame of 2 x 2 pixels. *)
Lemma configure_dose_array_single_frame (item2 : Z -> Z -> R) :
  Reader._configure_dose_array
    {| ImagePositionPatient := Some (0, 0, 0);
       ImageOrientationPatient := Some ((1, 0, 0), (0, 1, 0));
       PixelSpacing := Some (1, 1);
       SliceThickness := Some 1;
       DoseGridScaling := Some 1;
       DoseUnits := Some "GY";
       pixel_array := Some (Frame (2, 2)%Z item2) |}
  = Raises (ValueError AxesDontMatchArray).
Proof. reflexivity. Qed.

(** ** The tool: flags, zero point and doses *)

Lemma reader_doses_only (rd : RTDoseReader) (l0 l1 : list R) (s : R)
    (prof : profile) :
  result (Reader.get_profile (Some l0) (Some l1) s false) rd = Returns prof ->
  exists dose, prof = Doses dose.
Proof.
  unfold result, Reader.get_profile.
  destruct (negb (length l0 =? length l1)%nat); [discriminate|].
  unfold mbind, py_bind, lift, get_self, mret, py_ret, raise.
  destruct (unpack3 l0) as [[[x0 y0] z0]|e]; [|discriminate].
  destruct (unpack3 l1) as [[[x1 y1] z1]|e]; [|discriminate].
  destruct (int_floordiv _ s) as [q|e]; [|discriminate].
  destruct (linspace x0 x1 _) as [xs|e]; [|discriminate].
  destruct (linspace y0 y1 _) as [ys|e]; [|discriminate].
  destruct (linspace z0 z1 _) as [zs|e]; [|discriminate].
  destruct (linalg_inv _) as [inv|e]; [|discriminate].
  destruct (Reader.ensure_interpolator rd) as [[[]|e] rd']; [|discriminate].
  destruct (_interpolator rd') as [f|]; [|discriminate].
  destruct (rgi_call_all f _) as [dose|e]; [|discriminate].
  cbn [negb fst]. intros H. injection H as <-. now exists dose.
Qed.

(** X13.  With [return_coords=False] the tool never returns a profile: the
    reader then returns the doses alone, a 1-D array, and the subtraction of
    the zero point from its first three columns raises [IndexError]; any
    earlier failure raises as well. *)
Theorem tool_get_profile_without_coords_raises (t : ProfileTool)
    (rd : RTDoseReader) (p0 p1 : vec3) (s : R) (requested : string)
    (normalize : bool) (zero_point : zero_point_arg) :
  _dose_reader t = Inst rd ->
  (exists e, result (Tool.get_profile p0 p1 s false requested normalize
                       zero_point) t = Raises e)
  /\ (forall z prof,
        Tool.resolve_zero_point zero_point t = Returns (Some z) ->
        result (Reader.get_profile (Some (to_list (vadd p0 z)))
                  (Some (to_list (vadd p1 z))) (s * 10) false) rd = Returns prof ->
        result (Tool.get_profile p0 p1 s false requested normalize zero_point) t
        = Raises IndexError).
Proof.
  intros Hrd. rewrite (tool_get_profile_stages t rd) by exact Hrd.
  unfold profile_stages. split.
  - destruct (Tool.resolve_zero_point zero_point t) as [[z|]|e];
      cbn [mbind outcome_bind]; eauto.
    destruct (result _ rd) as [prof|e] eqn:E; cbn [mbind outcome_bind]; eauto.
    apply reader_doses_only in E as [dose ->]. cbn. eauto.
  - intros z prof Hz Hr. rewrite Hz. cbn [mbind outcome_bind]. rewrite Hr.
    apply reader_doses_only in Hr as [dose ->]. reflexivity.
Qed.

Lemma tool_get_profile_without_coords_raises_witness :
  _dose_reader (tool_with (plan_at_gantry 0) example_reader) = Inst example_reader
  /\ exists e,
       result (Tool.get_profile (0, 0, 0) (10, 0, 0) 1 false "Gy" false ZeroNone)
         (tool_with (plan_at_gantry 0) example_reader) = Raises e.
Proof.
  split; [reflexivity|].
  exact (proj1 (tool_get_profile_without_coords_raises
                  (tool_with (plan_at_gantry 0) example_reader) example_reader
                  (0, 0, 0) (10, 0, 0) 1 "Gy" false ZeroNone eq_refl)).
Defined.

(** X14.  When the zero point is to be derived and the derivation is
    unavailable, the tool does not fall back on the origin: the addition of
    the endpoints to an array that holds [None] raises [TypeError], before
    the dose reader is called, and the tool is left as it was. *)
Theorem unavailable_zero_point_raises (t : ProfileTool) (rd : RTDoseReader)
    (p0 p1 : vec3) (s : R) (rc : bool) (requested : string) (normalize : bool) :
  _dose_reader t = Inst rd ->
  Tool.get_zero_point "INTERCEPT_CAX_SURFACE" t = Returns None ->
  Tool.get_profile p0 p1 s rc requested normalize ZeroDefault t
  = (Raises TypeError, t).
Proof.
  intros Hrd Hz. unfold Tool.get_profile.
  unfold mbind, py_bind, get_self, lift, raise.
  cbn [Tool.resolve_zero_point]. rewrite Hz, Hrd. reflexivity.
Qed.

Lemma unavailable_zero_point_raises_witness :
  let t := tool_with (plan_reader_with None None None None None) example_reader in
  _dose_reader t = Inst example_reader
  /\ Tool.get_zero_point "INTERCEPT_CAX_SURFACE" t = Returns None
  /\ Tool.get_profile (0, 0, 0) (10, 0, 0) 1 true "Gy" false ZeroDefault t
     = (Raises TypeError, t).
Proof.
  cbv zeta.
  assert (Hz : Tool.get_zero_point "INTERCEPT_CAX_SURFACE"
                 (tool_with (plan_reader_with None None None None None)
                    example_reader) = Returns None).
  { apply (get_zero_point_unavailable _ (plan_reader_with None None None None None));
      [reflexivity|].
    left. apply (beam_parameters_lookup None None None None None). }
  split; [reflexivity|]. split; [exact Hz|].
  exact (unavailable_zero_point_raises
           (tool_with (plan_reader_with None None None None None) example_reader)
           example_reader (0, 0, 0) (10, 0, 0) 1 true "Gy" false eq_refl Hz).
Defined.

Lemma vadd_vsub (c z : vec3) : vadd (vsub c z) z = c.
Proof.
  destruct c as [[a b] c], z as [[x y] z]. unfold vadd, vsub.
  repeat f_equal; ring.
Qed.

(** X15.  The reported coordinates are relative to the zero point and the
    dose is the one of the absolute position: on a grid in GY, without
    normalisation, every row (c, d) of the returned table carries the
    interpolated dose of the patient point c + z, times 100 when CGY is
    requested. *)
Theorem profile_dose_is_at_shifted_point (t : ProfileTool) (rd : RTDoseReader)
    (inv : mat4) (p0 p1 z c : vec3) (s d : R) (requested : string)
    (zero_point : zero_point_arg) (rows : list row) :
  _dose_reader t = Inst rd ->
  reader_inv rd ->
  Reader.xyz_to_ijk rd = Returns inv ->
  0 < s ->
  Tool.resolve_zero_point zero_point t = Returns (Some z) ->
  Reader.dose_units rd = "GY" ->
  result (Tool.get_profile p0 p1 s true requested false zero_point) t
    = Returns (Table rows) ->
  (c, d) ∈ rows ->
  d = rgi_value (active_interpolator rd) (apply_affine inv (vadd c z))
      * (if String.eqb (upper requested) "CGY" then 100 else 1).
Proof.
  intros Hrd Hinv Hm Hs Hz Hgy Hr Hin.
  assert (Hs' : 0 < s * 10) by lra.
  pose proof (get_profile_3d rd (vadd p0 z) (vadd p1 z) (s * 10) true Hinv Hs')
    as Hsample.
  unfold Reader.xyz_to_ijk in Hm. rewrite Hm in Hsample.
  cbn [mbind outcome_bind] in Hsample.
  rewrite (profile_stages_sampled t rd p0 p1 z s requested false zero_point _
             Hrd Hz Hsample) in Hr.
  rewrite Hgy, convert_dose_units_gy in Hr. cbn in Hr. injection Hr as <-.
  unfold unit_converted in Hin.
  destruct (String.eqb (upper requested) "CGY").
  - apply list_elem_of_fmap in Hin as (r1 & E1 & Hin).
    apply list_elem_of_fmap in Hin as (r2 & E2 & Hin).
    apply list_elem_of_fmap in Hin as (pt & E3 & _). subst r2 r1.
    cbn in E1. injection E1 as -> ->. now rewrite vadd_vsub.
  - apply list_elem_of_fmap in Hin as (r2 & E2 & Hin).
    apply list_elem_of_fmap in Hin as (pt & E3 & _). subst r2.
    cbn in E2. injection E2 as -> ->. rewrite vadd_vsub. ring.
Qed.

Lemma profile_dose_is_at_shifted_point_witness :
  exists inv rows c d,
    let t := tool_with (plan_at_gantry 0) example_reader in
    _dose_reader t = Inst example_reader
    /\ reader_inv example_reader
    /\ Reader.xyz_to_ijk example_reader = Returns inv
    /\ 0 < 1
    /\ Tool.resolve_zero_point (ZeroPoint (1, 0, 0)) t = Returns (Some (1, 0, 0))
    /\ Reader.dose_units example_reader = "GY"
    /\ result (Tool.get_profile (0, 0, 0) (10, 0, 0) 1 true "cGy" false
                 (ZeroPoint (1, 0, 0))) t = Returns (Table rows)
    /\ (c, d) ∈ rows
    /\ d = rgi_value (active_interpolator example_reader)
             (apply_affine inv (vadd c (1, 0, 0)))
           * (if String.eqb (upper "cGy") "CGY" then 100 else 1).
Proof.
  destruct example_matrix_inverse as [inv Hinv].
  assert (H1 : 0 < 1) by lra. assert (H10 : 0 < 1 * 10) by lra.
  set (t := tool_with (plan_at_gantry 0) example_reader).
  set (p := vadd (0, 0, 0) (1, 0, 0)). set (q := vadd (10, 0, 0) (1, 0, 0)).
  set (f := fun pt : vec3 =>
              (pt, rgi_value (active_interpolator example_reader)
                     (apply_affine inv pt))).
  set (rows_mm := f <$> even_points p q (sample_count p q (1 * 10))).
  assert (Hsample : result (Reader.get_profile (Some (to_list p))
                              (Some (to_list q)) (1 * 10) true) example_reader
                    = Returns (Table rows_mm)).
  { rewrite (get_profile_3d example_reader p q (1 * 10) true example_reader_inv H10).
    now rewrite Hinv. }
  set (rows := scale_dose 100 <$> (shift_back (1, 0, 0) <$> rows_mm)).
  assert (Hr : result (Tool.get_profile (0, 0, 0) (10, 0, 0) 1 true "cGy" false
                         (ZeroPoint (1, 0, 0))) t = Returns (Table rows)).
  { rewrite (profile_stages_sampled t example_reader (0, 0, 0) (10, 0, 0)
               (1, 0, 0) 1 "cGy" false (ZeroPoint (1, 0, 0)) rows_mm
               eq_refl eq_refl Hsample).
    reflexivity. }
  set (r := scale_dose 100 (shift_back (1, 0, 0) (f p))).
  assert (Hin : (fst r, snd r) ∈ rows).
  { apply list_elem_of_lookup. exists 0%nat. unfold rows, rows_mm.
    rewrite !list_lookup_fmap.
    rewrite even_points_lookup
      by (pose proof (sample_count_pos p q (1 * 10) H10); lia).
    cbn [fmap option_fmap option_map]. now rewrite even_point_first. }
  exists inv, rows, (fst r), (snd r). cbv zeta.
  split; [reflexivity|]. split; [exact example_reader_inv|]. split; [exact Hinv|].
  split; [exact H1|]. split; [reflexivity|]. split; [reflexivity|].
  split; [exact Hr|]. split; [exact Hin|].
  exact (profile_dose_is_at_shifted_point t example_reader inv (0, 0, 0)
           (10, 0, 0) (1, 0, 0) (fst r) 1 (snd r) "cGy" (ZeroPoint (1, 0, 0)) rows
           eq_refl example_reader_inv Hinv H1 eq_refl eq_refl Hr Hin).
Defined.

(** ** The geometry of the zero point *)

Lemma radians_plus_360 (g : R) : radians (g + 360) = radians g + 2 * PI.
Proof. unfold radians. field. Qed.

(** X16.  The derived zero point lies in the transverse plane of the
    isocenter, at the distance |SSD - SAD| from it, and it depends on the
    gantry angle modulo 360 degrees only. *)
Theorem zero_point_geometry (t t' : ProfileTool) (rp rp' : RTPlanReader)
    (ix iy iz g ssd sad : R) :
  _plan_reader t = Inst rp ->
  beam_parameters rp !! "Isocenter" = Some (Sequence [ix; iy; iz]) ->
  beam_parameters rp !! "Gantry Angle" = Some (Number g) ->
  beam_parameters rp !! "SSD" = Some (Number ssd) ->
  beam_parameters rp !! "SAD" = Some (Number sad) ->
  _plan_reader t' = Inst rp' ->
  beam_parameters rp' !! "Isocenter" = Some (Sequence [ix; iy; iz]) ->
  beam_parameters rp' !! "Gantry Angle" = Some (Number (g + 360)) ->
  beam_parameters rp' !! "SSD" = Some (Number ssd) ->
  beam_parameters rp' !! "SAD" = Some (Number sad) ->
  exists zp,
    Tool.get_zero_point "INTERCEPT_CAX_SURFACE" t = Returns (Some zp)
    /\ Tool.get_zero_point "INTERCEPT_CAX_SURFACE" t' = Returns (Some zp)
    /\ snd zp = iz
    /\ distance (ix, iy, iz) zp = Rabs (ssd - sad).
Proof.
  intros Hrp Hiso Hg Hssd Hsad Hrp' Hiso' Hg' Hssd' Hsad'.
  rewrite (get_zero_point_value t rp ix iy iz g ssd sad Hrp Hiso Hg Hssd Hsad).
  rewrite (get_zero_point_value t' rp' ix iy iz (g + 360) ssd sad Hrp' Hiso' Hg'
             Hssd' Hsad').
  eexists. split; [reflexivity|]. split.
  - rewrite radians_plus_360, sin_plus, cos_plus, sin_2PI, cos_2PI.
    do 2 f_equal. repeat f_equal; ring.
  - split; [reflexivity|]. unfold distance.
    set (k := ssd - sad). set (a := radians g).
    replace ((ix - k * sin a - ix) * (ix - k * sin a - ix)
             + (iy + k * cos a - iy) * (iy + k * cos a - iy)
             + (iz - iz) * (iz - iz))
      with (Rsqr k * (Rsqr (sin a) + Rsqr (cos a))) by (unfold Rsqr; ring).
    rewrite sin2_cos2, Rmult_1_r. apply sqrt_Rsqr_abs.
Qed.

Lemma zero_point_geometry_witness :
  exists zp,
    Tool.get_zero_point "INTERCEPT_CAX_SURFACE"
      (tool_with (plan_at_gantry 30) example_reader) = Returns (Some zp)
    /\ Tool.get_zero_point "INTERCEPT_CAX_SURFACE"
         (tool_with (plan_at_gantry (30 + 360)) example_reader) = Returns (Some zp)
    /\ snd zp = 0
    /\ distance (0, 0, 0) zp = Rabs (100 - 90).
Proof.
  destruct (beam_parameters_lookup (Some (Sequence [0; 0; 0])) (Some (Number 200))
              (Some (Number 100)) (Some (Number 90)) (Some (Number 30)))
    as (Hiso & _ & Hssd & Hsad & Hg).
  destruct (beam_parameters_lookup (Some (Sequence [0; 0; 0])) (Some (Number 200))
              (Some (Number 100)) (Some (Number 90)) (Some (Number (30 + 360))))
    as (Hiso' & _ & Hssd' & Hsad' & Hg').
  exact (zero_point_geometry (tool_with (plan_at_gantry 30) example_reader)
           (tool_with (plan_at_gantry (30 + 360)) example_reader)
           (plan_at_gantry 30) (plan_at_gantry (30 + 360)) 0 0 0 30 100 90
           eq_refl Hiso Hg Hssd Hsad eq_refl Hiso' Hg' Hssd' Hsad').
Defined.

(** ** A batch of lines *)

Lemma with_dose_reader_same (t : ProfileTool) (rd : RTDoseReader) :
  _dose_reader t = Inst rd -> with_dose_reader t rd = t.
Proof. destruct t; cbn; intros ->; reflexivity. Qed.

Lemma reader_result_cached (rd : RTDoseReader) (p0 p1 : option (list R)) (s : R)
    (rc : bool) :
  reader_inv rd ->
  result (Reader.get_profile p0 p1 s rc) (cached rd)
  = result (Reader.get_profile p0 p1 s rc) rd.
Proof.
  intros Hinv. destruct p0 as [l0|], p1 as [l1|]; try reflexivity.
  destruct (get_profile_normal_form rd l0 l1 s rc Hinv) as [-> _].
  destruct (get_profile_normal_form (cached rd) l0 l1 s rc (cached_inv rd Hinv))
    as [-> _].
  reflexivity.
Qed.

Lemma reader_final_cached (rd : RTDoseReader) (p0 p1 : option (list R)) (s : R)
    (rc : bool) :
  reader_inv rd ->
  final (Reader.get_profile p0 p1 s rc) rd = rd
  \/ final (Reader.get_profile p0 p1 s rc) rd = cached rd.
Proof.
  intros Hinv. destruct p0 as [l0|], p1 as [l1|]; try (now left).
  apply (get_profile_normal_form rd l0 l1 s rc Hinv).
Qed.

(** The tool after a call: as before, or with the interpolator of its dose
    reader cached. *)
Lemma tool_get_profile_final (t : ProfileTool) (rd : RTDoseReader)
    (p0 p1 : vec3) (s : R) (rc : bool) (requested : string) (normalize : bool)
    (zero_point : zero_point_arg) :
  _dose_reader t = Inst rd ->
  reader_inv rd ->
  final (Tool.get_profile p0 p1 s rc requested normalize zero_point) t = t
  \/ final (Tool.get_profile p0 p1 s rc requested normalize zero_point) t
     = with_dose_reader t (cached rd).
Proof.
  intros Hrd Hinv. unfold final, Tool.get_profile.
  unfold mbind, py_bind, get_self, lift, raise, mret, py_ret, Tool.call_dose_reader.
  destruct (Tool.resolve_zero_point zero_point t) as [[z|]|e]; rewrite ?Hrd;
    try (now left).
  pose proof (reader_final_cached rd (Some (to_list (vadd p0 z)))
                (Some (to_list (vadd p1 z))) (s * 10) rc Hinv) as Hf.
  unfold final in Hf.
  destruct (Reader.get_profile _ _ _ _ rd) as [[prof|e] rd']; cbn [snd] in Hf.
  - assert (Ht : with_dose_reader t rd' = t \/
                 with_dose_reader t rd' = with_dose_reader t (cached rd)).
    { destruct Hf as [-> | ->]; [left; now apply with_dose_reader_same|now right]. }
    destruct (Tool.shift_profile z prof) as [rows0|e]; [|exact Ht].
    destruct (Tool.convert_dose_units _ _ rows0) as [rows1|e]; [|exact Ht].
    destruct (Tool.normalize_dose _ t rows1) as [rows|e]; exact Ht.
  - destruct Hf as [-> | ->]; [left; now apply with_dose_reader_same|now right].
Qed.

Lemma tool_result_cached (t : ProfileTool) (rd : RTDoseReader)
    (p0 p1 : vec3) (s : R) (rc : bool) (requested : string) (normalize : bool)
    (zero_point : zero_point_arg) :
  _dose_reader t = Inst rd ->
  reader_inv rd ->
  result (Tool.get_profile p0 p1 s rc requested normalize zero_point)
    (with_dose_reader t (cached rd))
  = result (Tool.get_profile p0 p1 s rc requested normalize zero_point) t.
Proof.
  intros Hrd Hinv.
  rewrite (tool_get_profile_stages t rd) by exact Hrd.
  rewrite (tool_get_profile_stages (with_dose_reader t (cached rd)) (cached rd))
    by reflexivity.
  unfold profile_stages.
  change (Tool.resolve_zero_point zero_point (with_dose_reader t (cached rd)))
    with (Tool.resolve_zero_point zero_point t).
  destruct (Tool.resolve_zero_point zero_point t) as [[z|]|e]; try reflexivity.
  cbn [mbind outcome_bind].
  rewrite (reader_result_cached rd _ _ _ _ Hinv).
  reflexivity.
Qed.

Lemma profile_of_line_run (t : ProfileTool) (points : list R) (s : R)
    (requested : string) (normalize : bool) (zero_point : zero_point_arg) :
  Tool.profile_of_line points s requested normalize zero_point t
  = match Tool.unpack6 points with
    | Raises e => (Raises e, t)
    | Returns (z0, z1, x0, x1, y0, y1) =>
        (result (Tool.get_profile (vscale 10 (x0, y0, z0)) (vscale 10 (x1, y1, z1))
                   s true requested normalize zero_point) t
           ≫= Tool.to_centimeters,
         final (Tool.get_profile (vscale 10 (x0, y0, z0)) (vscale 10 (x1, y1, z1))
                  s true requested normalize zero_point) t)
    end.
Proof.
  unfold Tool.profile_of_line, result, final.
  unfold mbind at 1 2. unfold py_bind, lift.
  destruct (Tool.unpack6 points) as [[[[[[z0 z1] x0] x1] y0] y1]|e];
    [|reflexivity].
  destruct (Tool.get_profile _ _ _ _ _ _ _ t) as [[prof|e] t']; reflexivity.
Qed.

(** Whatever lines were processed before, a line yields what it yields on
    the tool as it was at the start. *)
Lemma for_each_line_independent (t : ProfileTool) (rd : RTDoseReader) (s : R)
    (requested : string) (normalize : bool) (zero_point : zero_point_arg)
    (lines : list (list R)) :
  _dose_reader t = Inst rd ->
  reader_inv rd ->
  forall t',
    t' = t \/ t' = with_dose_reader t (cached rd) ->
    result (Tool.for_each
              (fun points =>
                 Tool.profile_of_line points s requested normalize zero_point)
              lines) t'
    = mapM (fun points =>
              result (Tool.profile_of_line points s requested normalize
                        zero_point) t) lines.
Proof.
  intros Hrd Hinv.
  assert (Hsame : forall t' points,
             t' = t \/ t' = with_dose_reader t (cached rd) ->
             result (Tool.profile_of_line points s requested normalize zero_point) t'
             = result (Tool.profile_of_line points s requested normalize
                         zero_point) t
             /\ (final (Tool.profile_of_line points s requested normalize
                          zero_point) t' = t
                 \/ final (Tool.profile_of_line points s requested normalize
                             zero_point) t' = with_dose_reader t (cached rd))).
  { intros t' points Ht'.
    unfold result, final. rewrite !profile_of_line_run.
    fold (@result ProfileTool profile). fold (@final ProfileTool profile).
    destruct (Tool.unpack6 points) as [[[[[[z0 z1] x0] x1] y0] y1]|e];
      cbn [fst snd]; [|split; [reflexivity|exact Ht']].
    destruct Ht' as [-> | ->].
    - split; [reflexivity|]. now apply (tool_get_profile_final t rd).
    - rewrite (tool_result_cached t rd) by assumption.
      split; [reflexivity|].
      destruct (tool_get_profile_final (with_dose_reader t (cached rd)) (cached rd)
                  (vscale 10 (x0, y0, z0)) (vscale 10 (x1, y1, z1)) s true
                  requested normalize zero_point eq_refl (cached_inv rd Hinv))
        as [-> | ->]; now right. }
  induction lines as [|points lines IH]; intros t' Ht'; [reflexivity|].
  destruct (Hsame t' points Ht') as [Hres Hfin].
  cbn [Tool.for_each mapM]. unfold result in *. unfold final in Hfin.
  unfold mbind at 1. unfold py_bind.
  destruct (Tool.profile_of_line points s requested normalize zero_point t')
    as [[prof|e] t''] eqn:Et'; cbn [fst snd] in Hres, Hfin; rewrite <- Hres;
    [|reflexivity].
  cbn [mbind outcome_bind]. rewrite <- (IH t'' Hfin).
  unfold mbind at 1. unfold py_bind.
  destruct (Tool.for_each _ lines t'') as [[profs|e] t3]; reflexivity.
Qed.

(** X17.  The lines of a batch are independent: [profiles_from_file]
    skips the first [skip_rows] lines and yields, for the others in order,
    the profile each line yields on its own on the tool as it was before the
    batch, stopping at the first line that raises. *)
Theorem profiles_from_file_independent (t : ProfileTool) (rd : RTDoseReader)
    (lines : list (list R)) (skip_rows : nat) (s : R) (requested : string)
    (normalize : bool) (zero_point : zero_point_arg) :
  _dose_reader t = Inst rd ->
  reader_inv rd ->
  result (Tool.profiles_from_file lines skip_rows s requested normalize
            zero_point) t
  = mapM (fun points =>
            result (Tool.profile_of_line points s requested normalize
                      zero_point) t)
      (drop skip_rows lines).
Proof.
  intros Hrd Hinv. unfold Tool.profiles_from_file.
  unfold result at 1. unfold mbind at 1. unfold py_bind, get_self. rewrite Hrd.
  apply (for_each_line_independent t rd s requested normalize zero_point _ Hrd Hinv).
  now left.
Qed.

Lemma profiles_from_file_independent_witness :
  let t := tool_with (plan_at_gantry 0) example_reader in
  let lines := [[]; [7]; [0; 0; 0; 1; 0; 0]; [0; 1; 0; 0; 0; 0]] in
  _dose_reader t = Inst example_reader
  /\ reader_inv example_reader
  /\ result (Tool.profiles_from_file lines 2 1 "Gy" false ZeroNone) t
     = mapM (fun points =>
               result (Tool.profile_of_line points 1 "Gy" false ZeroNone) t)
         (drop 2 lines).
Proof.
  cbv zeta. split; [reflexivity|]. split; [exact example_reader_inv|].
  exact (profiles_from_file_independent
           (tool_with (plan_at_gantry 0) example_reader) example_reader
           [[]; [7]; [0; 0; 0; 1; 0; 0]; [0; 1; 0; 0; 0; 0]] 2 1 "Gy" false
           ZeroNone eq_refl example_reader_inv).
Defined.

(** ** The two copies of the reader *)

(** X18.  The packaged copy of [get_profile] and the one at the top level
    return the same result and leave the reader in the same state on every
    input but one kind: for two sequences of one length other than 3 the
    packaged copy raises the [AssertionError] of its dimension test and
    leaves the reader untouched (the top-level copy raises the [ValueError]
    of the tuple unpacking there). *)
Theorem packaged_get_profile_agrees (rd : RTDoseReader)
    (p0 p1 : option (list R)) (s : R) (rc : bool) :
  PackagedReader.get_profile p0 p1 s rc rd
  = match p0, p1 with
    | Some l0, Some l1 =>
        if (length l0 =? length l1)%nat && negb (length l0 =? 3)%nat then
          (Raises (AssertionError
                     ("Input points must be 3-D (instead got "
                      +:+ pretty (length l0) +:+ "-D")), rd)
        else Reader.get_profile p0 p1 s rc rd
    | _, _ => Reader.get_profile p0 p1 s rc rd
    end.
Proof.
  destruct p0 as [l0|], p1 as [l1|]; try reflexivity.
  unfold PackagedReader.get_profile, Reader.get_profile.
  destruct (length l0 =? length l1)%nat; [|reflexivity].
  destruct (length l0 =? 3)%nat; reflexivity.
Qed.

(** ** The plan reader and its dataset *)

Section PydicomFacts.

Context {dataset element : Type}.
Variable getitem_tag : dataset -> Z * Z -> outcome element.
Variable first_item : element -> outcome dataset.
Variable element_value : element -> dicom_value.

Lemma read_isocenter (ds : dataset) (iso mu ssd sad ga : option dicom_value) :
  read_beam_parameter getitem_tag first_item element_value ds "Isocenter"
    (plan_reader_with iso mu ssd sad ga)
  = match read_value getitem_tag first_item element_value
            [(0x300A, 0x00B0); (0x300A, 0x0111); (0x300A, 0x012C)]%Z ds with
    | Returns v => (Returns tt, plan_reader_with (Some v) mu ssd sad ga)
    | Raises e => (Raises e, plan_reader_with iso mu ssd sad ga)
    end.
Proof.
  unfold read_beam_parameter.
  change (_beam_parameters (plan_reader_with iso mu ssd sad ga) !! "Isocenter")
    with (Some {| tag := [(0x300A, 0x00B0); (0x300A, 0x0111); (0x300A, 0x012C)]%Z;
                  value := iso |}).
  cbn [tag]. destruct (read_value _ _ _ _ ds); reflexivity.
Qed.

Lemma read_monitor_units (ds : dataset) (iso mu ssd sad ga : option dicom_value) :
  read_beam_parameter getitem_tag first_item element_value ds "Monitor Units"
    (plan_reader_with iso mu ssd sad ga)
  = match read_value getitem_tag first_item element_value
            [(0x300A, 0x00B0); (0x300A, 0x010E)]%Z ds with
    | Returns v => (Returns tt, plan_reader_with iso (Some v) ssd sad ga)
    | Raises e => (Raises e, plan_reader_with iso mu ssd sad ga)
    end.
Proof.
  unfold read_beam_parameter.
  change (_beam_parameters (plan_reader_with iso mu ssd sad ga) !! "Monitor Units")
    with (Some {| tag := [(0x300A, 0x00B0); (0x300A, 0x010E)]%Z;
                  value := mu |}).
  cbn [tag]. destruct (read_value _ _ _ _ ds); reflexivity.
Qed.

Lemma read_ssd (ds : dataset) (iso mu ssd sad ga : option dicom_value) :
  read_beam_parameter getitem_tag first_item element_value ds "SSD"
    (plan_reader_with iso mu ssd sad ga)
  = match read_value getitem_tag first_item element_value
            [(0x300A, 0x00B0); (0x300A, 0x0111); (0x300A, 0x0130)]%Z ds with
    | Returns v => (Returns tt, plan_reader_with iso mu (Some v) sad ga)
    | Raises e => (Raises e, plan_reader_with iso mu ssd sad ga)
    end.
Proof.
  unfold read_beam_parameter.
  change (_beam_parameters (plan_reader_with iso mu ssd sad ga) !! "SSD")
    with (Some {| tag := [(0x300A, 0x00B0); (0x300A, 0x0111); (0x300A, 0x0130)]%Z;
                  value := ssd |}).
  cbn [tag]. destruct (read_value _ _ _ _ ds); reflexivity.
Qed.

Lemma read_sad (ds : dataset) (iso mu ssd sad ga : option dicom_value) :
  read_beam_parameter getitem_tag first_item element_value ds "SAD"
    (plan_reader_with iso mu ssd sad ga)
  = match read_value getitem_tag first_item element_value
            [(0x300A, 0x00B0); (0x300A, 0x00B4)]%Z ds with
    | Returns v => (Returns tt, plan_reader_with iso mu ssd (Some v) ga)
    | Raises e => (Raises e, plan_reader_with iso mu ssd sad ga)
    end.
Proof.
  unfold read_beam_parameter.
  change (_beam_parameters (plan_reader_with iso mu ssd sad ga) !! "SAD")
    with (Some {| tag := [(0x300A, 0x00B0); (0x300A, 0x00B4)]%Z;
                  value := sad |}).
  cbn [tag]. destruct (read_value _ _ _ _ ds); reflexivity.
Qed.

Lemma read_gantry_angle (ds : dataset) (iso mu ssd sad ga : option dicom_value) :
  read_beam_parameter getitem_tag first_item element_value ds "Gantry Angle"
    (plan_reader_with iso mu ssd sad ga)
  = match read_value getitem_tag first_item element_value
            [(0x300A, 0x00B0); (0x300A, 0x0111); (0x300A, 0x011E)]%Z ds with
    | Returns v => (Returns tt, plan_reader_with iso mu ssd sad (Some v))
    | Raises e => (Raises e, plan_reader_with iso mu ssd sad ga)
    end.
Proof.
  unfold read_beam_parameter.
  change (_beam_parameters (plan_reader_with iso mu ssd sad ga) !! "Gantry Angle")
    with (Some {| tag := [(0x300A, 0x00B0); (0x300A, 0x0111); (0x300A, 0x011E)]%Z;
                  value := ga |}).
  cbn [tag]. destruct (read_value _ _ _ _ ds); reflexivity.
Qed.

(** The loop over the five keys: the values are stored one after the other,
    and the first path that fails ends the loop with its exception. *)
Lemma read_beam_parameters_run (ds : dataset) :
  read_beam_parameters_from_dataset getitem_tag first_item element_value ds
    (plan_reader_with None None None None None)
  = match read_value getitem_tag first_item element_value
            [(0x300A, 0x00B0); (0x300A, 0x0111); (0x300A, 0x012C)]%Z ds with
    | Raises e => (Raises e, plan_reader_with None None None None None)
    | Returns iso =>
      match read_value getitem_tag first_item element_value
              [(0x300A, 0x00B0); (0x300A, 0x010E)]%Z ds with
      | Raises e => (Raises e, plan_reader_with (Some iso) None None None None)
      | Returns mu =>
        match read_value getitem_tag first_item element_value
                [(0x300A, 0x00B0); (0x300A, 0x0111); (0x300A, 0x0130)]%Z ds with
        | Raises e =>
            (Raises e, plan_reader_with (Some iso) (Some mu) None None None)
        | Returns ssd =>
          match read_value getitem_tag first_item element_value
                  [(0x300A, 0x00B0); (0x300A, 0x00B4)]%Z ds with
          | Raises e =>
              (Raises e, plan_reader_with (Some iso) (Some mu) (Some ssd) None None)
          | Returns sad =>
            match read_value getitem_tag first_item element_value
                    [(0x300A, 0x00B0); (0x300A, 0x0111); (0x300A, 0x011E)]%Z ds with
            | Raises e =>
                (Raises e,
                 plan_reader_with (Some iso) (Some mu) (Some ssd) (Some sad) None)
            | Returns ga =>
                (Returns tt,
                 plan_reader_with (Some iso) (Some mu) (Some ssd) (Some sad)
                   (Some ga))
            end
          end
        end
      end
    end.
Proof.
  unfold read_beam_parameters_from_dataset, beam_parameter_keys.
  cbn [Tool.for_each]. unfold mbind, py_bind, mret, py_ret.
  rewrite read_isocenter.
  destruct (read_value _ _ _ _ ds) as [iso|e]; [|reflexivity].
  rewrite read_monitor_units.
  destruct (read_value _ _ _ _ ds) as [mu|e]; [|reflexivity].
  rewrite read_ssd.
  destruct (read_value _ _ _ _ ds) as [ssd|e]; [|reflexivity].
  rewrite read_sad.
  destruct (read_value _ _ _ _ ds) as [sad|e]; [|reflexivity].
  rewrite read_gantry_angle.
  destruct (read_value _ _ _ _ ds) as [ga|e]; reflexivity.
Qed.

End PydicomFacts.

Section PlanReaderFacts.

Context {dataset element : Type}.
Variable getitem_tag : dataset -> Z * Z -> outcome element.
Variable first_item : element -> outcome dataset.
Variable element_value : element -> dicom_value.

(** The constructor on a dataset returns only when the five reads return,
    and then with the five values stored. *)
Lemma plan_reader_init_returns (fp : option (outcome dataset)) (ds : dataset)
    (rp : RTPlanReader) :
  RTPlanReader_init getitem_tag first_item element_value fp (Some ds) = Returns rp ->
  exists iso mu ssd sad ga,
    read_value getitem_tag first_item element_value
      [(0x300A, 0x00B0); (0x300A, 0x0111); (0x300A, 0x012C)]%Z ds = Returns iso
    /\ read_value getitem_tag first_item element_value
         [(0x300A, 0x00B0); (0x300A, 0x010E)]%Z ds = Returns mu
    /\ read_value getitem_tag first_item element_value
         [(0x300A, 0x00B0); (0x300A, 0x0111); (0x300A, 0x0130)]%Z ds = Returns ssd
    /\ read_value getitem_tag first_item element_value
         [(0x300A, 0x00B0); (0x300A, 0x00B4)]%Z ds = Returns sad
    /\ read_value getitem_tag first_item element_value
         [(0x300A, 0x00B0); (0x300A, 0x0111); (0x300A, 0x011E)]%Z ds = Returns ga
    /\ rp = plan_reader_with (Some iso) (Some mu) (Some ssd) (Some sad) (Some ga).
Proof.
  unfold RTPlanReader_init. rewrite read_beam_parameters_run.
  destruct (read_value _ _ _ _ ds) as [iso|e] eqn:E1; [|discriminate].
  destruct (read_value _ _ _ [_; _] ds) as [mu|e] eqn:E2; [|discriminate].
  destruct (read_value _ _ _ [_; _; (_, 0x0130%Z)] ds) as [ssd|e] eqn:E3;
    [|discriminate].
  destruct (read_value _ _ _ [_; (_, 0x00B4%Z)] ds) as [sad|e] eqn:E4;
    [|discriminate].
  destruct (read_value _ _ _ [_; _; (_, 0x011E%Z)] ds) as [ga|e] eqn:E5;
    [|discriminate].
  cbn [fst snd mbind outcome_bind]. intros H. injection H as <-.
  exists iso, mu, ssd, sad, ga. repeat split; assumption.
Qed.

(** X19.  A plan reader built from a dataset is all or nothing: when the
    construction returns, each of the five tag paths led to a value and the
    beam parameters hold all five of them under their keys; when a path
    fails, the construction raises. *)
Theorem plan_reader_all_or_nothing (fp : option (outcome dataset))
    (ds : dataset) (rp : RTPlanReader) :
  RTPlanReader_init getitem_tag first_item element_value fp (Some ds) = Returns rp ->
  exists iso mu ssd sad ga,
    read_value getitem_tag first_item element_value
      [(0x300A, 0x00B0); (0x300A, 0x0111); (0x300A, 0x012C)]%Z ds = Returns iso
    /\ read_value getitem_tag first_item element_value
         [(0x300A, 0x00B0); (0x300A, 0x010E)]%Z ds = Returns mu
    /\ read_value getitem_tag first_item element_value
         [(0x300A, 0x00B0); (0x300A, 0x0111); (0x300A, 0x0130)]%Z ds = Returns ssd
    /\ read_value getitem_tag first_item element_value
         [(0x300A, 0x00B0); (0x300A, 0x00B4)]%Z ds = Returns sad
    /\ read_value getitem_tag first_item element_value
         [(0x300A, 0x00B0); (0x300A, 0x0111); (0x300A, 0x011E)]%Z ds = Returns ga
    /\ beam_parameters rp !! "Isocenter" = Some iso
    /\ beam_parameters rp !! "Monitor Units" = Some mu
    /\ beam_parameters rp !! "SSD" = Some ssd
    /\ beam_parameters rp !! "SAD" = Some sad
    /\ beam_parameters rp !! "Gantry Angle" = Some ga.
Proof.
  intros Hinit.
  destruct (plan_reader_init_returns fp ds rp Hinit)
    as (iso & mu & ssd & sad & ga & E1 & E2 & E3 & E4 & E5 & ->).
  exists iso, mu, ssd, sad, ga.
  destruct (beam_parameters_lookup (Some iso) (Some mu) (Some ssd) (Some sad)
              (Some ga)) as (L1 & L2 & L3 & L4 & L5).
  repeat split; assumption.
Qed.

End PlanReaderFacts.

Lemma stub_plan_reader :
  RTPlanReader_init stub_getitem stub_first_item stub_value None (Some ("RTPLAN", []))
  = Returns (plan_reader_with (Some (Sequence [0; 0; 0])) (Some (Number 100))
               (Some (Number 100)) (Some (Number 100)) (Some (Number 100))).
Proof.
  unfold RTPlanReader_init. rewrite read_beam_parameters_run. reflexivity.
Qed.

Lemma plan_reader_all_or_nothing_witness :
  RTPlanReader_init stub_getitem stub_first_item stub_value None (Some ("RTPLAN", []))
  = Returns (plan_reader_with (Some (Sequence [0; 0; 0])) (Some (Number 100))
               (Some (Number 100)) (Some (Number 100)) (Some (Number 100)))
  /\ exists iso mu ssd sad ga,
       beam_parameters
         (plan_reader_with (Some (Sequence [0; 0; 0])) (Some (Number 100))
            (Some (Number 100)) (Some (Number 100)) (Some (Number 100)))
         !! "Isocenter" = Some iso
       /\ beam_parameters
            (plan_reader_with (Some (Sequence [0; 0; 0])) (Some (Number 100))
               (Some (Number 100)) (Some (Number 100)) (Some (Number 100)))
            !! "Monitor Units" = Some mu
       /\ beam_parameters
            (plan_reader_with (Some (Sequence [0; 0; 0])) (Some (Number 100))
               (Some (Number 100)) (Some (Number 100)) (Some (Number 100)))
            !! "SSD" = Some ssd
       /\ beam_parameters
            (plan_reader_with (Some (Sequence [0; 0; 0])) (Some (Number 100))
               (Some (Number 100)) (Some (Number 100)) (Some (Number 100)))
            !! "SAD" = Some sad
       /\ beam_parameters
            (plan_reader_with (Some (Sequence [0; 0; 0])) (Some (Number 100))
               (Some (Number 100)) (Some (Number 100)) (Some (Number 100)))
            !! "Gantry Angle" = Some ga.
Proof.
  split; [exact stub_plan_reader|].
  destruct (plan_reader_all_or_nothing stub_getitem stub_first_item stub_value
              None ("RTPLAN", []) _ stub_plan_reader)
    as (iso & mu & ssd & sad & ga & _ & _ & _ & _ & _ & H).
  exists iso, mu, ssd, sad, ga. exact H.
Defined.

Section ZeroPointAvailability.

Context {dataset element : Type}.
Variable getitem_tag : dataset -> Z * Z -> outcome element.
Variable first_item : element -> outcome dataset.
Variable element_value : element -> dicom_value.

(** X20.  For a plan reader built from a dataset the zero point is never
    unavailable: the guard of [get_zero_point] always passes, and the call
    returns a point or raises on an ill-formed value.  For a plan reader
    built without a dataset the beam parameters are empty and the zero
    point is always unavailable. *)
Theorem zero_point_availability (t : ProfileTool) (rp : RTPlanReader)
    (fp : option (outcome dataset)) (ds : option dataset) :
  _plan_reader t = Inst rp ->
  RTPlanReader_init getitem_tag first_item element_value fp ds = Returns rp ->
  (is_Some ds ->
   Tool.get_zero_point "INTERCEPT_CAX_SURFACE" t <> Returns None)
  /\ (ds = None -> fp = None ->
      Tool.get_zero_point "INTERCEPT_CAX_SURFACE" t = Returns None).
Proof.
  intros Hrp Hinit. split.
  - intros [d ->].
    destruct (plan_reader_init_returns getitem_tag first_item element_value
                fp d rp Hinit)
      as (iso & mu & ssd & sad & ga & _ & _ & _ & _ & _ & ->).
    destruct (beam_parameters_lookup (Some iso) (Some mu) (Some ssd) (Some sad)
                (Some ga)) as (L1 & _ & L3 & L4 & L5).
    unfold Tool.get_zero_point. rewrite String.eqb_refl, Hrp. cbn [forallb].
    rewrite L1, L5, L3. rewrite !bool_decide_eq_true_2 by eauto.
    cbn [andb negb]. unfold subscript. rewrite L1, L5, L3, L4.
    cbn [mbind outcome_bind].
    destruct (floats iso) as [l|e]; cbn [mbind outcome_bind]; [|discriminate].
    destruct (float ga) as [g|e]; cbn [mbind outcome_bind]; [|discriminate].
    destruct (float ssd) as [s1|e]; cbn [mbind outcome_bind]; [|discriminate].
    destruct (float sad) as [s2|e]; cbn [mbind outcome_bind]; [|discriminate].
    destruct (getitem l 0) as [i0|e]; cbn [mbind outcome_bind]; [|discriminate].
    destruct (getitem l 1) as [i1|e]; cbn [mbind outcome_bind]; [|discriminate].
    destruct (getitem l 2) as [i2|e]; cbn [mbind outcome_bind]; discriminate.
  - intros -> ->. cbn in Hinit. injection Hinit as <-.
    apply (get_zero_point_unavailable t _ Hrp). left.
    apply (beam_parameters_lookup None None None None None).
Qed.

End ZeroPointAvailability.

Lemma zero_point_availability_witness :
  let rp := plan_reader_with (Some (Sequence [0; 0; 0])) (Some (Number 100))
              (Some (Number 100)) (Some (Number 100)) (Some (Number 100)) in
  _plan_reader (tool_with rp example_reader) = Inst rp
  /\ RTPlanReader_init stub_getitem stub_first_item stub_value None
       (Some ("RTPLAN", [])) = Returns rp
  /\ Tool.get_zero_point "INTERCEPT_CAX_SURFACE" (tool_with rp example_reader)
     <> Returns None.
Proof.
  cbv zeta. split; [reflexivity|]. split; [exact stub_plan_reader|].
  apply (zero_point_availability stub_getitem stub_first_item stub_value
           (tool_with _ example_reader) _ None (Some ("RTPLAN", []))
           eq_refl stub_plan_reader).
  now exists ("RTPLAN", []).
Defined.

(** ** C5: the states of the plan reader and the zero point *)

Section PlanReaderStates.

Context {dataset element : Type}.
Variable getitem_tag : dataset -> Z * Z -> outcome element.
Variable first_item : element -> outcome dataset.
Variable element_value : element -> dicom_value.




End PlanReaderStates.



(** ** The folder *)

Lemma fold_outcome_app {A B} (f : A -> B -> outcome B) (l1 l2 : list A) (b : B) :
  fold_outcome f (l1 ++ l2) b = fold_outcome f l1 b ≫= fold_outcome f l2.
Proof.
  revert b. induction l1 as [|a l1 IH]; intros b; cbn; [reflexivity|].
  destruct (f a b) as [b'|e]; cbn; [apply IH|reflexivity].
Qed.

Lemma elem_of_walked_files (walk : list (string * list string))
    (root file : string) :
  (root, file) ∈ walked_files walk
  <-> exists files, (root, files) ∈ walk /\ file ∈ files.
Proof.
  unfold walked_files. rewrite list_elem_of_bind. split.
  - intros ([r fs] & Hin & Hw). apply list_elem_of_bind in Hin as (f & Hin & Hf).
    apply list_elem_of_singleton in Hin. injection Hin as -> ->. eauto.
  - intros (files & Hw & Hf). exists (root, files). split; [|exact Hw].
    apply list_elem_of_bind. exists file. split; [|exact Hf].
    now apply list_elem_of_singleton.
Qed.

Section FolderFacts.

Context {dataset : Type}.
Variable Modality : dataset -> outcome string.
Variable dcmread : string -> outcome dataset.
Variable path_join : string -> string -> string.

Lemma parse_file_cases (out out' : gmap string dataset) (root file : string) :
  parse_file Modality dcmread path_join out root file = Returns out' ->
  out' = out
  \/ exists m ds,
       kept Modality dcmread path_join root file m ds /\ out' = <[m := ds]> out.
Proof.
  unfold parse_file, kept.
  destruct (endswith file ".dcm"); [|intros H; injection H as <-; now left].
  destruct (dcmread _) as [ds|e] eqn:Er; cbn [mbind outcome_bind]; [|discriminate].
  destruct (Modality ds) as [m|e] eqn:Em; cbn [mbind outcome_bind]; [|discriminate].
  destruct (String.eqb_spec m "CT") as [E|NE]; cbn [negb]; intros H;
    injection H as <-; [now left|].
  right. exists m, ds. repeat split; assumption.
Qed.

Lemma parse_files_sound (l : list (string * string))
    (out out' : gmap string dataset) :
  fold_outcome (fun '(root, file) out =>
                  parse_file Modality dcmread path_join out root file) l out
    = Returns out' ->
  forall m ds,
    out' !! m = Some ds ->
    out !! m = Some ds
    \/ exists root file,
         (root, file) ∈ l /\ kept Modality dcmread path_join root file m ds.
Proof.
  revert out. induction l as [|[root file] l IH]; intros out H m ds Hm; cbn in H.
  - injection H as <-. now left.
  - destruct (parse_file _ _ _ out root file) as [out1|e] eqn:E1; cbn in H;
      [|discriminate].
    destruct (IH out1 H m ds Hm) as [Hin|(r & f & Hin & Hk)].
    + apply parse_file_cases in E1 as [->|(m' & ds' & Hk & ->)]; [now left|].
      destruct (decide (m' = m)) as [->|NE].
      * rewrite lookup_insert_eq in Hin. injection Hin as ->.
        right. exists root, file. split; [apply list_elem_of_here|exact Hk].
      * rewrite lookup_insert_ne in Hin by exact NE. now left.
    + right. exists r, f. split; [now apply list_elem_of_further|exact Hk].
Qed.

Lemma parse_files_unchanged (l : list (string * string))
    (out out' : gmap string dataset) (m : string) :
  fold_outcome (fun '(root, file) out =>
                  parse_file Modality dcmread path_join out root file) l out
    = Returns out' ->
  (forall root file ds,
      (root, file) ∈ l -> ~ kept Modality dcmread path_join root file m ds) ->
  out' !! m = out !! m.
Proof.
  revert out. induction l as [|[root file] l IH]; intros out H Hno; cbn in H.
  - now injection H as <-.
  - destruct (parse_file _ _ _ out root file) as [out1|e] eqn:E1; cbn in H;
      [|discriminate].
    rewrite (IH out1 H)
      by (intros r f d Hin; apply Hno; now apply list_elem_of_further).
    apply parse_file_cases in E1 as [->|(m' & ds' & Hk & ->)]; [reflexivity|].
    destruct (decide (m' = m)) as [->|NE].
    + exfalso. apply (Hno root file ds'); [apply list_elem_of_here|exact Hk].
    + now rewrite lookup_insert_ne.
Qed.

(** X21.  What [parse_folder] returns holds nothing but files of the
    folder: every dataset in the dictionary was read from a file walked
    whose name ends in [.dcm], it is stored under its own modality, and no
    CT dataset is ever stored. *)
Theorem parse_folder_sound (walk : list (string * list string))
    (out : gmap string dataset) (m : string) (ds : dataset) :
  parse_folder Modality dcmread path_join (Some walk) = Returns out ->
  out !! m = Some ds ->
  m <> "CT"
  /\ exists root files file,
       (root, files) ∈ walk /\ file ∈ files
       /\ endswith file ".dcm" = true
       /\ dcmread (path_join root file) = Returns ds
       /\ Modality ds = Returns m.
Proof.
  intros H Hm. unfold parse_folder in H.
  destruct (parse_files_sound _ ∅ out H m ds Hm) as [He|(r & f & Hin & Hk)].
  - rewrite lookup_empty in He. discriminate.
  - destruct Hk as (He & Hr & Hmod & Hct). split; [exact Hct|].
    apply elem_of_walked_files in Hin as (files & Hw & Hf).
    exists r, files, f. repeat split; assumption.
Qed.

(** X22.  Of several files of one modality the last one walked wins: when
    the walk reaches a kept file of modality [m] and no file after it is
    kept under [m], the dictionary holds that file's dataset under [m]. *)
Theorem parse_folder_last_wins (walk : list (string * list string))
    (before after : list (string * string)) (root file m : string)
    (ds : dataset) (out : gmap string dataset) :
  walked_files walk = before ++ (root, file) :: after ->
  kept Modality dcmread path_join root file m ds ->
  (forall r f d, (r, f) ∈ after -> ~ kept Modality dcmread path_join r f m d) ->
  parse_folder Modality dcmread path_join (Some walk) = Returns out ->
  out !! m = Some ds.
Proof.
  intros Hw Hk Hno H. unfold parse_folder in H. rewrite Hw in H.
  rewrite fold_outcome_app in H.
  destruct (fold_outcome _ before ∅) as [out0|e]; cbn [mbind outcome_bind] in H;
    [|discriminate].
  cbn [fold_outcome] in H.
  destruct (parse_file _ _ _ out0 root file) as [out1|e] eqn:E1;
    cbn [mbind outcome_bind] in H; [|discriminate].
  rewrite (parse_files_unchanged after out1 out m H Hno).
  destruct Hk as (He & Hr & Hmod & Hct).
  unfold parse_file in E1. rewrite He, Hr in E1. cbn [mbind outcome_bind] in E1.
  rewrite Hmod in E1. cbn [mbind outcome_bind] in E1.
  apply String.eqb_neq in Hct. rewrite Hct in E1. cbn [negb] in E1.
  injection E1 as <-. apply lookup_insert_eq.
Qed.

End FolderFacts.

Lemma stub_parse_folder :
  parse_folder stub_modality stub_dcmread stub_join (Some stub_walk)
  = Returns (<["RTDOSE" := ("RTDOSE", [])]> (<["RTPLAN" := ("RTPLAN", [])]> ∅)).
Proof. reflexivity. Qed.

Lemma parse_folder_sound_witness :
  parse_folder stub_modality stub_dcmread stub_join (Some stub_walk)
  = Returns (<["RTDOSE" := ("RTDOSE", [])]> (<["RTPLAN" := ("RTPLAN", [])]> ∅))
  /\ (<["RTDOSE" := ("RTDOSE", [])]> (<["RTPLAN" := ("RTPLAN", [])]> ∅)
        : gmap string stub_dataset) !! "RTDOSE" = Some ("RTDOSE", [])
  /\ "RTDOSE" <> "CT"
  /\ exists root files file,
       (root, files) ∈ stub_walk /\ file ∈ files
       /\ endswith file ".dcm" = true
       /\ stub_dcmread (stub_join root file) = Returns ("RTDOSE", [])
       /\ stub_modality ("RTDOSE", []) = Returns "RTDOSE".
Proof.
  split; [exact stub_parse_folder|]. split; [reflexivity|].
  exact (parse_folder_sound stub_modality stub_dcmread stub_join stub_walk _
           "RTDOSE" ("RTDOSE", []) stub_parse_folder eq_refl).
Defined.

Lemma parse_folder_last_wins_witness :
  walked_files stub_walk
  = [("plan", "a.dcm"); ("plan", "notes.txt")] ++ ("dose", "b.dcm") :: [("ct", "c.dcm")]
  /\ kept stub_modality stub_dcmread stub_join "dose" "b.dcm" "RTDOSE" ("RTDOSE", [])
  /\ (forall r f d,
        (r, f) ∈ [("ct", "c.dcm")] ->
        ~ kept stub_modality stub_dcmread stub_join r f "RTDOSE" d)
  /\ parse_folder stub_modality stub_dcmread stub_join (Some stub_walk)
     = Returns (<["RTDOSE" := ("RTDOSE", [])]> (<["RTPLAN" := ("RTPLAN", [])]> ∅))
  /\ (<["RTDOSE" := ("RTDOSE", [])]> (<["RTPLAN" := ("RTPLAN", [])]> ∅)
        : gmap string stub_dataset) !! "RTDOSE" = Some ("RTDOSE", []).
Proof.
  assert (Hk : kept stub_modality stub_dcmread stub_join "dose" "b.dcm" "RTDOSE"
                 ("RTDOSE", [])).
  { repeat split. discriminate. }
  assert (Hno : forall r f d,
             (r, f) ∈ [("ct", "c.dcm")] ->
             ~ kept stub_modality stub_dcmread stub_join r f "RTDOSE" d).
  { intros r f d Hin (_ & Hr & Hm & _).
    apply list_elem_of_singleton in Hin. injection Hin as -> ->.
    cbv [stub_dcmread stub_join] in Hr. cbn in Hr. injection Hr as <-.
    cbv [stub_modality fst] in Hm. discriminate. }
  split; [reflexivity|]. split; [exact Hk|]. split; [exact Hno|].
  split; [exact stub_parse_folder|].
  exact (parse_folder_last_wins stub_modality stub_dcmread stub_join stub_walk
           [("plan", "a.dcm"); ("plan", "notes.txt")] [("ct", "c.dcm")]
           "dose" "b.dcm" "RTDOSE" ("RTDOSE", []) _ eq_refl Hk Hno
           stub_parse_folder).
Defined.

(** ** The tool and its folder *)

Section ToolFacts.

Context {dataset element : Type}.
Variable getitem_tag : dataset -> Z * Z -> outcome element.
Variable first_item : element -> outcome dataset.
Variable element_value : element -> dicom_value.
Variable Modality : dataset -> outcome string.
Variable dose_attributes : dataset -> Dataset.
Variable dcmread : string -> outcome dataset.
Variable path_join : string -> string -> string.

(** X23.  A tool that [_get_datasets_from_folder] has configured is ready
    for profiles: when the folder holds an RT Dose and an RT Plan dataset
    and the call returns, the interpolation method of the tool is one of the
    two supported, the plan reader was built from the plan, and the dose
    reader satisfies the invariant of the reader with an interpolator of
    that method already cached. *)
Theorem configured_tool_is_ready (folder : option (list (string * list string)))
    (method : string) (dict : gmap string dataset) (rtdose rtplan : dataset)
    (pixels : ndarray3) (t : ProfileTool) :
  parse_folder Modality dcmread path_join folder = Returns dict ->
  dict !! "RTDOSE" = Some rtdose ->
  dict !! "RTPLAN" = Some rtplan ->
  pixel_array (dose_attributes rtdose) = Some (Frames pixels) ->
  nonempty pixels ->
  _get_datasets_from_folder getitem_tag first_item element_value Modality
    dose_attributes dcmread path_join folder (new_tool method) = (Returns tt, t) ->
  exists rp rd,
    _plan_reader t = Inst rp
    /\ _dose_reader t = Inst rd
    /\ RTPlanReader_init getitem_tag first_item element_value None (Some rtplan)
       = Returns rp
    /\ (method = "nearest" \/ method = "linear")
    /\ reader_inv rd
    /\ _interpolator rd = Some (configured_interpolator rd (method_of method))
    /\ Some (Reader.dose_units rd) = DoseUnits (dose_attributes rtdose).
Proof.
  intros Hparse Hdose Hplan Hpx Hne.
  unfold _get_datasets_from_folder. rewrite Hparse, Hdose, Hplan.
  unfold _configure_readers.
  destruct (RTPlanReader_init _ _ _ None (Some rtplan)) as [rp|e]; [|discriminate].
  destruct (Reader._configure_dose_array (dose_attributes rtdose)) as [rd0|e]
    eqn:Hrd0; [|discriminate].
  cbn [_interpolation_method_tool new_tool].
  assert (Hn0 : nonempty (_pixel_array rd0)).
  { destruct (configure_dose_array_reader_of _ rd0 Hrd0)
      as (ipp & iop & ps & th & sc & units & px & _ & _ & _ & _ & _ & _ & Hpx' & ->).
    rewrite Hpx in Hpx'. injection Hpx' as <-.
    now apply nonempty_transpose210. }
  assert (Hunits : Some (Reader.dose_units rd0) = DoseUnits (dose_attributes rtdose)).
  { destruct (configure_dose_array_reader_of _ rd0 Hrd0)
      as (ipp & iop & ps & th & sc & units & px & _ & _ & _ & _ & _ & Hu & _ & ->).
    now rewrite Hu. }
  destruct (decide (method = "nearest" \/ method = "linear")) as [Hm|Hm].
  - rewrite (set_interpolation_method_ok rd0 method Hm).
    intros H. injection H as <-.
    eexists rp, _. split; [reflexivity|]. split; [reflexivity|].
    split; [reflexivity|]. split; [exact Hm|].
    split; [|split; [reflexivity|exact Hunits]].
    pose proof (set_interpolation_method_inv rd0 method Hm Hn0) as Hinv.
    unfold final in Hinv. now rewrite (set_interpolation_method_ok rd0 method Hm) in Hinv.
  - rewrite (set_interpolation_method_unsupported_aux rd0 method) by tauto.
    discriminate.
Qed.

(** X24.  A folder that lacks the RT Dose or the RT Plan dataset leaves the
    tool unconfigured without a word: [_get_datasets_from_folder] returns
    normally and changes nothing, and every later call of [get_profile]
    raises [AttributeError]. *)
Theorem unconfigured_tool_raises (folder : option (list (string * list string)))
    (method : string) (dict : gmap string dataset) (p0 p1 : vec3) (s : R)
    (rc : bool) (requested : string) (normalize : bool)
    (zero_point : zero_point_arg) :
  parse_folder Modality dcmread path_join folder = Returns dict ->
  dict !! "RTDOSE" = None \/ dict !! "RTPLAN" = None ->
  _get_datasets_from_folder getitem_tag first_item element_value Modality
    dose_attributes dcmread path_join folder (new_tool method)
  = (Returns tt, new_tool method)
  /\ Tool.get_profile p0 p1 s rc requested normalize zero_point (new_tool method)
     = (Raises AttributeError, new_tool method).
Proof.
  intros Hparse Hmiss. split.
  - unfold _get_datasets_from_folder. rewrite Hparse.
    destruct Hmiss as [-> | ->]; [reflexivity|].
    destruct (dict !! "RTDOSE"); reflexivity.
  - destruct zero_point; reflexivity.
Qed.

End ToolFacts.

Lemma stub_configured :
  fst (_get_datasets_from_folder stub_getitem stub_first_item stub_value
         stub_modality stub_dose_attributes stub_dcmread stub_join
         (Some stub_walk) (new_tool "linear"))
  = Returns tt.
Proof.
  unfold _get_datasets_from_folder. rewrite stub_parse_folder.
  rewrite lookup_insert_eq, lookup_insert_ne, lookup_insert_eq by discriminate.
  cbv beta iota. unfold _configure_readers.
  destruct (RTPlanReader_init _ _ _ None _) as [rp|e] eqn:E.
  2:{ pose proof (eq_trans (eq_sym E) stub_plan_reader). discriminate. }
  unfold stub_dose_attributes. rewrite example_reader_configured.
  cbv beta iota. cbn [_interpolation_method_tool new_tool].
  rewrite (set_interpolation_method_ok example_reader "linear") by now right.
  reflexivity.
Qed.

Lemma configured_tool_is_ready_witness :
  let folder := Some stub_walk in
  let t := snd (_get_datasets_from_folder stub_getitem stub_first_item stub_value
                  stub_modality stub_dose_attributes stub_dcmread stub_join
                  folder (new_tool "linear")) in
  parse_folder stub_modality stub_dcmread stub_join folder
  = Returns (<["RTDOSE" := ("RTDOSE", [])]> (<["RTPLAN" := ("RTPLAN", [])]> ∅))
  /\ nonempty unit_cube
  /\ exists rp rd,
       _plan_reader t = Inst rp
       /\ _dose_reader t = Inst rd
       /\ RTPlanReader_init stub_getitem stub_first_item stub_value None
            (Some ("RTPLAN", [])) = Returns rp
       /\ ("linear" = "nearest" \/ "linear" = "linear")
       /\ reader_inv rd
       /\ _interpolator rd = Some (configured_interpolator rd (method_of "linear"))
       /\ Some (Reader.dose_units rd) = DoseUnits (stub_dose_attributes ("RTDOSE", [])).
Proof.
  cbv zeta.
  assert (Hn : nonempty unit_cube) by (cbv [nonempty unit_cube shape]; lia).
  split; [exact stub_parse_folder|]. split; [exact Hn|].
  refine (configured_tool_is_ready stub_getitem stub_first_item stub_value
            stub_modality stub_dose_attributes stub_dcmread stub_join
            (Some stub_walk) "linear" _ ("RTDOSE", []) ("RTPLAN", []) unit_cube _
            stub_parse_folder _ _ eq_refl Hn _).
  - now rewrite lookup_insert_eq.
  - now rewrite lookup_insert_ne, lookup_insert_eq by discriminate.
  - rewrite <- stub_configured. apply surjective_pairing.
Defined.

Lemma unconfigured_tool_raises_witness :
  parse_folder stub_modality stub_dcmread stub_join (Some [("ct", ["c.dcm"])])
  = Returns ∅
  /\ _get_datasets_from_folder stub_getitem stub_first_item stub_value
       stub_modality stub_dose_attributes stub_dcmread stub_join
       (Some [("ct", ["c.dcm"])]) (new_tool "linear")
     = (Returns tt, new_tool "linear")
  /\ Tool.get_profile (0, 0, 0) (0, 0, 1) 1 true "GY" false ZeroNone
       (new_tool "linear")
     = (Raises AttributeError, new_tool "linear").
Proof.
  assert (H : parse_folder stub_modality stub_dcmread stub_join
                (Some [("ct", ["c.dcm"])]) = Returns (∅ : gmap string stub_dataset))
    by reflexivity.
  split; [exact H|].
  exact (unconfigured_tool_raises stub_getitem stub_first_item stub_value
           stub_modality stub_dose_attributes stub_dcmread stub_join
           (Some [("ct", ["c.dcm"])]) "linear" ∅ (0, 0, 0) (0, 0, 1) 1 true "GY"
           false ZeroNone H (or_introl (lookup_empty _))).
Defined.
